(** * Moon-phase wall calendar (main.py): ephemeris sampling and ring glyph

    A shallow embedding of [main.py].  The program draws a twelve-month
    calendar; for every day it samples the Moon's illuminated fraction at
    local midnight of that day and of the next one, and draws a ring whose
    black arc encodes the fraction and the waxing/waning direction.

    Python values are modelled as the interpreter has them:
    - [int] is [Z];
    - [float] / [numpy.float64] is an IEEE-754 binary64 value, taken from the
      standard library's [spec_float] with [prec = 53], [emax = 1024];
    - a raised exception is the [Raise] branch of [result];
    - the [ImageDraw] surface is a list of drawing commands, threaded through
      the drawing code as explicit state;
    - the files on disk are part of that state: [Image.save] replaces a file
      of the same name, and it can fail, before or after it has opened the
      file.

    The third-party libraries (skyfield's ephemeris, lunardate, the font
    loader of PIL) are not part of the program: they are section variables. *)

From Stdlib Require Import ZArith List Bool Lia String Ascii QArith Qround Qabs.
From Stdlib Require Import Floats.SpecFloat.
From Stdlib Require Import DecimalString.
Import ListNotations.
Open Scope Z_scope.

(** ** Exceptions and results *)

(** The exception classes the program can meet. [EphemerisRangeError] is
    skyfield's error for an instant outside the loaded kernel's span. *)
Inductive exn : Type :=
| ValueError
| OverflowError
| OSError
| EphemerisRangeError.

Inductive result (A : Type) : Type :=
| Ok (a : A)
| Raise (e : exn).
Arguments Ok {A} a.
Arguments Raise {A} e.

Definition rbind {A B : Type} (r : result A) (k : A -> result B) : result B :=
  match r with
  | Ok a => k a
  | Raise e => Raise e
  end.

Declare Scope py_scope.
Delimit Scope py_scope with py.
Notation "'let?' x ':=' r 'in' k" := (rbind r (fun x => k))
  (at level 10, x name, r at level 100, k at level 200) : py_scope.
Notation "'let?' ' p ':=' r 'in' k" := (rbind r (fun p => k))
  (at level 10, p pattern, r at level 100, k at level 200) : py_scope.
Open Scope py_scope.

(** ** binary64 floats *)

Module PyFloat.

Definition prec : Z := 53.
Definition emax : Z := 1024.

Definition float64 : Type := spec_float.

(** [float(z)] for an integer [z]: rounded to nearest, even on ties. *)
Definition of_int (z : Z) : float64 := binary_normalize prec emax z 0 false.

(** The float nearest to [m * 2^e]; exact when [m] has at most 53 bits. *)
Definition of_dyadic (m e : Z) : float64 := binary_normalize prec emax m e false.

Definition mul (x y : float64) : float64 := SFmul prec emax x y.

(** [x > y], the IEEE comparison: false as soon as one side is NaN. *)
Definition gt (x y : float64) : bool := SFltb y x.
Definition le (x y : float64) : bool := SFleb x y.

Definition valid (x : float64) : bool := valid_binary prec emax x.

(** Magnitude of a finite float with mantissa [m] and exponent [e],
    truncated to an integer. *)
Definition trunc_mag (m : positive) (e : Z) : Z :=
  match e with
  | Zneg k => Z.shiftr (Zpos m) (Zpos k)
  | _ => Z.shiftl (Zpos m) e
  end.

(** [int(x)]: truncation toward zero. [int(nan)] raises [ValueError],
    [int(inf)] raises [OverflowError]. *)
Definition to_int (x : float64) : result Z :=
  match x with
  | S754_zero _ => Ok 0
  | S754_finite s m e => Ok (cond_Zopp s (trunc_mag m e))
  | S754_infinity _ => Raise OverflowError
  | S754_nan => Raise ValueError
  end.

(** The rational a float denotes (0 for NaN and the infinities). *)
Definition to_Q (x : float64) : Q :=
  match x with
  | S754_finite s m e =>
      match e with
      | Zneg k => Qmake (cond_Zopp s (Zpos m)) (2 ^ k)
      | _ => inject_Z (cond_Zopp s (Zpos m * 2 ^ e))
      end
  | _ => 0%Q
  end.

Definition is_finite (x : float64) : bool :=
  match x with
  | S754_zero _ | S754_finite _ _ _ => true
  | _ => false
  end.

End PyFloat.

(** ** [datetime]: proleptic Gregorian dates, timedeltas, fixed offsets

    The arithmetic of Python's [datetime] module, which the program reaches
    through [datetime(...)], [date + timedelta(days=1)] and [timezone(...)]. *)

Module PyDatetime.

Definition MINYEAR : Z := 1.
Definition MAXYEAR : Z := 9999.
Definition MAXORDINAL : Z := 3652059.

(** [l[i]] for an index the caller keeps in range. *)
Definition index (l : list Z) (i : Z) : Z := nth (Z.to_nat i) l 0.

Definition DAYS_IN_MONTH : list Z :=
  [-1; 31; 28; 31; 30; 31; 30; 31; 31; 30; 31; 30; 31].
Definition DAYS_BEFORE_MONTH : list Z :=
  [-1; 0; 31; 59; 90; 120; 151; 181; 212; 243; 273; 304; 334].

Definition is_leap (year : Z) : bool :=
  (year mod 4 =? 0) && (negb (year mod 100 =? 0) || (year mod 400 =? 0)).

Definition days_before_year (year : Z) : Z :=
  let y := year - 1 in y * 365 + y / 4 - y / 100 + y / 400.

Definition days_in_month (year month : Z) : Z :=
  if (month =? 2) && is_leap year then 29 else index DAYS_IN_MONTH month.

Definition days_before_month (year month : Z) : Z :=
  index DAYS_BEFORE_MONTH month + (if (2 <? month) && is_leap year then 1 else 0).

Definition ymd2ord (year month day : Z) : Z :=
  days_before_year year + days_before_month year month + day.

Definition DI400Y : Z := 146097.
Definition DI100Y : Z := 36524.
Definition DI4Y : Z := 1461.

Definition ord2ymd (n : Z) : Z * Z * Z :=
  let n := n - 1 in
  let n400 := n / DI400Y in
  let n := n mod DI400Y in
  let year := n400 * 400 + 1 in
  let n100 := n / DI100Y in
  let n := n mod DI100Y in
  let n4 := n / DI4Y in
  let n := n mod DI4Y in
  let n1 := n / 365 in
  let n := n mod 365 in
  let year := year + (n100 * 100 + n4 * 4 + n1) in
  if (n1 =? 4) || (n100 =? 4) then (year - 1, 12, 31)
  else
    let leapyear := (n1 =? 3) && (negb (n4 =? 24) || (n100 =? 3)) in
    let month := Z.shiftr (n + 50) 5 in
    let preceding :=
      index DAYS_BEFORE_MONTH month + (if (2 <? month) && leapyear then 1 else 0) in
    if n <? preceding then
      let month := month - 1 in
      let preceding :=
        preceding - (index DAYS_IN_MONTH month
                     + (if (month =? 2) && leapyear then 1 else 0)) in
      (year, month, n - preceding + 1)
    else (year, month, n - preceding + 1).

Record date : Type := mkdate { year : Z; month : Z; day : Z }.

(** [_check_date_fields] *)
Definition check_date_fields (y m d : Z) : bool :=
  (MINYEAR <=? y) && (y <=? MAXYEAR) && (1 <=? m) && (m <=? 12)
  && (1 <=? d) && (d <=? days_in_month y m).

(** The constructors of the C [datetime] module read their fields as C
    [int]s: a field outside that range raises [OverflowError], before the
    date is checked. *)
Definition C_INT_MIN : Z := -2147483648.
Definition C_INT_MAX : Z := 2147483647.

Definition fits_c_int (z : Z) : bool := (C_INT_MIN <=? z) && (z <=? C_INT_MAX).

(** [datetime.date(y, m, d)] *)
Definition new_date (y m d : Z) : result date :=
  if fits_c_int y && fits_c_int m && fits_c_int d then
    if check_date_fields y m d then Ok (mkdate y m d) else Raise ValueError
  else Raise OverflowError.

Definition valid_date (d : date) : bool :=
  check_date_fields (year d) (month d) (day d).

Definition toordinal (d : date) : Z := ymd2ord (year d) (month d) (day d).

Definition fromordinal (n : Z) : date :=
  let '(y, m, d) := ord2ymd n in mkdate y m d.

(** [date.weekday()]: Monday is 0. *)
Definition weekday (d : date) : Z := (toordinal d + 6) mod 7.

(** A [timedelta], as its total number of microseconds. *)
Definition timedelta : Type := Z.

Definition US_PER_SECOND : Z := 1000000.
Definition US_PER_DAY : Z := 86400 * US_PER_SECOND.
Definition MAX_DELTA_DAYS : Z := 999999999.

(** The constructor normalises and refuses more than 999999999 days. *)
Definition new_timedelta (us : Z) : result timedelta :=
  let days := us / US_PER_DAY in
  if (- MAX_DELTA_DAYS <=? days) && (days <=? MAX_DELTA_DAYS)
  then Ok us else Raise OverflowError.

Definition timedelta_days (n : Z) : result timedelta :=
  new_timedelta (n * US_PER_DAY).
Definition timedelta_hours (n : Z) : result timedelta :=
  new_timedelta (n * 3600 * US_PER_SECOND).

(** [timezone(offset)]: a fixed offset strictly between -24h and +24h. *)
Record timezone : Type := mktz { utcoffset : timedelta }.

Definition new_timezone (offset : timedelta) : result timezone :=
  if (- US_PER_DAY <? offset) && (offset <? US_PER_DAY)
  then Ok (mktz offset) else Raise ValueError.

(** A [datetime] is a [date] with a time of day and an optional zone. *)
Record datetime : Type := mkdatetime {
  civil : date;
  hour : Z;
  minute : Z;
  second : Z;
  microsecond : Z;
  tzinfo : option timezone
}.

(** [datetime(year=y, month=m, day=d, tzinfo=tz)]: the time fields take
    their default, 0. *)
Definition new_datetime (y m d : Z) (tz : option timezone) : result datetime :=
  let? c := new_date y m d in
  Ok (mkdatetime c 0 0 0 0 tz).

(** Microseconds from the start of ordinal day 0, on the datetime's own
    (local) clock. *)
Definition local_us (dt : datetime) : Z :=
  ((toordinal (civil dt) * 86400
    + hour dt * 3600 + minute dt * 60 + second dt) * US_PER_SECOND)
  + microsecond dt.

(** [dt + delta]: the sum is split again into days, seconds and
    microseconds; the zone is kept; a day outside 1..MAXORDINAL raises. *)
Definition datetime_add (dt : datetime) (delta : timedelta) : result datetime :=
  let total := local_us dt + delta in
  let days := total / US_PER_DAY in
  let seconds := (total mod US_PER_DAY) / US_PER_SECOND in
  let us := total mod US_PER_SECOND in
  let hour := seconds / 3600 in
  let rem := seconds mod 3600 in
  let minute := rem / 60 in
  let second := rem mod 60 in
  if (0 <? days) && (days <=? MAXORDINAL)
  then Ok (mkdatetime (fromordinal days) hour minute second us (tzinfo dt))
  else Raise OverflowError.

End PyDatetime.

(** ** Lists the way the program uses them *)

Definition zrange (a b : Z) : list Z :=
  map (fun i => a + Z.of_nat i) (seq 0 (Z.to_nat (b - a))).

(** [enumerate(l)] *)
Definition enumerate {A : Type} (l : list A) : list (Z * A) :=
  combine (zrange 0 (Z.of_nat (List.length l))) l.

Fixpoint chunks_fuel {A : Type} (fuel : nat) (n : nat) (l : list A) : list (list A) :=
  match fuel with
  | O => []
  | S fuel' =>
      match l with
      | [] => []
      | _ => firstn n l :: chunks_fuel fuel' n (skipn n l)
      end
  end.

(** [[l[i:i+n] for i in range(0, len(l), n)]] *)
Definition chunks {A : Type} (n : nat) (l : list A) : list (list A) :=
  chunks_fuel (List.length l) n l.

Fixpoint mapM {A B : Type} (f : A -> result B) (l : list A) : result (list B) :=
  match l with
  | [] => Ok []
  | a :: l' =>
      let? b := f a in
      let? bs := mapM f l' in
      Ok (b :: bs)
  end.

(** ** [calendar]: the month grids *)

Module PyCalendar.
Import PyDatetime.

Definition SUNDAY : Z := 6.
Definition February : Z := 2.

Definition mdays : list Z := [0; 31; 28; 31; 30; 31; 30; 31; 31; 30; 31; 30; 31].

Definition month_name : list string :=
  [""; "January"; "February"; "March"; "April"; "May"; "June"; "July";
   "August"; "September"; "October"; "November"; "December"]%string.

Definition isleap (year : Z) : bool :=
  (year mod 4 =? 0) && (negb (year mod 100 =? 0) || (year mod 400 =? 0)).

(** [calendar.weekday]: a year [datetime] cannot hold is replaced by one
    with the same weekdays. *)
Definition weekday (year month day : Z) : result Z :=
  let year :=
    if (MINYEAR <=? year) && (year <=? MAXYEAR) then year
    else 2000 + year mod 400 in
  let? d := new_date year month day in
  Ok (PyDatetime.weekday d).

Definition monthlen (year month : Z) : Z :=
  index mdays month + (if (month =? February) && isleap year then 1 else 0).

Definition monthrange (year month : Z) : result (Z * Z) :=
  if (1 <=? month) && (month <=? 12) then
    let? day1 := weekday year month 1 in
    Ok (day1, monthlen year month)
  else Raise ValueError.

Definition prevmonth (year month : Z) : Z * Z :=
  if month =? 1 then (year - 1, 12) else (year, month - 1).

Definition nextmonth (year month : Z) : Z * Z :=
  if month =? 12 then (year + 1, 1) else (year, month + 1).

Definition itermonthdays3 (firstweekday year month : Z) : result (list (Z * Z * Z)) :=
  let? '(day1, ndays) := monthrange year month in
  let days_before := (day1 - firstweekday) mod 7 in
  let days_after := (firstweekday - day1 - ndays) mod 7 in
  let '(py, pm) := prevmonth year month in
  let end_ := monthlen py pm + 1 in
  let '(ny, nm) := nextmonth year month in
  Ok (map (fun d => (py, pm, d)) (zrange (end_ - days_before) end_)
      ++ map (fun d => (year, month, d)) (zrange 1 (ndays + 1))
      ++ map (fun d => (ny, nm, d)) (zrange 1 (days_after + 1))).

(** [list(itermonthdates(year, month))] *)
Definition itermonthdates (firstweekday year month : Z) : result (list date) :=
  let? l := itermonthdays3 firstweekday year month in
  mapM (fun '(y, m, d) => new_date y m d) l.

Definition monthdatescalendar (firstweekday year month : Z) : result (list (list date)) :=
  let? dates := itermonthdates firstweekday year month in
  Ok (chunks 7 dates).

Definition yeardatescalendar (firstweekday year : Z) (width : nat)
  : result (list (list (list (list date)))) :=
  let? months := mapM (monthdatescalendar firstweekday year) (zrange 1 13) in
  Ok (chunks width months).

End PyCalendar.

(** ** skyfield: instants *)

Module Skyfield.
Import PyDatetime.

(** A [Time] built by [ts.from_datetime] is fixed by the UTC reading of the
    datetime; it is kept as microseconds of UTC from the start of ordinal
    day 0. *)
Record Time : Type := mkTime { utc_us : Z }.

(** [ts.from_datetime(dt)]: a naive datetime is refused; an aware one is
    taken to UTC ([dt - dt.utcoffset()], which raises when it leaves the
    range of [datetime]). *)
Definition from_datetime (dt : datetime) : result Time :=
  match tzinfo dt with
  | None => Raise ValueError
  | Some tz =>
      let? u := datetime_add dt (- utcoffset tz) in
      Ok (mkTime (local_us u))
  end.

End Skyfield.

(** ** lunardate *)

Module LunarDate.
Record t : Type := mk { year : Z; month : Z; day : Z; isLeapMonth : bool }.
End LunarDate.

(** ** PIL: the drawing surface *)

Module PIL.

Inductive color : Type :=
| RGB (r g b : Z)
| Named (name : string).

Record font : Type := mkfont { font_name : string; font_size : Z }.

Inductive draw_cmd : Type :=
| Text (xy : Z * Z) (text : string) (f : font) (fill : color) (anchor : string)
| Line (xy : Z * Z * Z * Z) (fill : color) (width : Z)
| Rectangle (xy : Z * Z * Z * Z) (fill : color)
| Ellipse (bbox : list Z) (fill : option color) (outline : color) (width : Z)
| Arc (bbox : list Z) (start end_ : Z) (fill : color) (width : Z).

(** A file on disk: a saved picture, or what an interrupted write leaves
    of one. *)
Inductive file : Type :=
| Picture (strokes : list draw_cmd)
| Truncated.

(** How the file system answers [Image.save] at a path: the picture is
    written; or the file cannot be opened for writing ([OSError], nothing
    is touched); or it is opened, which truncates it, and the write then
    fails ([OSError]). *)
Inductive write_answer : Type :=
| Written
| Refused
| Interrupted.

Record filesystem : Type := mkfs {
  entries : list (string * file);
  answer : string -> write_answer
}.

Definition read (name : string) (fs : filesystem) : option file :=
  match find (fun e => String.eqb (fst e) name) (entries fs) with
  | Some e => Some (snd e)
  | None => None
  end.

(** Writing a file replaces the one of that name. *)
Definition store (name : string) (f : file) (fs : filesystem) : filesystem :=
  mkfs ((name, f) :: filter (fun e => negb (String.eqb (fst e) name)) (entries fs))
    (answer fs).

(** What the process can change: the image being drawn (its strokes, in
    drawing order, over a background) and the file system. *)
Record world : Type := mkworld {
  canvas : list draw_cmd;
  files : filesystem
}.

End PIL.

(** ** Stateful code: a drawing either returns or raises, and leaves the
    surface as it was at that point *)

Definition M (A : Type) : Type := PIL.world -> result A * PIL.world.

Definition ret {A : Type} (a : A) : M A := fun w => (Ok a, w).

Definition bind {A B : Type} (m : M A) (k : A -> M B) : M B :=
  fun w =>
    match m w with
    | (Ok a, w') => k a w'
    | (Raise e, w') => (Raise e, w')
    end.

Definition lift {A : Type} (r : result A) : M A := fun w => (r, w).

Notation "'do' x '<-' m ';' k" := (bind m (fun x => k))
  (at level 10, x name, m at level 100, k at level 200) : py_scope.
Notation "'do' ' p '<-' m ';' k" := (bind m (fun p => k))
  (at level 10, p pattern, m at level 100, k at level 200) : py_scope.
Notation "m ';;' k" := (bind m (fun _ => k))
  (at level 61, right associativity) : py_scope.

(** [for x in l: body(x)] *)
Fixpoint for_each {A : Type} (l : list A) (body : A -> M unit) : M unit :=
  match l with
  | [] => ret tt
  | a :: l' => body a ;; for_each l' body
  end.

(** One call on the [ImageDraw] object: the stroke is added on top of the
    ones already there. The calls the program makes are taken to return. *)
Definition draw (c : PIL.draw_cmd) : M unit :=
  fun w => (Ok tt, PIL.mkworld (PIL.canvas w ++ [c]) (PIL.files w)).

(** [Image.new(...)]: a blank surface. *)
Definition new_image : M unit :=
  fun w => (Ok tt, PIL.mkworld [] (PIL.files w)).

(** [image.save(name)]: the file is opened for writing, which creates it or
    truncates it, and the picture is written into it. When the write fails,
    PIL removes the file if this call created it, and otherwise leaves the
    earlier file truncated. *)
Definition save (name : string) : M unit :=
  fun w =>
    match PIL.answer (PIL.files w) name with
    | PIL.Written =>
        (Ok tt,
         PIL.mkworld (PIL.canvas w)
           (PIL.store name (PIL.Picture (PIL.canvas w)) (PIL.files w)))
    | PIL.Refused => (Raise OSError, w)
    | PIL.Interrupted =>
        (Raise OSError,
         PIL.mkworld (PIL.canvas w)
           (match PIL.read name (PIL.files w) with
            | Some _ => PIL.store name PIL.Truncated (PIL.files w)
            | None => PIL.files w
            end))
    end.

(** The decimal digits of an integer: what [str(z)] returns when it
    returns. The program also takes them of the day of a [date], which is
    never above 31. *)
Definition str (z : Z) : string := NilZero.string_of_int (Z.to_int z).

Module PyInt.

(** [sys.int_max_str_digits]: an [int] of more decimal digits is not
    converted to a string. *)
Definition MAX_STR_DIGITS : Z := 4300.

(** [str(z)] of an [int]: [ValueError] beyond the digit limit. *)
Definition str (z : Z) : result string :=
  if Z.abs z <? 10 ^ MAX_STR_DIGITS
  then Ok (NilZero.string_of_int (Z.to_int z))
  else Raise ValueError.

End PyInt.

(** ** main.py *)

Import PyDatetime.

(** *** Constants *)

Definition WIDTH : Z := 3508.
Definition HEIGHT : Z := 2480.
Definition PADDING : Z := 100.

Definition PSTART : Z := 400.
Definition HSPACE : Z := 680.
Definition WSPACE : Z := 791.
Definition ASPACE : Z := WSPACE / 7.
Definition WGAP : Z := PADDING / 2.
Definition DGAP_OFFSET : Z := 20.
Definition BGAP : Z := 80.

Definition FZ_YEAR : Z := 300.
Definition FZ_MONTH : Z := 80.
Definition FZ_WEEK : Z := 40.
Definition FONT_NAME : string := "consolas.ttf".

Definition COLOR_WHITE : PIL.color := PIL.RGB 255 255 255.
Definition COLOR_BLACK : PIL.color := PIL.RGB 0 0 0.
Definition COLOR_RED : PIL.color := PIL.Named "red".
Definition COLOR_BLUE : PIL.color := PIL.Named "blue".
Definition COLOR_GRAY_LIGHT : PIL.color := PIL.Named "#eeeeee".
Definition COLOR_GRAY_BORDER : PIL.color := PIL.RGB 180 180 180.
Definition COLOR_YELLOW : PIL.color := PIL.RGB 255 255 0.
Definition COLOR_LUNAR_NEW_MOON : PIL.color := PIL.RGB 255 205 210.
Definition COLOR_LUNAR_FULL_MOON : PIL.color := PIL.RGB 187 222 251.

Definition WEEKDAY_LIST : list string := ["S"; "M"; "T"; "W"; "T"; "F"; "S"]%string.

(** The entries of [draw_context] that reach the ephemeris: the chain
    [earth.at(t).observe(moon).apparent().fraction_illuminated(sun)], which
    either yields a float or raises. The ['draw'] entry is the surface the
    drawing monad threads. *)
Record draw_context : Type := mkctx {
  fraction_illuminated : Skyfield.Time -> result PyFloat.float64
}.

(** *** Functions *)

Section Program.

(** skyfield with the loaded kernel (the globals [ts], [earth], [moon],
    [sun]). *)
Variable ephemeris : Skyfield.Time -> result PyFloat.float64.
(** [LunarDate.fromSolarDate] *)
Variable fromSolarDate : Z -> Z -> Z -> result LunarDate.t.
(** [ImageFont.truetype] *)
Variable truetype : string -> Z -> result PIL.font.
(** [datetime.now().year] *)
Variable now_year : Z.

Definition get_illum_waxing (date : datetime) (ctx : draw_context)
  : result (PyFloat.float64 * bool) :=
  let? t := Skyfield.from_datetime date in
  let? one_day := timedelta_days 1 in
  let? next := datetime_add date one_day in
  let? tn := Skyfield.from_datetime next in
  let? illum := fraction_illuminated ctx t in
  let? illum_next := fraction_illuminated ctx tn in
  Ok (illum, PyFloat.gt illum_next illum).

Definition get_lunar_color (date : datetime) : result (option PIL.color) :=
  let? lunar := fromSolarDate (year (civil date)) (month (civil date)) (day (civil date)) in
  if LunarDate.day lunar =? 1 then Ok (Some COLOR_LUNAR_NEW_MOON)
  else if LunarDate.day lunar =? 15 then Ok (Some COLOR_LUNAR_FULL_MOON)
  else Ok None.

Definition draw_moon_ring (cx cy radius : Z) (date : datetime) (ctx : draw_context)
  : M unit :=
  do '(illum, waxing) <- lift (get_illum_waxing date ctx);
  let bbox := [cx - radius; cy - radius; cx + radius; cy + radius] in
  let start := -90 in
  do sweep <- lift (PyFloat.to_int (PyFloat.mul (PyFloat.of_int 360) illum));
  let end_ := if waxing : bool then start + sweep else start - sweep in
  do ellipse_color <- lift (get_lunar_color date);
  draw (PIL.Ellipse bbox ellipse_color COLOR_GRAY_BORDER 2) ;;
  draw (PIL.Arc bbox 0 360 COLOR_YELLOW 4) ;;
  draw (PIL.Arc bbox start end_ COLOR_BLACK 4).

(** [draw.text(xy, text=..., font=ImageFont.truetype(FONT_NAME, size), ...)] *)
Definition draw_text (xy : Z * Z) (text : string) (size : Z) (fill : PIL.color) : M unit :=
  do f <- lift (truetype FONT_NAME size);
  draw (PIL.Text xy text f fill "mt").

(** The body of the innermost loop: one cell of a week. *)
Definition draw_cell (tz : timezone) (ctx : draw_context) (month_index : Z)
    (BOX_POSITION_X1 DATE_POSITION_Y1 DATE_POSITION_Y2 : Z)
    (cell : Z * date) : M unit :=
  let '(d_index, date) := cell in
  let DATE_POSITION_X1 := BOX_POSITION_X1 + d_index * ASPACE in
  let DATE_POSITION_X2 := DATE_POSITION_X1 + ASPACE in
  if negb (month date =? month_index) then ret tt
  else
    (if (d_index =? 0) || (d_index =? 6)
     then draw (PIL.Rectangle
                  (DATE_POSITION_X1, DATE_POSITION_Y1, DATE_POSITION_X2, DATE_POSITION_Y2)
                  COLOR_GRAY_LIGHT)
     else ret tt) ;;
    do date_with_tz <- lift (new_datetime (year date) (month date) (day date) (Some tz));
    draw_moon_ring (DATE_POSITION_X1 + ASPACE / 2) (DATE_POSITION_Y1 + 33) 30
      date_with_tz ctx ;;
    let date_color :=
      if d_index =? 0 then COLOR_RED
      else if d_index =? 6 then COLOR_BLUE
      else COLOR_BLACK in
    draw_text (DATE_POSITION_X1 + ASPACE / 2, DATE_POSITION_Y1 + FZ_WEEK / 2)
      (str (day date)) FZ_WEEK date_color.

Definition draw_week (tz : timezone) (ctx : draw_context) (month_index : Z)
    (BOX_POSITION_X1 BOX_POSITION_Y1 dgap : Z)
    (wk : Z * list date) : M unit :=
  let '(w_index, weekday) := wk in
  let DATE_POSITION_Y1 := BOX_POSITION_Y1 + dgap + w_index * BGAP in
  let DATE_POSITION_Y2 := DATE_POSITION_Y1 + BGAP in
  for_each (enumerate weekday)
    (draw_cell tz ctx month_index BOX_POSITION_X1 DATE_POSITION_Y1 DATE_POSITION_Y2).

Definition draw_month (tz : timezone) (ctx : draw_context) (r_index dgap : Z)
    (mo : Z * list (list date)) : M unit :=
  let '(m_index, month) := mo in
  let month_index := m_index + r_index * 4 + 1 in
  let month_name := nth (Z.to_nat month_index) PyCalendar.month_name ""%string in
  let BOX_POSITION_X1 := PADDING + m_index * WGAP + m_index * WSPACE in
  let BOX_POSITION_Y1 := PSTART + r_index * HSPACE in
  let BOX_POSITION_X2 := BOX_POSITION_X1 + WSPACE in
  let BOX_POSITION_Y2 := BOX_POSITION_Y1 + HSPACE in
  draw_text (BOX_POSITION_X2 - WSPACE / 2, BOX_POSITION_Y1 - 20)
    month_name FZ_MONTH COLOR_BLACK ;;
  for_each (enumerate WEEKDAY_LIST)
    (fun '(a_index, abbr) =>
       draw_text (BOX_POSITION_X1 + ASPACE * a_index + ASPACE / 2,
                  BOX_POSITION_Y1 + FZ_MONTH)
         abbr FZ_WEEK COLOR_BLACK) ;;
  draw (PIL.Line (BOX_POSITION_X1, BOX_POSITION_Y1 + FZ_MONTH + FZ_WEEK,
                  BOX_POSITION_X2, BOX_POSITION_Y1 + FZ_MONTH + FZ_WEEK)
          COLOR_BLACK 3) ;;
  for_each (enumerate month)
    (draw_week tz ctx month_index BOX_POSITION_X1 BOX_POSITION_Y1 dgap).

Definition draw_row (tz : timezone) (ctx : draw_context) (dgap : Z)
    (rw : Z * list (list (list date))) : M unit :=
  let '(r_index, row) := rw in
  for_each (enumerate row) (draw_month tz ctx r_index dgap).

Definition generate_calendar (tz_offset : Z) (year : option Z) : M unit :=
  let year := match year with None => now_year | Some y => y end in
  do offset <- lift (timedelta_hours tz_offset);
  do tz <- lift (new_timezone offset);
  new_image ;;
  let ctx := mkctx ephemeris in
  do title <- lift (PyInt.str year);
  draw_text (WIDTH / 2, PADDING) title FZ_YEAR COLOR_BLACK ;;
  do data <- lift (PyCalendar.yeardatescalendar PyCalendar.SUNDAY year 4);
  let dgap := FZ_MONTH + FZ_WEEK + DGAP_OFFSET in
  for_each (enumerate data) (draw_row tz ctx dgap) ;;
  save "calendar.png".

End Program.

(** ** Vocabulary of the properties *)

(** A fraction as the ring renderer expects it: a float [x] with
    [0 <= x <= 1] (which rules out NaN and the infinities). *)
Definition in_unit (x : PyFloat.float64) : bool :=
  PyFloat.valid x && PyFloat.le (PyFloat.of_int 0) x && PyFloat.le x (PyFloat.of_int 1).

(** [z] is an integer nearest to [q]: what "rounded to the nearest integer"
    allows, whatever the rule on ties. *)
Definition nearest_integer (q : Q) (z : Z) : Prop :=
  (Qabs (q - inject_Z z) <= 1 # 2)%Q.

(** A finite float [m * 2^e] as a fraction [scaled m e / scale e] of
    integers. *)
Definition scaled (m : positive) (e : Z) : Z := Zpos m * 2 ^ Z.max e 0.
Definition scale (e : Z) : Z := 2 ^ Z.max (- e) 0.

(** What [k] right shifts leave of [M]: the quotient, and clean round and
    sticky bits when nothing was lost. *)
Definition shifted (M k : Z) (mrs : shr_record) : Prop :=
  shr_m mrs = M / 2 ^ k
  /\ (M mod 2 ^ k = 0 -> shr_r mrs = false /\ shr_s mrs = false).

(** The last steps of [ord2ymd]: month and day from the 0-based day number
    [n] within a year. *)
Definition month_day (leapyear : bool) (n : Z) : Z * Z :=
  let month := Z.shiftr (n + 50) 5 in
  let preceding :=
    index DAYS_BEFORE_MONTH month + (if (2 <? month) && leapyear then 1 else 0) in
  if n <? preceding then
    let month := month - 1 in
    let preceding :=
      preceding - (index DAYS_IN_MONTH month
                   + (if (month =? 2) && leapyear then 1 else 0)) in
    (month, n - preceding + 1)
  else (month, n - preceding + 1).

Definition month_day_ok (leapyear : bool) (n : Z) : bool :=
  let '(m, d) := month_day leapyear n in
  (1 <=? m) && (m <=? 12) && (1 <=? d)
  && (d <=? (if (m =? 2) && leapyear then 29 else index DAYS_IN_MONTH m))
  && (index DAYS_BEFORE_MONTH m + (if (2 <? m) && leapyear then 1 else 0) + d =? n + 1).

(** The box of a ring: center plus and minus radius. *)
Definition ring_bbox (cx cy radius : Z) : list Z :=
  [cx - radius; cy - radius; cx + radius; cy + radius].

(** The surface after some more strokes; no file is touched. *)
Definition strokes_after (w : PIL.world) (cmds : list PIL.draw_cmd) : PIL.world :=
  PIL.mkworld (PIL.canvas w ++ cmds) (PIL.files w).

(** The first failure in a sequence of outcomes. *)
Definition first_raise (l : list (result unit)) : result unit :=
  fold_right (fun r acc => match r with Ok _ => acc | Raise e => Raise e end) (Ok tt) l.

Definition keeps_files {A : Type} (m : M A) : Prop :=
  forall w, PIL.files (snd (m w)) = PIL.files w.

(** [m] returns or raises as [r] says, whatever the surface it starts on. *)
Definition has_outcome {A : Type} (m : M A) (r : result unit) : Prop :=
  forall w, match fst (m w), r with
            | Ok _, Ok _ => True
            | Raise e, Raise e' => e = e'
            | _, _ => False
            end.

(** The dates a year's grid draws a ring for, in drawing order: in every
    month's weeks, the days that belong to that month. *)
Definition grid_cells (data : list (list (list (list date)))) : list date :=
  flat_map (fun '(r_index, row) =>
    flat_map (fun '(m_index, month_) =>
      flat_map (fun '(w_index, week) =>
        filter (fun date : date => month date =? m_index + r_index * 4 + 1) week)
        (enumerate (A := list date) month_))
      (enumerate (A := list (list date)) row))
    (enumerate data).

Section CellOutcome.
Variable fromSolarDate : Z -> Z -> Z -> result LunarDate.t.
Variable truetype : string -> Z -> result PIL.font.

(** Whether drawing the cell of a date returns or raises: every step of
    the cell that can fail, in the order the cell runs them. *)
Definition cell_outcome (tz : timezone) (ctx : draw_context) (date : date) : result unit :=
  let? date_with_tz := new_datetime (year date) (month date) (day date) (Some tz) in
  let? '(illum, _) := get_illum_waxing date_with_tz ctx in
  let? _ := PyFloat.to_int (PyFloat.mul (PyFloat.of_int 360) illum) in
  let? _ := get_lunar_color fromSolarDate date_with_tz in
  let? _ := truetype FONT_NAME FZ_WEEK in
  Ok tt.

(** The three font sizes the page uses load. *)
Definition fonts_ok : Prop :=
  forall size, In size [FZ_YEAR; FZ_MONTH; FZ_WEEK] ->
               exists f, truetype FONT_NAME size = Ok f.
End CellOutcome.

(** ** Stand-ins for the libraries, to run the program on concrete inputs *)

Module Sample.

(** An ephemeris that covers 1899-07-29 to 2053-10-09, as the de421
    kernel does, with a 30-day sawtooth for the fraction. *)
Definition FIRST_DAY : Z := ymd2ord 1899 7 29.
Definition LAST_DAY : Z := ymd2ord 2053 10 9.

Definition ephemeris (t : Skyfield.Time) : result PyFloat.float64 :=
  let day := Skyfield.utc_us t / US_PER_DAY in
  if (FIRST_DAY <=? day) && (day <? LAST_DAY) then
    let p := day mod 30 in
    Ok (PyFloat.of_dyadic (if p <? 15 then p else 30 - p) (-4))
  else Raise EphemerisRangeError.

(** An ephemeris that answers the same fraction at every instant. *)
Definition constant (x : PyFloat.float64) (t : Skyfield.Time) : result PyFloat.float64 :=
  Ok x.

(** A lunar calendar with 30-day months, for the years lunardate covers. *)
Definition fromSolarDate (y m d : Z) : result LunarDate.t :=
  if (1900 <=? y) && (y <? 2100)
  then Ok (LunarDate.mk y m (ymd2ord y m d mod 30 + 1) false)
  else Raise ValueError.

Definition truetype (name : string) (size : Z) : result PIL.font :=
  Ok (PIL.mkfont name size).

(** A new image, and a disk with no file that accepts every write. *)
Definition blank : PIL.world := PIL.mkworld [] (PIL.mkfs [] (fun _ => PIL.Written)).

(** A disk that holds an earlier [calendar.png] and gives up in the middle
    of every write. *)
Definition full_disk : PIL.world :=
  PIL.mkworld []
    (PIL.mkfs [("calendar.png"%string, PIL.Picture [])] (fun _ => PIL.Interrupted)).

Definition utc_plus_7 : timezone := mktz (7 * 3600 * US_PER_SECOND).

(** 2026-11-03 00:00 at UTC+7, and the same day at 18:30 UTC. *)
Definition midnight : datetime :=
  mkdatetime (mkdate 2026 11 3) 0 0 0 0 (Some utc_plus_7).
Definition evening : datetime :=
  mkdatetime (mkdate 2026 11 3) 18 30 0 0 (Some (mktz 0)).

(** The grid of a year, empty when the calendar cannot be built. *)
Definition grid (year : Z) : list (list (list (list date))) :=
  match PyCalendar.yeardatescalendar PyCalendar.SUNDAY year 4 with
  | Ok data => data
  | Raise _ => []
  end.

End Sample.

(** ** Vocabulary of the properties of a run *)

(** The civil date after [d]. *)
Definition tomorrow (d : date) : date :=
  if day d <? days_in_month (year d) (month d)
  then mkdate (year d) (month d) (day d + 1)
  else if month d <? 12 then mkdate (year d) (month d + 1) 1
       else mkdate (year d + 1) 1 1.

(** The days of a month and of a year, in order. *)
Definition days_of_month (y m : Z) : list date :=
  map (mkdate y m) (zrange 1 (days_in_month y m + 1)).

Definition days_of_year (y : Z) : list date :=
  flat_map (days_of_month y) (zrange 1 13).

(** The in-month days of one month grid. *)
Definition in_month (m : Z) (grid : list (list date)) : list date :=
  flat_map (fun '(w_index, week) => filter (fun date : date => month date =? m) week)
    (enumerate grid).

(** The date of a triple of [itermonthdays3]. *)
Definition date_of_triple (t : Z * Z * Z) : date :=
  let '(y, m, d) := t in mkdate y m d.

Section Observed.
Context {X : Type}.
Variable obs : PIL.draw_cmd -> list X.

(** What the strokes of a surface show, in drawing order, under a reading
    [obs] of the single strokes. *)
Definition view (w : PIL.world) : list X := flat_map obs (PIL.canvas w).

(** [m], when it returns, has added [out] to what the surface shows. *)
Definition adds {A : Type} (m : M A) (out : list X) : Prop :=
  forall w a w', m w = (Ok a, w') -> view w' = view w ++ out.

End Observed.

(** What a stroke shows of a ring, leaving out where it is drawn: a disk
    with its fill, or an arc with its angles and color. Texts, lines and
    rectangles show nothing of a ring. *)
Inductive ring_part : Type :=
| Disk (fill : option PIL.color)
| ArcOf (start end_ : Z) (color : PIL.color).

Definition ring_parts_of (c : PIL.draw_cmd) : list ring_part :=
  match c with
  | PIL.Ellipse _ fill _ _ => [Disk fill]
  | PIL.Arc _ start end_ color _ => [ArcOf start end_ color]
  | _ => []
  end.

(** The ring parts on a surface, in drawing order. *)
Definition ring_view (w : PIL.world) : list ring_part := view ring_parts_of w.

(** The parts of a ring with a given fill and end angle: the disk, the
    yellow outline, the black sweep from the top. *)
Definition ring_parts (p : option PIL.color * Z) : list ring_part :=
  [Disk (fst p); ArcOf 0 360 COLOR_YELLOW; ArcOf (-90) (snd p) COLOR_BLACK].

Section RingOfDay.
Variable fromSolarDate : Z -> Z -> Z -> result LunarDate.t.

(** The fill and the end angle of the ring of a datetime, as
    [draw_moon_ring] computes them. *)
Definition ring_params (date : datetime) (ctx : draw_context)
  : result (option PIL.color * Z) :=
  let? '(illum, waxing) := get_illum_waxing date ctx in
  let? sweep := PyFloat.to_int (PyFloat.mul (PyFloat.of_int 360) illum) in
  let? fill := get_lunar_color fromSolarDate date in
  Ok (fill, if waxing : bool then -90 + sweep else -90 - sweep).

(** The ring of a civil day under an offset: what the cell of the day hands
    to [draw_moon_ring]. *)
Definition day_ring (tz : timezone) (ctx : draw_context) (d : date)
  : result (option PIL.color * Z) :=
  let? date_with_tz := new_datetime (year d) (month d) (day d) (Some tz) in
  ring_params date_with_tz ctx.

(** The three parts of the ring of a day; nothing when the ring cannot be
    computed. *)
Definition ring_of_day (tz : timezone) (ctx : draw_context) (d : date) : list ring_part :=
  match day_ring tz ctx d with
  | Ok p => ring_parts p
  | Raise _ => []
  end.

End RingOfDay.

(** The fills of the disks on a surface, in drawing order. *)
Definition disks (w : PIL.world) : list (option PIL.color) :=
  flat_map (fun c => match c with PIL.Ellipse _ fill _ _ => [fill] | _ => [] end)
    (PIL.canvas w).

(** The marks of the weekend: the shade of a cell, and a day number that is
    not black. *)
Inductive weekend_mark : Type :=
| Shade (fill : PIL.color)
| DayNumber (text : string) (fill : PIL.color).

Definition is_black (c : PIL.color) : bool :=
  match c with
  | PIL.RGB 0 0 0 => true
  | _ => false
  end.

Definition weekend_marks_of (c : PIL.draw_cmd) : list weekend_mark :=
  match c with
  | PIL.Rectangle _ fill => [Shade fill]
  | PIL.Text _ text _ fill _ => if is_black fill then [] else [DayNumber text fill]
  | _ => []
  end.

(** The marks of a day: Sunday is weekday 6 and Saturday weekday 5. *)
Definition weekend_marks (d : date) : list weekend_mark :=
  if weekday d =? 6 then [Shade COLOR_GRAY_LIGHT; DayNumber (str (day d)) COLOR_RED]
  else if weekday d =? 5 then [Shade COLOR_GRAY_LIGHT; DayNumber (str (day d)) COLOR_BLUE]
  else [].

(** The marks of a cell, by its column. *)
Definition column_marks (d_index : Z) (d : date) : list weekend_mark :=
  (if (d_index =? 0) || (d_index =? 6) then [Shade COLOR_GRAY_LIGHT] else [])
  ++ (if d_index =? 0 then [DayNumber (str (day d)) COLOR_RED]
      else if d_index =? 6 then [DayNumber (str (day d)) COLOR_BLUE]
      else []).

(** A box within the page, and the strokes whose box or anchor is not. *)
Definition box_on_page (x1 y1 x2 y2 : Z) : bool :=
  (0 <=? x1) && (x1 <=? x2) && (x2 <=? WIDTH)
  && (0 <=? y1) && (y1 <=? y2) && (y2 <=? HEIGHT).

Definition on_page (c : PIL.draw_cmd) : bool :=
  match c with
  | PIL.Text (x, y) _ _ _ _ => box_on_page x y x y
  | PIL.Line (x1, y1, x2, y2) _ _ => box_on_page x1 y1 x2 y2
  | PIL.Rectangle (x1, y1, x2, y2) _ => box_on_page x1 y1 x2 y2
  | PIL.Ellipse [x1; y1; x2; y2] _ _ _ => box_on_page x1 y1 x2 y2
  | PIL.Arc [x1; y1; x2; y2] _ _ _ _ => box_on_page x1 y1 x2 y2
  | _ => false
  end.

Definition off_page (c : PIL.draw_cmd) : list PIL.draw_cmd :=
  if on_page c then [] else [c].

(** What the cells of a year's grid show, when the cell in column [d_index]
    of a date of the month shows [F d_index date], in drawing order. *)
Definition cells_view {X : Type} (F : Z -> date -> list X)
    (data : list (list (list (list date)))) : list X :=
  flat_map (fun '(r_index, row) =>
    flat_map (fun '(m_index, month_) =>
      flat_map (fun '(w_index, week) =>
        flat_map (fun '(d_index, date) =>
          if month date =? m_index + r_index * 4 + 1 then F d_index date else [])
          (enumerate (A := date) week))
        (enumerate (A := list date) month_))
      (enumerate (A := list (list date)) row))
    (enumerate data).

(** The text of a stroke, when it is one. *)
Definition texts_of (c : PIL.draw_cmd) : list string :=
  match c with
  | PIL.Text _ text _ _ _ => [text]
  | _ => []
  end.

(** What the box of a month reads: the name of the month, the letters of
    the weekdays, and the day numbers from 1 on. *)
Definition month_texts (y m : Z) : list string :=
  nth (Z.to_nat m) PyCalendar.month_name ""%string
  :: WEEKDAY_LIST ++ map str (zrange 1 (days_in_month y m + 1)).

(** What the page of a year reads. *)
Definition page_texts (y : Z) : list string :=
  str y :: flat_map (month_texts y) (zrange 1 13).

(** Whole runs on the stand-ins. The current year, 2026, at UTC+7. *)
Module SampleRun.

Definition page_2026 : PIL.world :=
  snd (generate_calendar Sample.ephemeris Sample.fromSolarDate Sample.truetype 2026 7 None
         Sample.blank).

(** The year 2053 at UTC: the stand-in ephemeris ends on October 9. *)
Definition page_2053 : PIL.world :=
  snd (generate_calendar Sample.ephemeris Sample.fromSolarDate Sample.truetype 2026 0
         (Some 2053) Sample.blank).

End SampleRun.

(** * Properties *)

(** ** binary64: digits, shifts, rounding and order *)

Lemma digits2_pos_bounds (m : positive) :
  2 ^ (Zpos (digits2_pos m) - 1) <= Zpos m < 2 ^ Zpos (digits2_pos m).
Proof.
  induction m as [m IH | m IH | ]; cbn [digits2_pos].
  - rewrite Pos2Z.inj_succ.
    replace (Z.succ (Zpos (digits2_pos m)) - 1) with (Z.succ (Zpos (digits2_pos m) - 1)) by lia.
    rewrite !Z.pow_succ_r by lia. lia.
  - rewrite Pos2Z.inj_succ.
    replace (Z.succ (Zpos (digits2_pos m)) - 1) with (Z.succ (Zpos (digits2_pos m) - 1)) by lia.
    rewrite !Z.pow_succ_r by lia. lia.
  - cbn. lia.
Qed.

Lemma Zdigits2_nonneg z : 0 <= Zdigits2 z.
Proof. destruct z; cbn; lia. Qed.

Lemma Zdigits2_lt_pow2 z k : 0 <= z -> 0 <= k -> z < 2 ^ k -> Zdigits2 z <= k.
Proof.
  intros Hz Hk Hlt. destruct z as [|p|p]; cbn; try lia.
  destruct (Z.le_gt_cases (Zpos (digits2_pos p)) k) as [|Hgt]; [assumption|].
  pose proof (digits2_pos_bounds p) as [Hlo _].
  assert (2 ^ k <= 2 ^ (Zpos (digits2_pos p) - 1)) by (apply Z.pow_le_mono_r; lia).
  lia.
Qed.

Lemma Zdigits2_pow2_gt z : 0 <= z -> z < 2 ^ Zdigits2 z.
Proof.
  intros Hz. destruct z as [|p|p]; cbn [Zdigits2]; try lia.
  apply digits2_pos_bounds.
Qed.

Lemma Zdigits2_le a b : 0 <= a <= b -> Zdigits2 a <= Zdigits2 b.
Proof.
  intros [Ha Hab]. apply Zdigits2_lt_pow2; [assumption | apply Zdigits2_nonneg |].
  pose proof (Zdigits2_pow2_gt b). lia.
Qed.

Lemma Zdigits2_mul a b : 0 <= a -> 0 <= b -> Zdigits2 (a * b) <= Zdigits2 a + Zdigits2 b.
Proof.
  intros Ha Hb. apply Zdigits2_lt_pow2.
  - lia.
  - pose proof (Zdigits2_nonneg a). pose proof (Zdigits2_nonneg b). lia.
  - rewrite Z.pow_add_r by apply Zdigits2_nonneg.
    pose proof (Zdigits2_pow2_gt a Ha). pose proof (Zdigits2_pow2_gt b Hb). nia.
Qed.

Lemma Zdigits2_succ a : 0 <= a -> Zdigits2 (a + 1) <= Zdigits2 a + 1.
Proof.
  intros Ha. apply Zdigits2_lt_pow2; [lia | pose proof (Zdigits2_nonneg a); lia |].
  rewrite Z.pow_add_r by (try apply Zdigits2_nonneg; lia).
  pose proof (Zdigits2_pow2_gt a Ha). change (2 ^ 1) with 2. lia.
Qed.

(** shifting *)
Lemma shr_1_m mrs : 0 <= shr_m mrs -> 0 <= shr_m (shr_1 mrs) <= shr_m mrs.
Proof.
  destruct mrs as [m r s]; cbn [shr_m]. intros Hm.
  destruct m as [|[p|p|]|p]; cbn; lia.
Qed.

Lemma iter_shr_1_m n mrs :
  0 <= shr_m mrs -> 0 <= shr_m (iter_pos shr_1 n mrs) <= shr_m mrs.
Proof.
  revert mrs. induction n as [n IH | n IH | ]; intros mrs Hm; cbn [iter_pos].
  - pose proof (shr_1_m mrs Hm) as H1.
    pose proof (IH _ (proj1 H1)) as H2. pose proof (IH _ (proj1 H2)). lia.
  - pose proof (IH _ Hm) as H2. pose proof (IH _ (proj1 H2)). lia.
  - apply shr_1_m; assumption.
Qed.

Lemma shr_m_bounds mrs e n :
  0 <= shr_m mrs -> 0 <= shr_m (fst (shr mrs e n)) <= shr_m mrs.
Proof.
  intros Hm. destruct n; cbn [shr fst]; try lia.
  apply iter_shr_1_m; assumption.
Qed.

Lemma shr_e mrs e n : snd (shr mrs e n) = e + Z.max 0 n.
Proof. destruct n; cbn [shr snd]; lia. Qed.

Lemma round_nearest_even_bounds m l : m <= round_nearest_even m l <= m + 1.
Proof.
  destruct l as [|[| |]]; cbn [round_nearest_even]; try lia.
  destruct (Z.even m); lia.
Qed.

Lemma shr_record_of_loc_m m l : shr_m (shr_record_of_loc m l) = m.
Proof. destruct l as [|[| |]]; reflexivity. Qed.

Lemma fexp_le z : fexp 53 1024 z <= Z.max (z - 53) (-1074).
Proof. unfold fexp, emin. lia. Qed.

Lemma binary_round_aux_finite s M E :
  0 <= M -> Zdigits2 M <= 120 -> E <= 0 ->
  binary_round_aux 53 1024 s M E loc_Exact = S754_zero s
  \/ exists m e, binary_round_aux 53 1024 s M E loc_Exact = S754_finite s m e.
Proof.
  intros HM Hd HE. unfold binary_round_aux, shr_fexp.
  set (n1 := fexp 53 1024 (Zdigits2 M + E) - E).
  destruct (shr (shr_record_of_loc M loc_Exact) E n1) as [mrs' e'] eqn:H1.
  assert (He' : e' = E + Z.max 0 n1).
  { pose proof (shr_e (shr_record_of_loc M loc_Exact) E n1) as H. rewrite H1 in H. exact H. }
  assert (Hm' : 0 <= shr_m mrs' <= M).
  { pose proof (shr_m_bounds (shr_record_of_loc M loc_Exact) E n1) as H.
    rewrite H1 in H. cbn [fst shr_record_of_loc shr_m] in H. apply H. assumption. }
  set (m1 := round_nearest_even (shr_m mrs') (loc_of_shr_record mrs')).
  assert (Hm1 : 0 <= m1 <= M + 1).
  { pose proof (round_nearest_even_bounds (shr_m mrs') (loc_of_shr_record mrs')). subst m1. lia. }
  set (n2 := fexp 53 1024 (Zdigits2 m1 + e') - e').
  destruct (shr (shr_record_of_loc m1 loc_Exact) e' n2) as [mrs'' e''] eqn:H2.
  assert (He'' : e'' = e' + Z.max 0 n2).
  { pose proof (shr_e (shr_record_of_loc m1 loc_Exact) e' n2) as H. rewrite H2 in H. exact H. }
  assert (Hm'' : 0 <= shr_m mrs'').
  { pose proof (shr_m_bounds (shr_record_of_loc m1 loc_Exact) e' n2) as H.
    rewrite H2 in H. cbn [fst shr_record_of_loc shr_m] in H. apply H. lia. }
  assert (Hd1 : Zdigits2 m1 <= 121).
  { pose proof (Zdigits2_le m1 (M + 1) Hm1). pose proof (Zdigits2_succ M HM). lia. }
  pose proof (Zdigits2_nonneg M). pose proof (Zdigits2_nonneg m1).
  pose proof (fexp_le (Zdigits2 M + E)). pose proof (fexp_le (Zdigits2 m1 + e')).
  assert (Hle : e'' <= 1024 - 53) by lia.
  destruct (shr_m mrs'') as [|p|p]; [left; reflexivity | right | lia].
  apply Z.leb_le in Hle. rewrite Hle. eauto.
Qed.

Lemma to_int_floor m e :
  PyFloat.trunc_mag m e = Qfloor (PyFloat.to_Q (S754_finite false m e)).
Proof.
  unfold PyFloat.trunc_mag, PyFloat.to_Q, cond_Zopp.
  destruct e as [|k|k].
  - rewrite Qfloor_Z. apply Z.shiftl_mul_pow2. lia.
  - rewrite Qfloor_Z. apply Z.shiftl_mul_pow2. lia.
  - rewrite Z.shiftr_div_pow2 by lia.
    unfold Qfloor. rewrite Pos2Z.inj_pow. reflexivity.
Qed.

Lemma of_int_360 : PyFloat.of_int 360 = S754_finite false 6333186975989760 (-44).
Proof. vm_compute. reflexivity. Qed.

Lemma of_int_1 : PyFloat.of_int 1 = S754_finite false 4503599627370496 (-52).
Proof. vm_compute. reflexivity. Qed.

Lemma of_int_0 : PyFloat.of_int 0 = S754_zero false.
Proof. reflexivity. Qed.

Lemma canonical_digits m e :
  canonical_mantissa 53 1024 m e = true -> Zpos (digits2_pos m) <= 53.
Proof.
  unfold canonical_mantissa, fexp, emin. intros H. apply Z.eqb_eq in H. lia.
Qed.

Lemma in_unit_cases x :
  in_unit x = true ->
  (exists s, x = S754_zero s)
  \/ (exists m e, x = S754_finite false m e
                  /\ Zpos (digits2_pos m) <= 53 /\ e <= -52).
Proof.
  unfold in_unit, PyFloat.valid, PyFloat.le. rewrite of_int_1, of_int_0.
  intros H. apply andb_prop in H as [H H1]. apply andb_prop in H as [Hv H0].
  destruct x as [s|s| |s m e].
  - left; eauto.
  - destruct s; discriminate.
  - discriminate.
  - destruct s; [discriminate|]. right. exists m, e. split; [reflexivity|].
    cbn [valid_binary] in Hv. unfold bounded in Hv. apply andb_prop in Hv as [Hc _].
    split; [eapply canonical_digits; eassumption|].
    unfold SFleb, SFcompare in H1.
    destruct (e ?= -52) eqn:Hcmp; try discriminate.
    + apply Z.compare_eq in Hcmp. lia.
    + rewrite Z.compare_lt_iff in Hcmp. lia.
Qed.

Lemma sweep_in_unit x :
  in_unit x = true ->
  exists z, PyFloat.to_int (PyFloat.mul (PyFloat.of_int 360) x) = Ok z
            /\ z = Qfloor (PyFloat.to_Q (PyFloat.mul (PyFloat.of_int 360) x))
            /\ 0 <= z.
Proof.
  intros H. rewrite of_int_360.
  destruct (in_unit_cases x H) as [[s ->] | (m & e & -> & Hd & He)].
  - exists 0. cbn. auto with zarith.
  - unfold PyFloat.mul, SFmul. cbn [xorb].
    destruct (binary_round_aux_finite false
                (Zpos (6333186975989760 * m)) (-44 + e)) as [Hz | (m' & e' & Hf)].
    + lia.
    + rewrite Pos2Z.inj_mul.
      pose proof (Zdigits2_mul 6333186975989760 (Zpos m) ltac:(lia) ltac:(lia)) as Hm.
      cbn [Zdigits2] in Hm |- *. 
      change (Zpos (digits2_pos 6333186975989760)) with 53 in Hm. lia.
    + lia.
    + change PyFloat.prec with 53. change PyFloat.emax with 1024.
      rewrite Hz. exists 0. cbn. auto with zarith.
    + change PyFloat.prec with 53. change PyFloat.emax with 1024.
      rewrite Hf. exists (PyFloat.trunc_mag m' e'). cbn [PyFloat.to_int cond_Zopp].
      split; [reflexivity|]. split; [apply to_int_floor|].
      unfold PyFloat.trunc_mag. destruct e'.
      * cbn. lia.
      * apply Z.shiftl_nonneg. lia.
      * apply Z.shiftr_nonneg. lia.
Qed.


Lemma scale_pos e : 0 < scale e.
Proof. unfold scale. apply Z.pow_pos_nonneg; lia. Qed.

Lemma to_Q_num s m e :
  Qnum (PyFloat.to_Q (S754_finite s m e)) = cond_Zopp s (scaled m e).
Proof.
  unfold scaled. destruct e as [|k|k]; cbn [PyFloat.to_Q Qnum inject_Z Z.max Z.compare].
  - destruct s; cbn [cond_Zopp]; lia.
  - replace (Z.max (Zpos k) 0) with (Zpos k) by lia. destruct s; cbn [cond_Zopp]; lia.
  - replace (Z.max (Zneg k) 0) with 0 by lia. destruct s; cbn [cond_Zopp]; lia.
Qed.

Lemma to_Q_den s m e :
  Zpos (Qden (PyFloat.to_Q (S754_finite s m e))) = scale e.
Proof.
  unfold scale. destruct e as [|k|k]; cbn [PyFloat.to_Q Qden inject_Z].
  - reflexivity.
  - replace (Z.max (- Zpos k) 0) with 0 by lia. reflexivity.
  - replace (Z.max (- Zneg k) 0) with (Zpos k) by lia. apply Pos2Z.inj_pow.
Qed.

Lemma scaled_cross m1 e1 e2 :
  scaled m1 e1 * scale e2 = Zpos m1 * 2 ^ (Z.max e1 0 + Z.max (- e2) 0).
Proof. unfold scaled, scale. rewrite Z.pow_add_r by lia. lia. Qed.

Lemma canonical_facts m e :
  canonical_mantissa 53 1024 m e = true ->
  -1074 <= e /\ Zpos m < 2 ^ 53 /\ (-1074 < e -> 2 ^ 52 <= Zpos m).
Proof.
  unfold canonical_mantissa, fexp, emin. intros H. apply Z.eqb_eq in H.
  pose proof (digits2_pos_bounds m) as [Hlo Hhi].
  split; [lia|]. split.
  - assert (2 ^ Zpos (digits2_pos m) <= 2 ^ 53) by (apply Z.pow_le_mono_r; lia). lia.
  - intros He. assert (Zpos (digits2_pos m) = 53) as Hd by lia.
    rewrite Hd in Hlo. exact Hlo.
Qed.

Lemma mag_lt m1 e1 m2 e2 :
  canonical_mantissa 53 1024 m1 e1 = true ->
  canonical_mantissa 53 1024 m2 e2 = true ->
  e1 < e2 ->
  scaled m1 e1 * scale e2 < scaled m2 e2 * scale e1.
Proof.
  intros H1 H2 Hlt. rewrite !scaled_cross.
  destruct (canonical_facts _ _ H1) as (Hmin1 & Hhi1 & _).
  destruct (canonical_facts _ _ H2) as (_ & _ & Hlo2).
  specialize (Hlo2 ltac:(lia)).
  replace (Z.max e2 0 + Z.max (- e1) 0)
    with ((Z.max e1 0 + Z.max (- e2) 0) + (e2 - e1)) by lia.
  rewrite (Z.pow_add_r 2 _ (e2 - e1)) by lia.
  set (P := 2 ^ (Z.max e1 0 + Z.max (- e2) 0)).
  assert (0 < P) by (apply Z.pow_pos_nonneg; lia).
  assert (2 ^ 1 <= 2 ^ (e2 - e1)) by (apply Z.pow_le_mono_r; lia).
  change (2 ^ 1) with 2 in *. change (2 ^ 53) with (2 * 2 ^ 52) in Hhi1.
  set (X := 2 ^ (e2 - e1)) in *. set (K := 2 ^ 52) in *.
  assert (Zpos m1 * P < 2 * K * P) by (apply Z.mul_lt_mono_pos_r; lia).
  assert (2 * K * P <= Zpos m2 * X * P).
  { apply Z.mul_le_mono_nonneg_r; [lia|]. 
    apply Z.le_trans with (Zpos m2 * 2); [lia|].
    apply Z.mul_le_mono_nonneg_l; lia. }
  lia.
Qed.

Lemma mag_compare m1 e1 m2 e2 :
  canonical_mantissa 53 1024 m1 e1 = true ->
  canonical_mantissa 53 1024 m2 e2 = true ->
  match e1 ?= e2 with
  | Lt => Lt
  | Gt => Gt
  | Eq => Pos.compare_cont Eq m1 m2
  end = (scaled m1 e1 * scale e2 ?= scaled m2 e2 * scale e1).
Proof.
  intros H1 H2. destruct (e1 ?= e2) eqn:Hc.
  - apply Z.compare_eq in Hc. subst e2.
    rewrite <- Zmult_compare_compat_r by (apply Z.lt_gt, scale_pos).
    unfold scaled.
    rewrite <- Zmult_compare_compat_r by (apply Z.lt_gt, Z.pow_pos_nonneg; lia).
    reflexivity.
  - rewrite Z.compare_lt_iff in Hc. symmetry. apply Z.compare_lt_iff.
    apply mag_lt; assumption.
  - rewrite Z.compare_gt_iff in Hc. symmetry. apply Z.compare_gt_iff.
    apply mag_lt; assumption.
Qed.

Lemma scaled_pos m e : 0 < scaled m e.
Proof. unfold scaled. assert (0 < 2 ^ Z.max e 0) by (apply Z.pow_pos_nonneg; lia). lia. Qed.

Lemma SFcompare_to_Q x y :
  PyFloat.valid x = true -> PyFloat.valid y = true ->
  PyFloat.is_finite x = true -> PyFloat.is_finite y = true ->
  SFcompare x y = Some (PyFloat.to_Q x ?= PyFloat.to_Q y)%Q.
Proof.
  intros Vx Vy Fx Fy.
  destruct x as [sx|sx| |sx mx ex]; try discriminate;
    destruct y as [sy|sy| |sy my ey]; try discriminate.
  - reflexivity.
  - unfold Qcompare. rewrite to_Q_num. cbn [SFcompare PyFloat.to_Q Qnum Qden].
    pose proof (scaled_pos my ey). f_equal. symmetry.
    destruct sy; cbn [cond_Zopp].
    + apply Z.compare_gt_iff. lia.
    + apply Z.compare_lt_iff. lia.
  - unfold Qcompare. rewrite to_Q_num. cbn [SFcompare PyFloat.to_Q Qnum Qden].
    pose proof (scaled_pos mx ex). f_equal. symmetry.
    destruct sx; cbn [cond_Zopp].
    + apply Z.compare_lt_iff. lia.
    + apply Z.compare_gt_iff. lia.
  - unfold PyFloat.valid in Vx, Vy. cbn [valid_binary] in Vx, Vy.
    unfold bounded in Vx, Vy.
    apply andb_prop in Vx as [Cx _]. apply andb_prop in Vy as [Cy _].
    unfold Qcompare. rewrite !to_Q_num, !to_Q_den.
    pose proof (scaled_pos mx ex). pose proof (scaled_pos my ey).
    pose proof (scale_pos ex). pose proof (scale_pos ey).
    cbn [SFcompare]. f_equal.
    destruct sx, sy; cbn [cond_Zopp].
    + pose proof (mag_compare mx ex my ey Cx Cy) as Hm.
      rewrite !Z.mul_opp_l, Z.compare_opp.
      rewrite (Z.compare_antisym (scaled mx ex * scale ey) (scaled my ey * scale ex)), <- Hm.
      destruct (ex ?= ey); reflexivity.
    + symmetry. apply Z.compare_lt_iff. nia.
    + symmetry. apply Z.compare_gt_iff. nia.
    + apply mag_compare; assumption.
Qed.

Lemma gt_to_Q x y :
  PyFloat.valid x = true -> PyFloat.valid y = true ->
  PyFloat.is_finite x = true -> PyFloat.is_finite y = true ->
  (PyFloat.gt x y = true <-> (PyFloat.to_Q y < PyFloat.to_Q x)%Q).
Proof.
  intros Vx Vy Fx Fy. unfold PyFloat.gt, SFltb.
  rewrite (SFcompare_to_Q y x Vy Vx Fy Fx).
  rewrite Qlt_alt.
  destruct (PyFloat.to_Q y ?= PyFloat.to_Q x)%Q; split; congruence.
Qed.

Lemma SFcompare_refl x : SFcompare x x = Some Eq \/ SFcompare x x = None.
Proof.
  destruct x as [s|s| |s m e]; cbn [SFcompare]; auto.
  - destruct s; auto.
  - left. f_equal. rewrite Z.compare_refl.
    change (Pos.compare_cont Eq m m) with (Pos.compare m m).
    rewrite Pos.compare_refl. destruct s; reflexivity.
Qed.

Lemma gt_irrefl x : PyFloat.gt x x = false.
Proof.
  unfold PyFloat.gt, SFltb. destruct (SFcompare_refl x) as [-> | ->]; reflexivity.
Qed.

(** ** binary64: the product [360 * x] stays at or below 360 *)

Lemma iter_pos_invariant {A : Type} (f : A -> A) (P : Z -> A -> Prop) :
  (forall k x, 0 <= k -> P k x -> P (k + 1) (f x)) ->
  forall p k x, 0 <= k -> P k x -> P (k + Zpos p) (iter_pos f p x).
Proof.
  intros Hstep. induction p as [p IH|p IH|]; intros k x Hk HP; cbn [iter_pos].
  - replace (k + Zpos p~1) with ((k + 1 + Zpos p) + Zpos p) by lia.
    apply IH; [lia|]. apply IH; [lia|]. apply Hstep; assumption.
  - replace (k + Zpos p~0) with ((k + Zpos p) + Zpos p) by lia.
    apply IH; [lia|]. apply IH; assumption.
  - apply Hstep; assumption.
Qed.

Lemma div_pow2_succ M k : 0 <= k -> M / 2 ^ (k + 1) = M / 2 ^ k / 2.
Proof.
  intros Hk. rewrite Z.pow_add_r by lia. change (2 ^ 1) with 2.
  rewrite Z.div_div by (try apply Z.pow_pos_nonneg; lia). reflexivity.
Qed.

Lemma mod_pow2_succ M k :
  0 <= k -> M mod 2 ^ (k + 1) = 0 -> M mod 2 ^ k = 0 /\ (M / 2 ^ k) mod 2 = 0.
Proof.
  intros Hk H. assert (Hp : 0 < 2 ^ k) by (apply Z.pow_pos_nonneg; lia).
  apply Z.div_exact in H; [|rewrite Z.pow_add_r by lia; change (2 ^ 1) with 2; lia].
  rewrite Z.pow_add_r in H by lia. change (2 ^ 1) with 2 in H.
  set (q := M / (2 ^ k * 2)) in H.
  assert (HM : M = (2 * q) * 2 ^ k) by lia.
  split.
  - rewrite HM. apply Z.mod_mul. lia.
  - rewrite HM at 1. rewrite Z.div_mul by lia. rewrite Z.mul_comm. apply Z.mod_mul. lia.
Qed.

Lemma shr_1_shifted M k mrs :
  0 <= M -> 0 <= k -> shifted M k mrs -> shifted M (k + 1) (shr_1 mrs).
Proof.
  intros HM Hk [Hm Hex]. destruct mrs as [m r s]. cbn [shr_m shr_r shr_s] in *.
  assert (Hp : 0 < 2 ^ k) by (apply Z.pow_pos_nonneg; lia).
  assert (Hm0 : 0 <= m) by (rewrite Hm; apply Z.div_pos; lia).
  unfold shifted. rewrite div_pow2_succ by lia. rewrite <- Hm.
  assert (Hclean : M mod 2 ^ (k + 1) = 0 -> r = false /\ s = false /\ m mod 2 = 0).
  { intros H. destruct (mod_pow2_succ M k Hk H) as [H1 H2].
    destruct (Hex H1) as [-> ->]. rewrite Hm. auto. }
  destruct m as [|[p|p|]|p]; cbn [shr_1 shr_m shr_r shr_s]; try lia.
  - split; [reflexivity|]. intros H. destruct (Hclean H) as (-> & -> & _). auto.
  - split; [rewrite Pos2Z.inj_xI; Z.to_euclidean_division_equations; lia|].
    intros H. destruct (Hclean H) as (_ & _ & Hodd).
    rewrite Pos2Z.inj_xI in Hodd. Z.to_euclidean_division_equations. lia.
  - split; [rewrite Pos2Z.inj_xO; Z.to_euclidean_division_equations; lia|].
    intros H. destruct (Hclean H) as (-> & -> & _). auto.
  - split; [reflexivity|]. intros H. destruct (Hclean H) as (_ & _ & Hodd).
    discriminate Hodd.
Qed.

Lemma shr_shifted M e n :
  0 <= M ->
  shifted M (Z.max 0 n) (fst (shr (Build_shr_record M false false) e n)).
Proof.
  intros HM. destruct n as [|p|p]; cbn [shr fst].
  - split; cbn; [rewrite Z.div_1_r; reflexivity | auto].
  - replace (Z.max 0 (Zpos p)) with (0 + Zpos p) by lia.
    apply (iter_pos_invariant shr_1 (shifted M)).
    + intros k x Hk. apply shr_1_shifted; assumption.
    + lia.
    + split; cbn; [rewrite Z.div_1_r; reflexivity | auto].
  - split; cbn; [rewrite Z.div_1_r; reflexivity | auto].
Qed.

Lemma round_after_shift_le M k B mrs :
  0 <= M -> 0 <= k -> M <= B -> B mod 2 ^ k = 0 ->
  shifted M k mrs ->
  round_nearest_even (shr_m mrs) (loc_of_shr_record mrs) * 2 ^ k <= B.
Proof.
  intros HM Hk HB Hdiv [Hm Hex].
  assert (Hp : 0 < 2 ^ k) by (apply Z.pow_pos_nonneg; lia).
  apply Z.div_exact in Hdiv; [|lia]. set (K := B / 2 ^ k) in Hdiv.
  pose proof (Z.div_mod M (2 ^ k) ltac:(lia)) as HMdm.
  pose proof (Z.mod_pos_bound M (2 ^ k) Hp) as HMr.
  rewrite <- Hm in HMdm.
  assert (HmK : shr_m mrs <= K) by nia.
  pose proof (round_nearest_even_bounds (shr_m mrs) (loc_of_shr_record mrs)) as Hr.
  destruct (Z.eq_dec (shr_m mrs) K) as [HeqK|Hne].
  - assert (Hz : M mod 2 ^ k = 0) by nia.
    destruct (Hex Hz) as [Hr0 Hs0]. destruct mrs as [m r s]. cbn [shr_m shr_r shr_s] in *.
    subst r s. cbn [loc_of_shr_record round_nearest_even]. nia.
  - assert (shr_m mrs + 1 <= K) by lia. nia.
Qed.

Lemma binary_round_aux_le s M E c :
  0 <= M -> Zdigits2 M <= 120 -> E <= 0 ->
  M <= c * 2 ^ (- E) ->
  (forall k, 0 <= k <= Z.max 0 (Z.max (Zdigits2 M - 53) (-1074 - E)) -> (c * 2 ^ (- E)) mod 2 ^ k = 0) ->
  binary_round_aux 53 1024 s M E loc_Exact = S754_zero s
  \/ exists m e, binary_round_aux 53 1024 s M E loc_Exact = S754_finite s m e
                 /\ PyFloat.trunc_mag m e <= c.
Proof.
  intros HM Hd HE HB Hdiv. unfold binary_round_aux, shr_fexp.
  set (B := c * 2 ^ (- E)) in *.
  set (n1 := fexp 53 1024 (Zdigits2 M + E) - E).
  change (shr_record_of_loc M loc_Exact) with (Build_shr_record M false false).
  pose proof (shr_shifted M E n1 HM) as Hsh1.
  pose proof (shr_e (Build_shr_record M false false) E n1) as He1.
  destruct (shr (Build_shr_record M false false) E n1) as [mrs' e'].
  cbn [fst snd] in Hsh1, He1.
  set (k1 := Z.max 0 n1) in *.
  assert (Hk1 : 0 <= k1 <= Z.max 0 (Z.max (Zdigits2 M - 53) (-1074 - E))).
  { subst k1 n1. unfold fexp, emin. pose proof (Zdigits2_nonneg M). lia. }
  set (m1 := round_nearest_even (shr_m mrs') (loc_of_shr_record mrs')).
  assert (Hm1B : m1 * 2 ^ k1 <= B).
  { apply round_after_shift_le with (M := M); try assumption; try lia. apply Hdiv. exact Hk1. }
  assert (Hm' : 0 <= shr_m mrs' <= M).
  { destruct Hsh1 as [Hq _]. rewrite Hq.
    assert (0 < 2 ^ k1) by (apply Z.pow_pos_nonneg; lia).
    split; [apply Z.div_pos; lia | apply Z.div_le_upper_bound; nia]. }
  assert (Hm1 : 0 <= m1 <= M + 1).
  { pose proof (round_nearest_even_bounds (shr_m mrs') (loc_of_shr_record mrs')).
    subst m1. lia. }
  set (n2 := fexp 53 1024 (Zdigits2 m1 + e') - e').
  change (shr_record_of_loc m1 loc_Exact) with (Build_shr_record m1 false false).
  pose proof (shr_shifted m1 e' n2 (proj1 Hm1)) as Hsh2.
  pose proof (shr_e (Build_shr_record m1 false false) e' n2) as He2.
  destruct (shr (Build_shr_record m1 false false) e' n2) as [mrs'' e''].
  cbn [fst snd] in Hsh2, He2.
  set (k2 := Z.max 0 n2) in *.
  assert (Hk2 : 0 <= k2) by (subst k2; lia).
  destruct Hsh2 as [Hq2 _].
  assert (Hp1 : 0 < 2 ^ k1) by (apply Z.pow_pos_nonneg; lia).
  assert (Hp2 : 0 < 2 ^ k2) by (apply Z.pow_pos_nonneg; lia).
  assert (Hm''B : shr_m mrs'' * 2 ^ (k1 + k2) <= B).
  { rewrite Hq2, Z.pow_add_r by lia.
    pose proof (Z.div_mod m1 (2 ^ k2) ltac:(lia)) as Hdm.
    pose proof (Z.mod_pos_bound m1 (2 ^ k2) Hp2) as Hr.
    assert (m1 / 2 ^ k2 * 2 ^ k2 <= m1) by lia.
    assert (m1 / 2 ^ k2 * 2 ^ k2 * 2 ^ k1 <= m1 * 2 ^ k1)
      by (apply Z.mul_le_mono_nonneg_r; lia).
    lia. }
  assert (Hm''0 : 0 <= shr_m mrs'') by (rewrite Hq2; apply Z.div_pos; lia).
  assert (Hd1 : Zdigits2 m1 <= 121).
  { pose proof (Zdigits2_le m1 (M + 1) Hm1). pose proof (Zdigits2_succ M HM). lia. }
  pose proof (Zdigits2_nonneg M). pose proof (Zdigits2_nonneg m1).
  pose proof (fexp_le (Zdigits2 M + E)). pose proof (fexp_le (Zdigits2 m1 + e')).
  assert (Hle : e'' <= 1024 - 53) by (subst k1 k2 n1 n2; lia).
  assert (Hee : e'' = E + (k1 + k2)) by lia.
  destruct (shr_m mrs'') as [|p|p] eqn:Hmm; [left; reflexivity | right | lia].
  apply Z.leb_le in Hle. rewrite Hle. exists p, e''. split; [reflexivity|].
  assert (HpE : 0 < 2 ^ (- E)) by (apply Z.pow_pos_nonneg; lia).
  unfold PyFloat.trunc_mag. subst B.
  set (P := 2 ^ (k1 + k2)) in *.
  assert (HP : 0 < P) by (apply Z.pow_pos_nonneg; lia).
  destruct e'' as [|q|q].
  - rewrite Z.shiftl_mul_pow2 by lia. change (2 ^ 0) with 1.
    assert (Hpow : 2 ^ (- E) = P) by (subst P; f_equal; lia).
    rewrite Hpow in Hm''B.
    apply Z.mul_le_mono_pos_r with (p := P); [assumption | lia].
  - rewrite Z.shiftl_mul_pow2 by lia.
    assert (Hpow : P = 2 ^ Zpos q * 2 ^ (- E)).
    { subst P. rewrite <- Z.pow_add_r by lia. f_equal. lia. }
    rewrite Hpow in Hm''B.
    apply Z.mul_le_mono_pos_r with (p := 2 ^ (- E)); [assumption|].
    rewrite <- Z.mul_assoc. exact Hm''B.
  - rewrite Z.shiftr_div_pow2 by lia.
    assert (HQ : 0 < 2 ^ Zpos q) by (apply Z.pow_pos_nonneg; lia).
    assert (Hpow : 2 ^ (- E) = 2 ^ Zpos q * P).
    { subst P. rewrite <- Z.pow_add_r by lia. f_equal. lia. }
    rewrite Hpow in Hm''B.
    apply Z.div_le_upper_bound; [lia|].
    apply Z.mul_le_mono_pos_r with (p := P); [assumption|].
    rewrite (Z.mul_comm (2 ^ Zpos q) c), <- Z.mul_assoc. exact Hm''B.
Qed.

Lemma compare_cont_le (m n : positive) :
  PosDef.Pos.compare_cont Eq m n <> Gt -> Zpos m <= Zpos n.
Proof.
  change (PosDef.Pos.compare_cont Eq m n) with (Pos.compare m n).
  intros H. destruct (Pos.compare_spec m n); [lia | lia | congruence].
Qed.

Lemma in_unit_mantissa m e :
  in_unit (S754_finite false m e) = true ->
  Zpos (digits2_pos m) <= 53 /\ e <= -52 /\ Zpos m <= 2 ^ (- e).
Proof.
  intros H. destruct (in_unit_cases _ H) as [[s Hs] | (m' & e' & Heq & Hd & He)];
    [discriminate|]. injection Heq as <- <-.
  split; [assumption|]. split; [assumption|].
  unfold in_unit, PyFloat.le in H. rewrite of_int_1 in H.
  apply andb_prop in H as [_ H1]. unfold SFleb, SFcompare in H1.
  pose proof (digits2_pos_bounds m) as [_ Hhi].
  destruct (e ?= -52) eqn:Hc.
  - apply Z.compare_eq in Hc. subst e. change (2 ^ (- -52)) with 4503599627370496.
    apply compare_cont_le. intros Hgt. rewrite Hgt in H1. discriminate H1.
  - rewrite Z.compare_lt_iff in Hc.
    assert (2 ^ Zpos (digits2_pos m) <= 2 ^ (- e)) by (apply Z.pow_le_mono_r; lia). lia.
  - discriminate.
Qed.

Lemma sweep_range x :
  in_unit x = true ->
  exists z, PyFloat.to_int (PyFloat.mul (PyFloat.of_int 360) x) = Ok z /\ 0 <= z <= 360.
Proof.
  intros H. destruct (sweep_in_unit x H) as (z & Hz & _ & Hz0).
  exists z. split; [exact Hz|]. split; [exact Hz0|].
  rewrite of_int_360 in Hz.
  destruct (in_unit_cases x H) as [[s ->] | (m & e & -> & _)].
  - cbn in Hz. injection Hz as <-. lia.
  - destruct (in_unit_mantissa m e H) as (Hd & He & Hm).
    unfold PyFloat.mul, SFmul in Hz. cbn [xorb] in Hz.
    change PyFloat.prec with 53 in Hz. change PyFloat.emax with 1024 in Hz.
    assert (HdM : Zdigits2 (Zpos (6333186975989760 * m)) <= 106).
    { rewrite Pos2Z.inj_mul.
      pose proof (Zdigits2_mul 6333186975989760 (Zpos m) ltac:(lia) ltac:(lia)) as HM.
      cbn [Zdigits2] in HM |- *.
      change (Zpos (digits2_pos 6333186975989760)) with 53 in HM. lia. }
    assert (Hpe : 0 < 2 ^ (- e)) by (apply Z.pow_pos_nonneg; lia).
    destruct (binary_round_aux_le false (Zpos (6333186975989760 * m)) (-44 + e) 360)
      as [Hr | (m' & e' & Hr & Hle)].
    + lia.
    + lia.
    + lia.
    + replace (- (-44 + e)) with (44 + - e) by lia.
      rewrite Z.pow_add_r by lia. change (2 ^ 44) with 17592186044416.
      rewrite Pos2Z.inj_mul. lia.
    + intros k Hk.
      replace (- (-44 + e)) with ((- (-44 + e) - k) + k) by lia.
      rewrite Z.pow_add_r by lia. rewrite Z.mul_assoc. apply Z.mod_mul.
      apply Z.pow_nonzero; lia.
    + rewrite Hr in Hz. cbn in Hz. injection Hz as <-. lia.
    + rewrite Hr in Hz. cbn [PyFloat.to_int cond_Zopp] in Hz. injection Hz as <-. exact Hle.
Qed.

(** ** Ordinals and dates *)

Lemma month_day_table :
  forallb (month_day_ok false) (zrange 0 365) && forallb (month_day_ok true) (zrange 0 366) = true.
Proof. vm_compute. reflexivity. Qed.

Lemma in_zrange (a b x : Z) : a <= x < b -> In x (zrange a b).
Proof.
  intros H. unfold zrange. apply in_map_iff. exists (Z.to_nat (x - a)). split; [lia|].
  apply in_seq. lia.
Qed.

Lemma month_day_sound (leapyear : bool) (n : Z) :
  0 <= n < 365 + (if leapyear then 1 else 0) ->
  month_day_ok leapyear n = true.
Proof.
  intros H. pose proof month_day_table as T. apply andb_prop in T as [T0 T1].
  destruct leapyear.
  - rewrite forallb_forall in T1. apply T1, in_zrange. lia.
  - rewrite forallb_forall in T0. apply T0, in_zrange. lia.
Qed.

Lemma ord2ymd_eq n :
  ord2ymd n =
    let n0 := n - 1 in
    let n400 := n0 / DI400Y in
    let r400 := n0 mod DI400Y in
    let n100 := r400 / DI100Y in
    let r100 := r400 mod DI100Y in
    let n4 := r100 / DI4Y in
    let r4 := r100 mod DI4Y in
    let n1 := r4 / 365 in
    let r := r4 mod 365 in
    let year := n400 * 400 + 1 + (n100 * 100 + n4 * 4 + n1) in
    if (n1 =? 4) || (n100 =? 4) then (year - 1, 12, 31)
    else
      let leapyear := (n1 =? 3) && (negb (n4 =? 24) || (n100 =? 3)) in
      let '(m, d) := month_day leapyear r in (year, m, d).
Proof.
  unfold ord2ymd, month_day. cbv zeta.
  destruct ((_ =? 4) || (_ =? 4)); [reflexivity|].
  destruct (_ <? _); reflexivity.
Qed.


Lemma is_leap_decomp a b c d :
  0 <= b < 4 -> 0 <= c < 25 -> 0 <= d < 4 ->
  is_leap (a * 400 + 1 + (b * 100 + c * 4 + d))
  = (d =? 3) && (negb (c =? 24) || (b =? 3)).
Proof.
  intros Hb Hc Hd. unfold is_leap.
  set (y := a * 400 + 1 + (b * 100 + c * 4 + d)).
  destruct (Z.eqb_spec (y mod 4) 0) as [E4|E4];
  destruct (Z.eqb_spec (y mod 100) 0) as [E100|E100];
  destruct (Z.eqb_spec (y mod 400) 0) as [E400|E400];
  destruct (Z.eqb_spec d 3) as [D|D];
  destruct (Z.eqb_spec c 24) as [C|C];
  destruct (Z.eqb_spec b 3) as [B|B]; cbn; try reflexivity; exfalso;
  subst y; Z.to_euclidean_division_equations; lia.
Qed.

Lemma days_before_year_decomp a b c d :
  0 <= b < 4 -> 0 <= c < 25 -> 0 <= d < 4 ->
  days_before_year (a * 400 + 1 + (b * 100 + c * 4 + d))
  = a * 146097 + b * 36524 + c * 1461 + d * 365.
Proof.
  intros Hb Hc Hd. unfold days_before_year. cbv zeta.
  Z.to_euclidean_division_equations. lia.
Qed.

Lemma ord2ymd_roundtrip n :
  1 <= n ->
  let '(y, m, d) := ord2ymd n in
  ymd2ord y m d = n /\ 1 <= m <= 12 /\ 1 <= d <= days_in_month y m.
Proof.
  intros Hn. rewrite ord2ymd_eq. cbv zeta. unfold DI400Y, DI100Y, DI4Y.
  set (n0 := n - 1).
  set (a := n0 / 146097). set (r400 := n0 mod 146097).
  set (b := r400 / 36524). set (r100 := r400 mod 36524).
  set (c := r100 / 1461). set (r4 := r100 mod 1461).
  set (d := r4 / 365). set (r := r4 mod 365).
  assert (E400 : n0 = 146097 * a + r400 /\ 0 <= r400 < 146097).
  { split; [apply Z.div_mod; lia | apply Z.mod_pos_bound; lia]. }
  assert (E100 : r400 = 36524 * b + r100 /\ 0 <= r100 < 36524).
  { split; [apply Z.div_mod; lia | apply Z.mod_pos_bound; lia]. }
  assert (E4 : r100 = 1461 * c + r4 /\ 0 <= r4 < 1461).
  { split; [apply Z.div_mod; lia | apply Z.mod_pos_bound; lia]. }
  assert (E1 : r4 = 365 * d + r /\ 0 <= r < 365).
  { split; [apply Z.div_mod; lia | apply Z.mod_pos_bound; lia]. }
  clearbody a r400 b r100 c r4 d r.
  assert (Hb : 0 <= b <= 4) by lia.
  assert (Hc : 0 <= c <= 24) by lia.
  assert (Hd : 0 <= d <= 4) by lia.
  destruct (Z.eqb_spec d 4) as [D4|D4]; [|destruct (Z.eqb_spec b 4) as [B4|B4]]; cbn [orb].
  - (* last day of a four-year cycle *)
    assert (r = 0) by lia. assert (c <= 23) by lia. assert (b <= 3) by lia.
    replace (a * 400 + 1 + (b * 100 + c * 4 + d) - 1)
      with (a * 400 + 1 + (b * 100 + c * 4 + 3)) by lia.
    unfold ymd2ord, days_before_month, days_in_month.
    rewrite is_leap_decomp, days_before_year_decomp by lia.
    replace (c =? 24) with false by (symmetry; apply Z.eqb_neq; lia).
    change (index DAYS_BEFORE_MONTH 12) with 334.
    change (index DAYS_IN_MONTH 12) with 31.
    change (2 <? 12) with true. change (12 =? 2) with false.
    change (3 =? 3) with true. change (24 =? 24) with true.
    cbn [andb orb negb]. lia.
  - (* last day of a 400-year cycle *)
    assert (r = 0 /\ c = 0 /\ d = 0) as (-> & -> & ->) by lia. subst b.
    replace (a * 400 + 1 + (4 * 100 + 0 * 4 + 0) - 1)
      with (a * 400 + 1 + (3 * 100 + 24 * 4 + 3)) by lia.
    unfold ymd2ord, days_before_month, days_in_month.
    rewrite is_leap_decomp, days_before_year_decomp by lia.
    change (index DAYS_BEFORE_MONTH 12) with 334.
    change (index DAYS_IN_MONTH 12) with 31.
    change (2 <? 12) with true. change (12 =? 2) with false.
    change (3 =? 3) with true. change (24 =? 24) with true.
    cbn [andb orb negb]. lia.
  - set (leapyear := (d =? 3) && (negb (c =? 24) || (b =? 3))).
    pose proof (month_day_sound leapyear r) as Hok.
    unfold month_day_ok in Hok.
    destruct (month_day leapyear r) as [m dd].
    specialize (Hok ltac:(destruct leapyear; lia)).
    repeat (apply andb_prop in Hok as [Hok ?]).
    unfold ymd2ord, days_before_month, days_in_month.
    rewrite is_leap_decomp, days_before_year_decomp by lia.
    fold leapyear. lia.
Qed.


Lemma toordinal_fromordinal n : 1 <= n -> toordinal (fromordinal n) = n.
Proof.
  intros Hn. pose proof (ord2ymd_roundtrip n Hn) as H.
  unfold fromordinal, toordinal. destruct (ord2ymd n) as [[y m] d]. cbn. apply H.
Qed.

Lemma check_date_fields_iff y m d :
  check_date_fields y m d = true <->
  1 <= y <= 9999 /\ 1 <= m <= 12 /\ 1 <= d <= days_in_month y m.
Proof.
  unfold check_date_fields, MINYEAR, MAXYEAR.
  rewrite !andb_true_iff, !Z.leb_le. lia.
Qed.

Ltac eval_index :=
  repeat match goal with
         | |- context [index ?l ?i] =>
             let v := eval vm_compute in (index l i) in
             change (index l i) with v
         end.

Lemma days_before_month_day y m d :
  1 <= m <= 12 -> 1 <= d <= days_in_month y m ->
  1 <= days_before_month y m + d <= 365 + (if is_leap y then 1 else 0).
Proof.
  intros Hm. unfold days_before_month, days_in_month.
  assert (m = 1 \/ m = 2 \/ m = 3 \/ m = 4 \/ m = 5 \/ m = 6 \/ m = 7 \/ m = 8
          \/ m = 9 \/ m = 10 \/ m = 11 \/ m = 12) as Hcases by lia.
  repeat (destruct Hcases as [-> | Hcases]); [.. | subst m];
    eval_index; destruct (is_leap y);
    cbn [andb Z.eqb Z.ltb Z.compare Pos.eqb Pos.compare Pos.compare_cont]; lia.
Qed.

Lemma days_in_month_bounds y m : 1 <= m <= 12 -> 28 <= days_in_month y m <= 31.
Proof.
  intros Hm. unfold days_in_month.
  assert (m = 1 \/ m = 2 \/ m = 3 \/ m = 4 \/ m = 5 \/ m = 6 \/ m = 7 \/ m = 8
          \/ m = 9 \/ m = 10 \/ m = 11 \/ m = 12) as Hcases by lia.
  repeat (destruct Hcases as [-> | Hcases]); [.. | subst m];
    eval_index; destruct (is_leap y);
    cbn [andb Z.eqb Z.ltb Z.compare Pos.eqb Pos.compare Pos.compare_cont]; lia.
Qed.

Lemma new_date_valid y m d :
  check_date_fields y m d = true -> new_date y m d = Ok (mkdate y m d).
Proof.
  intros H. unfold new_date. rewrite H.
  apply check_date_fields_iff in H as (Hy & Hm & Hd).
  pose proof (days_in_month_bounds y m Hm) as Hdim.
  replace (fits_c_int y && fits_c_int m && fits_c_int d) with true; [reflexivity|].
  symmetry. unfold fits_c_int, C_INT_MIN, C_INT_MAX.
  rewrite !andb_true_iff, !Z.leb_le. lia.
Qed.

(** A date that cannot be built: [OverflowError] for a field that is no C
    [int], [ValueError] for a date that does not exist. *)
Lemma new_date_raise y m d e :
  new_date y m d = Raise e ->
  e = (if fits_c_int y && fits_c_int m && fits_c_int d then ValueError else OverflowError).
Proof.
  unfold new_date. destruct (fits_c_int y && fits_c_int m && fits_c_int d).
  - destruct (check_date_fields y m d); intros H; congruence.
  - intros H. congruence.
Qed.

(** ** [str] of an [int] *)

Lemma PyInt_str_small z : Z.abs z < 10000 -> PyInt.str z = Ok (str z).
Proof.
  intros H. unfold PyInt.str, PyInt.MAX_STR_DIGITS.
  assert (Hlim : Z.abs z < 10 ^ 4300).
  { eapply Z.lt_le_trans; [exact H|]. change 10000 with (10 ^ 4).
    apply Z.pow_le_mono_r; [reflexivity | discriminate]. }
  apply Z.ltb_lt in Hlim. rewrite Hlim. reflexivity.
Qed.

Lemma PyInt_str_ok z title : PyInt.str z = Ok title -> title = str z.
Proof.
  unfold PyInt.str. destruct (Z.abs z <? 10 ^ PyInt.MAX_STR_DIGITS); intros H;
    [injection H as <-; reflexivity | discriminate H].
Qed.

Lemma PyInt_str_raise z e :
  PyInt.str z = Raise e -> e = ValueError /\ 10 ^ PyInt.MAX_STR_DIGITS <= Z.abs z.
Proof.
  unfold PyInt.str.
  destruct (Z.ltb_spec (Z.abs z) (10 ^ PyInt.MAX_STR_DIGITS)) as [Hlt | Hge];
    intros H; [discriminate H|]. injection H as <-. split; [reflexivity | exact Hge].
Qed.

Lemma days_before_year_bounds y :
  1 < y < 9999 -> 365 <= days_before_year y /\ days_before_year y + 366 <= MAXORDINAL - 300.
Proof.
  intros Hy. unfold days_before_year, MAXORDINAL. cbv zeta.
  Z.to_euclidean_division_equations. lia.
Qed.

Lemma toordinal_bounds d :
  valid_date d = true -> 1 < year d < 9999 ->
  1 < toordinal d < MAXORDINAL - 2.
Proof.
  unfold valid_date. rewrite check_date_fields_iff. intros (_ & Hm & Hd) Hy.
  unfold toordinal, ymd2ord.
  pose proof (days_before_month_day _ _ _ Hm Hd).
  pose proof (days_before_year_bounds _ Hy).
  unfold MAXORDINAL in *. destruct (is_leap (year d)); lia.
Qed.

Lemma datetime_add_spec dt delta :
  0 < (local_us dt + delta) / US_PER_DAY <= MAXORDINAL ->
  exists dt',
    datetime_add dt delta = Ok dt'
    /\ local_us dt' = local_us dt + delta
    /\ tzinfo dt' = tzinfo dt
    /\ civil dt' = fromordinal ((local_us dt + delta) / US_PER_DAY)
    /\ (hour dt' * 3600 + minute dt' * 60 + second dt') * US_PER_SECOND + microsecond dt'
       = (local_us dt + delta) mod US_PER_DAY.
Proof.
  intros Hr. unfold datetime_add. cbv zeta.
  set (total := local_us dt + delta) in *.
  replace ((0 <? total / US_PER_DAY) && (total / US_PER_DAY <=? MAXORDINAL)) with true
    by (symmetry; apply andb_true_iff; rewrite Z.ltb_lt, Z.leb_le; lia).
  eexists. split; [reflexivity|].
  assert (Hfields :
    ((total mod US_PER_DAY / US_PER_SECOND / 3600) * 3600
     + (total mod US_PER_DAY / US_PER_SECOND mod 3600 / 60) * 60
     + total mod US_PER_DAY / US_PER_SECOND mod 3600 mod 60) * US_PER_SECOND
    + total mod US_PER_SECOND = total mod US_PER_DAY).
  { unfold US_PER_DAY, US_PER_SECOND. clearbody total.
    Z.to_euclidean_division_equations. lia. }
  repeat split; cbn [tzinfo civil hour minute second microsecond]; try exact Hfields.
  unfold local_us at 1. cbn [tzinfo civil hour minute second microsecond].
  rewrite toordinal_fromordinal by lia.
  pose proof (Z.div_mod total US_PER_DAY ltac:(unfold US_PER_DAY, US_PER_SECOND; lia)) as Hdm.
  unfold US_PER_DAY, US_PER_SECOND in *. lia.
Qed.

Lemma timedelta_days_1 : timedelta_days 1 = Ok US_PER_DAY.
Proof. vm_compute. reflexivity. Qed.

Lemma from_datetime_aware dt tz :
  tzinfo dt = Some tz ->
  0 < (local_us dt - utcoffset tz) / US_PER_DAY <= MAXORDINAL ->
  Skyfield.from_datetime dt = Ok (Skyfield.mkTime (local_us dt - utcoffset tz)).
Proof.
  intros Htz Hr. unfold Skyfield.from_datetime. rewrite Htz.
  destruct (datetime_add_spec dt (- utcoffset tz)) as (u & Hu & Hl & _).
  - replace (local_us dt + - utcoffset tz) with (local_us dt - utcoffset tz) by lia. exact Hr.
  - rewrite Hu. cbn [rbind]. rewrite Hl. reflexivity.
Qed.

Lemma new_timezone_inv offset tz :
  new_timezone offset = Ok tz ->
  tz = mktz offset /\ - US_PER_DAY < offset < US_PER_DAY.
Proof.
  unfold new_timezone.
  destruct (Z.ltb_spec (- US_PER_DAY) offset) as [Hlo|Hlo];
    destruct (Z.ltb_spec offset US_PER_DAY) as [Hhi|Hhi];
    cbn [andb]; intros Heq; try discriminate.
  injection Heq as <-. split; [reflexivity | lia].
Qed.

Lemma timedelta_hours_inv h offset :
  timedelta_hours h = Ok offset -> offset = h * 3600 * US_PER_SECOND.
Proof.
  unfold timedelta_hours, new_timedelta. cbv zeta.
  destruct (_ && _); intros H; [injection H as <-; reflexivity | discriminate].
Qed.

Lemma utc_day_in_range (n off : Z) :
  - US_PER_DAY < off < US_PER_DAY -> 1 < n < MAXORDINAL - 1 ->
  0 < (n * US_PER_DAY - off) / US_PER_DAY <= MAXORDINAL.
Proof.
  unfold US_PER_DAY, US_PER_SECOND, MAXORDINAL. intros Hoff Hn.
  Z.to_euclidean_division_equations. lia.
Qed.

(** ** The drawing monad and its loops *)

Create HintDb files discriminated.

Lemma keeps_files_ret {A} (a : A) : keeps_files (ret a).
Proof. intros w. reflexivity. Qed.

Lemma keeps_files_lift {A} (r : result A) : keeps_files (lift r).
Proof. intros w. reflexivity. Qed.

Lemma keeps_files_draw c : keeps_files (draw c).
Proof. intros w. reflexivity. Qed.

Lemma keeps_files_new_image : keeps_files new_image.
Proof. intros w. reflexivity. Qed.

Lemma keeps_files_bind {A B} (m : M A) (k : A -> M B) :
  keeps_files m -> (forall a, keeps_files (k a)) -> keeps_files (bind m k).
Proof.
  intros Hm Hk w. unfold bind. specialize (Hm w).
  destruct (m w) as [[a|e] w1]; cbn [snd] in *.
  - rewrite Hk. exact Hm.
  - exact Hm.
Qed.

Lemma keeps_files_for_each {A} (l : list A) (body : A -> M unit) :
  (forall a, keeps_files (body a)) -> keeps_files (for_each l body).
Proof.
  intros Hb. induction l as [|a l IH]; cbn [for_each].
  - apply keeps_files_ret.
  - apply keeps_files_bind; [apply Hb | intros _; exact IH].
Qed.

Lemma save_ok_inv name w w' :
  save name w = (Ok tt, w') ->
  PIL.answer (PIL.files w) name = PIL.Written
  /\ PIL.canvas w' = PIL.canvas w
  /\ PIL.files w' = PIL.store name (PIL.Picture (PIL.canvas w)) (PIL.files w).
Proof.
  unfold save. destruct (PIL.answer (PIL.files w) name); intros H;
    [|discriminate H|discriminate H].
  injection H as <-. auto.
Qed.

Lemma save_raise_inv name w e w' :
  save name w = (Raise e, w') ->
  e = OSError
  /\ PIL.canvas w' = PIL.canvas w
  /\ (PIL.answer (PIL.files w) name = PIL.Refused /\ PIL.files w' = PIL.files w
      \/ PIL.answer (PIL.files w) name = PIL.Interrupted
         /\ PIL.files w'
            = match PIL.read name (PIL.files w) with
              | Some _ => PIL.store name PIL.Truncated (PIL.files w)
              | None => PIL.files w
              end).
Proof.
  unfold save. destruct (PIL.answer (PIL.files w) name); intros H;
    [discriminate H| |]; injection H as <- <-; auto.
Qed.

Lemma bind_raise_inv {A B} (m : M A) (k : A -> M B) w e w' :
  bind m k w = (Raise e, w') ->
  m w = (Raise e, w') \/ exists a w1, m w = (Ok a, w1) /\ k a w1 = (Raise e, w').
Proof.
  unfold bind. destruct (m w) as [[a|e1] w1]; intros H; [right; eauto|].
  injection H as <- <-. left. reflexivity.
Qed.

#[export] Hint Resolve keeps_files_ret keeps_files_lift keeps_files_draw
  keeps_files_new_image : files.

(** A loop that returns has run every one of its bodies to the end. *)
Lemma for_each_ok_inv {A} (body : A -> M unit) (l : list A) w w' :
  for_each l body w = (Ok tt, w') ->
  forall a, In a l -> exists w1 w2, body a w1 = (Ok tt, w2).
Proof.
  revert w. induction l as [|x l IH]; intros w H a Ha; [destruct Ha|].
  cbn [for_each] in H. unfold bind in H.
  destruct (body x w) as [[[]|e] w1] eqn:Hx; [|discriminate].
  destruct Ha as [-> | Ha]; [eauto | eapply IH; eassumption].
Qed.

(** The outcome of a loop whose bodies fail or not whatever the surface. *)
Lemma has_outcome_for_each {A} (body : A -> M unit) (out : A -> result unit) (l : list A) :
  (forall a, In a l -> has_outcome (body a) (out a)) ->
  has_outcome (for_each l body) (first_raise (map out l)).
Proof.
  induction l as [|x l IH]; intros Hb w; cbn [for_each map first_raise fold_right].
  - exact I.
  - unfold bind. pose proof (Hb x (or_introl eq_refl) w) as Hx.
    destruct (body x w) as [[[]|e] w1]; cbn [fst] in Hx |- *.
    + destruct (out x) as [[]|e']; [|contradiction].
      apply IH. intros a Ha. apply Hb. right. exact Ha.
    + destruct (out x) as [[]|e']; [contradiction|]. exact Hx.
Qed.

Lemma has_outcome_bind {A B} (m : M A) (k : A -> M B) r :
  (forall w, exists a, fst (m w) = Ok a /\ has_outcome (k a) r) ->
  has_outcome (bind m k) r.
Proof.
  intros H w. unfold bind. destruct (H w) as (a & Ha & Hk).
  destruct (m w) as [[a'|e] w1]; cbn [fst] in Ha; [|discriminate].
  injection Ha as ->. apply Hk.
Qed.

Lemma has_outcome_bind_raise {A B} (m : M A) (k : A -> M B) e :
  (forall w, fst (m w) = Raise e) -> has_outcome (bind m k) (Raise e).
Proof.
  intros H w. unfold bind. specialize (H w).
  destruct (m w) as [[a'|e'] w1]; cbn [fst] in H |- *; [discriminate|].
  injection H as ->. reflexivity.
Qed.

Lemma has_outcome_ext {A} (m : M A) r r' : r = r' -> has_outcome m r -> has_outcome m r'.
Proof. intros ->. exact (fun H => H). Qed.

Lemma first_raise_app l1 l2 :
  first_raise (l1 ++ l2)
  = match first_raise l1 with Ok _ => first_raise l2 | Raise e => Raise e end.
Proof.
  induction l1 as [|[[]|e] l1 IH]; cbn [app first_raise fold_right]; auto.
Qed.

Lemma first_raise_flat_map {A B} (f : B -> result unit) (g : A -> list B) (l : list A) :
  first_raise (map (fun x => first_raise (map f (g x))) l)
  = first_raise (map f (flat_map g l)).
Proof.
  induction l as [|x l IH]; cbn [map flat_map]; [reflexivity|].
  rewrite map_app, first_raise_app. cbn [first_raise fold_right].
  fold (first_raise (map (fun x => first_raise (map f (g x))) l)). rewrite IH.
  destruct (first_raise (map f (g x))) as [[]|e]; reflexivity.
Qed.

Lemma first_raise_all_ok l :
  (forall r, In r l -> r = Ok tt) -> first_raise l = Ok tt.
Proof.
  induction l as [|r l IH]; intros H; cbn [first_raise fold_right]; [reflexivity|].
  rewrite (H r (or_introl eq_refl)). apply IH. intros r' Hr. apply H. right. exact Hr.
Qed.

Lemma first_raise_split pre e post :
  (forall r, In r pre -> r = Ok tt) ->
  first_raise (pre ++ Raise e :: post) = Raise e.
Proof.
  intros H. rewrite first_raise_app, (first_raise_all_ok pre H). reflexivity.
Qed.

Lemma bind_ok_inv {A B} (m : M A) (k : A -> M B) w b w' :
  bind m k w = (Ok b, w') ->
  exists a w1, m w = (Ok a, w1) /\ k a w1 = (Ok b, w').
Proof.
  unfold bind. destruct (m w) as [[a|e] w1]; intros H; [eauto | discriminate].
Qed.

Lemma lift_ok_inv {A} (r : result A) w a w' :
  lift r w = (Ok a, w') -> r = Ok a /\ w' = w.
Proof. unfold lift. intros H. inversion H. auto. Qed.

(** ** The ring *)

Section RingProperties.
Variable fromSolarDate : Z -> Z -> Z -> result LunarDate.t.

Lemma draw_moon_ring_ok cx cy radius date ctx illum waxing sweep fill w :
  get_illum_waxing date ctx = Ok (illum, waxing) ->
  PyFloat.to_int (PyFloat.mul (PyFloat.of_int 360) illum) = Ok sweep ->
  get_lunar_color fromSolarDate date = Ok fill ->
  draw_moon_ring fromSolarDate cx cy radius date ctx w
  = (Ok tt,
     strokes_after w
       [PIL.Ellipse (ring_bbox cx cy radius) fill COLOR_GRAY_BORDER 2;
        PIL.Arc (ring_bbox cx cy radius) 0 360 COLOR_YELLOW 4;
        PIL.Arc (ring_bbox cx cy radius) (-90)
          (if waxing then -90 + sweep else -90 - sweep) COLOR_BLACK 4]).
Proof.
  intros Hi Hs Hc. unfold draw_moon_ring, bind, lift, draw, strokes_after, ring_bbox.
  rewrite Hi, Hs, Hc. cbn [PIL.canvas PIL.files].
  rewrite <- !app_assoc. reflexivity.
Qed.

Lemma draw_moon_ring_cases cx cy radius date ctx w :
  (exists illum waxing sweep fill,
      get_illum_waxing date ctx = Ok (illum, waxing)
      /\ PyFloat.to_int (PyFloat.mul (PyFloat.of_int 360) illum) = Ok sweep
      /\ get_lunar_color fromSolarDate date = Ok fill)
  \/ (exists e, draw_moon_ring fromSolarDate cx cy radius date ctx w = (Raise e, w)
                /\ (get_illum_waxing date ctx = Raise e
                    \/ (exists illum waxing,
                          get_illum_waxing date ctx = Ok (illum, waxing)
                          /\ (PyFloat.to_int (PyFloat.mul (PyFloat.of_int 360) illum) = Raise e
                              \/ get_lunar_color fromSolarDate date = Raise e)))).
Proof.
  unfold draw_moon_ring, bind, lift.
  destruct (get_illum_waxing date ctx) as [[illum waxing]|e] eqn:Hi.
  - destruct (PyFloat.to_int (PyFloat.mul (PyFloat.of_int 360) illum)) as [sweep|e] eqn:Hs.
    + destruct (get_lunar_color fromSolarDate date) as [fill|e] eqn:Hc.
      * left. eauto 10.
      * right. exists e. split; [reflexivity|]. right. eauto 10.
    + right. exists e. split; [reflexivity|]. right. eauto 10.
  - right. exists e. split; [reflexivity|]. left. reflexivity.
Qed.

End RingProperties.

(** ** The run over the year's grid *)

Lemma length_zrange a b : List.length (zrange a b) = Z.to_nat (b - a).
Proof. unfold zrange. rewrite length_map, length_seq. reflexivity. Qed.

Lemma in_combine_second {A B} (l1 : list A) (l2 : list B) b :
  List.length l1 = List.length l2 -> In b l2 -> exists a, In (a, b) (combine l1 l2).
Proof.
  revert l1. induction l2 as [|y l2 IH]; intros [|x l1] Hlen Hb; cbn in *;
    try contradiction; try discriminate.
  destruct Hb as [-> | Hb]; [eauto|].
  destruct (IH l1 ltac:(lia) Hb) as [a Ha]. eauto.
Qed.

Lemma in_enumerate {A} (l : list A) a : In a l -> exists i, In (i, a) (enumerate l).
Proof.
  intros H. unfold enumerate. apply in_combine_second; [|exact H].
  rewrite length_zrange. lia.
Qed.

Lemma in_enumerate_inv {A} (l : list A) i a : In (i, a) (enumerate l) -> In a l.
Proof. unfold enumerate. apply in_combine_r. Qed.

Lemma in_grid_cells data date :
  In date (grid_cells data) ->
  exists r_index row m_index mo w_index wk d_index,
    In (r_index, row) (enumerate data)
    /\ In (m_index, mo) (enumerate row)
    /\ In (w_index, wk) (enumerate mo)
    /\ In (d_index, date) (enumerate wk)
    /\ month date = m_index + r_index * 4 + 1.
Proof.
  unfold grid_cells. intros H.
  apply in_flat_map in H as ([r_index row] & Hr & H).
  apply in_flat_map in H as ([m_index mo] & Hm & H).
  apply in_flat_map in H as ([w_index wk] & Hw & H).
  apply filter_In in H as [Hd Hmonth]. apply Z.eqb_eq in Hmonth.
  destruct (in_enumerate _ _ Hd) as [d_index Hd'].
  exists r_index, row, m_index, mo, w_index, wk, d_index. auto.
Qed.

Section RunProperties.
Variable ephemeris : Skyfield.Time -> result PyFloat.float64.
Variable fromSolarDate : Z -> Z -> Z -> result LunarDate.t.
Variable truetype : string -> Z -> result PIL.font.
Variable now_year : Z.

Lemma keeps_files_draw_moon_ring cx cy radius date ctx :
  keeps_files (draw_moon_ring fromSolarDate cx cy radius date ctx).
Proof.
  unfold draw_moon_ring.
  apply keeps_files_bind; [auto with files|]. intros [illum waxing].
  apply keeps_files_bind; [auto with files|]. intros sweep.
  apply keeps_files_bind; [auto with files|]. intros fill.
  repeat (apply keeps_files_bind; [auto with files|]; intros _).
  auto with files.
Qed.

Lemma keeps_files_draw_text xy text size fill :
  keeps_files (draw_text truetype xy text size fill).
Proof.
  unfold draw_text. apply keeps_files_bind; [auto with files|]. intros f.
  auto with files.
Qed.

Lemma keeps_files_draw_cell tz ctx mi x y1 y2 cell :
  keeps_files (draw_cell fromSolarDate truetype tz ctx mi x y1 y2 cell).
Proof.
  unfold draw_cell. destruct cell as [d_index date].
  destruct (negb _); [auto with files|].
  apply keeps_files_bind; [destruct (_ || _); auto with files|]; intros _.
  apply keeps_files_bind; [auto with files|]; intros dt.
  apply keeps_files_bind; [apply keeps_files_draw_moon_ring|]; intros _.
  apply keeps_files_draw_text.
Qed.

Lemma keeps_files_draw_week tz ctx mi x y dgap wk :
  keeps_files (draw_week fromSolarDate truetype tz ctx mi x y dgap wk).
Proof.
  unfold draw_week. destruct wk as [w_index weekday].
  apply keeps_files_for_each. intros cell. apply keeps_files_draw_cell.
Qed.

Lemma keeps_files_draw_month tz ctx r_index dgap mo :
  keeps_files (draw_month fromSolarDate truetype tz ctx r_index dgap mo).
Proof.
  unfold draw_month. destruct mo as [m_index month_].
  apply keeps_files_bind; [apply keeps_files_draw_text|]; intros _.
  apply keeps_files_bind.
  { apply keeps_files_for_each. intros [a_index abbr]. apply keeps_files_draw_text. }
  intros _.
  apply keeps_files_bind; [auto with files|]; intros _.
  apply keeps_files_for_each. intros wk. apply keeps_files_draw_week.
Qed.

Lemma keeps_files_draw_row tz ctx dgap rw :
  keeps_files (draw_row fromSolarDate truetype tz ctx dgap rw).
Proof.
  unfold draw_row. destruct rw as [r_index row].
  apply keeps_files_for_each. intros mo. apply keeps_files_draw_month.
Qed.

(** The run once its offset, its title and its grid are there: the title,
    the rows, the save. *)
Lemma generate_calendar_on_grid tz_offset year offset tz title data w :
  timedelta_hours tz_offset = Ok offset ->
  new_timezone offset = Ok tz ->
  PyInt.str (match year with None => now_year | Some y => y end) = Ok title ->
  PyCalendar.yeardatescalendar PyCalendar.SUNDAY
    (match year with None => now_year | Some y => y end) 4 = Ok data ->
  generate_calendar ephemeris fromSolarDate truetype now_year tz_offset year w
  = match draw_text truetype (WIDTH / 2, PADDING) title FZ_YEAR COLOR_BLACK
            (PIL.mkworld [] (PIL.files w)) with
    | (Ok _, w1) =>
        match for_each (enumerate data)
                (draw_row fromSolarDate truetype tz (mkctx ephemeris)
                   (FZ_MONTH + FZ_WEEK + DGAP_OFFSET)) w1 with
        | (Ok _, w2) => save "calendar.png" w2
        | (Raise e, w2) => (Raise e, w2)
        end
    | (Raise e, w1) => (Raise e, w1)
    end.
Proof.
  intros Hoff Htz Hstr Hdata. unfold generate_calendar, bind, lift, new_image.
  rewrite Hoff, Htz, Hstr.
  destruct (draw_text _ _ _ _ _ _) as [[u|e] w1]; [|reflexivity].
  rewrite Hdata. reflexivity.
Qed.

(** What a run that returns went through. *)
Lemma generate_calendar_ok_steps tz_offset year w w' :
  generate_calendar ephemeris fromSolarDate truetype now_year tz_offset year w
  = (Ok tt, w') ->
  exists offset tz title data w1 w2,
    timedelta_hours tz_offset = Ok offset
    /\ new_timezone offset = Ok tz
    /\ PyInt.str (match year with None => now_year | Some y => y end) = Ok title
    /\ PyCalendar.yeardatescalendar PyCalendar.SUNDAY
         (match year with None => now_year | Some y => y end) 4 = Ok data
    /\ draw_text truetype (WIDTH / 2, PADDING) title FZ_YEAR COLOR_BLACK
         (PIL.mkworld [] (PIL.files w)) = (Ok tt, w1)
    /\ for_each (enumerate data)
         (draw_row fromSolarDate truetype tz (mkctx ephemeris)
            (FZ_MONTH + FZ_WEEK + DGAP_OFFSET)) w1 = (Ok tt, w2)
    /\ PIL.files w2 = PIL.files w
    /\ save "calendar.png" w2 = (Ok tt, w').
Proof.
  intros H. unfold generate_calendar in H.
  apply bind_ok_inv in H as (offset & w0 & Ho & H). apply lift_ok_inv in Ho as [Ho ->].
  apply bind_ok_inv in H as (tz & w0 & Ht & H). apply lift_ok_inv in Ht as [Ht ->].
  apply bind_ok_inv in H as ([] & w0 & Hn & H). unfold new_image in Hn.
  injection Hn as <-.
  apply bind_ok_inv in H as (title & w0 & Hs & H). apply lift_ok_inv in Hs as [Hs ->].
  apply bind_ok_inv in H as ([] & w1 & Htitle & H).
  apply bind_ok_inv in H as (data & w0 & Hd & H). apply lift_ok_inv in Hd as [Hd ->].
  apply bind_ok_inv in H as ([] & w2 & Hloop & Hsave).
  exists offset, tz, title, data, w1, w2. repeat (split; [assumption|]).
  split; [|exact Hsave].
  pose proof (keeps_files_for_each (enumerate data) _
                (fun rw => keeps_files_draw_row tz (mkctx ephemeris)
                             (FZ_MONTH + FZ_WEEK + DGAP_OFFSET) rw) w1) as K2.
  rewrite Hloop in K2. cbn [snd] in K2.
  pose proof (keeps_files_draw_text (WIDTH / 2, PADDING) title FZ_YEAR COLOR_BLACK
                (PIL.mkworld [] (PIL.files w))) as K1.
  rewrite Htitle in K1. cbn [snd PIL.files] in K1. congruence.
Qed.

(** A run that raises has left the file system as it was, unless it got to
    the save and was interrupted there. *)
Lemma generate_calendar_raise_steps tz_offset year w e w' :
  generate_calendar ephemeris fromSolarDate truetype now_year tz_offset year w
  = (Raise e, w') ->
  PIL.files w' = PIL.files w
  \/ exists w2,
       PIL.files w2 = PIL.files w /\ save "calendar.png" w2 = (Raise e, w').
Proof.
  intros H. unfold generate_calendar in H.
  apply bind_raise_inv in H as [H | (offset & w0 & Ho & H)];
    [injection H as _ <-; left; reflexivity|].
  injection Ho as _ <-.
  apply bind_raise_inv in H as [H | (tz & w0 & Ht & H)];
    [injection H as _ <-; left; reflexivity|].
  injection Ht as _ <-.
  apply bind_raise_inv in H as [H | (u & w0 & Hn & H)]; [discriminate H|].
  unfold new_image in Hn. injection Hn as _ <-.
  apply bind_raise_inv in H as [H | (title & w0 & Hs & H)];
    [injection H as _ <-; left; reflexivity|].
  injection Hs as _ <-.
  pose proof (keeps_files_draw_text (WIDTH / 2, PADDING) title FZ_YEAR COLOR_BLACK
                (PIL.mkworld [] (PIL.files w))) as K1.
  apply bind_raise_inv in H as [H | (u1 & w1 & Htitle & H)];
    [rewrite H in K1; left; exact K1|].
  rewrite Htitle in K1. cbn [snd PIL.files] in K1.
  apply bind_raise_inv in H as [H | (data & w0 & Hd & H)];
    [injection H as _ <-; left; exact K1|].
  injection Hd as _ <-.
  pose proof (keeps_files_for_each (enumerate data) _
                (fun rw => keeps_files_draw_row tz (mkctx ephemeris)
                             (FZ_MONTH + FZ_WEEK + DGAP_OFFSET) rw) w1) as K2.
  apply bind_raise_inv in H as [H | (u2 & w2 & Hloop & H)].
  - left. rewrite H in K2. cbn [snd] in K2. congruence.
  - right. exists w2. split; [|exact H].
    rewrite Hloop in K2. cbn [snd] in K2. congruence.
Qed.

End RunProperties.


Section RunInversion.
Variable ephemeris : Skyfield.Time -> result PyFloat.float64.
Variable fromSolarDate : Z -> Z -> Z -> result LunarDate.t.
Variable truetype : string -> Z -> result PIL.font.
Variable now_year : Z.

Lemma draw_cell_ok_inv tz ctx mi x y1 y2 d_index date w w' :
  draw_cell fromSolarDate truetype tz ctx mi x y1 y2 (d_index, date) w = (Ok tt, w') ->
  month date = mi ->
  exists dt r,
    new_datetime (year date) (month date) (day date) (Some tz) = Ok dt
    /\ get_illum_waxing dt ctx = Ok r.
Proof.
  intros H Hm. unfold draw_cell in H.
  replace (month date =? mi) with true in H by (symmetry; apply Z.eqb_eq; exact Hm).
  cbn [negb] in H.
  apply bind_ok_inv in H as (u & w1 & _ & H).
  apply bind_ok_inv in H as (dt & w2 & Hdt & H).
  apply lift_ok_inv in Hdt as [Hdt ->].
  apply bind_ok_inv in H as (u' & w3 & Hring & _).
  unfold draw_moon_ring in Hring.
  apply bind_ok_inv in Hring as (r & w4 & Hr & _).
  apply lift_ok_inv in Hr as [Hr _]. eauto.
Qed.

Lemma draw_week_ok_inv tz ctx mi x y dgap w_index wk w w' :
  draw_week fromSolarDate truetype tz ctx mi x y dgap (w_index, wk) w = (Ok tt, w') ->
  forall cell, In cell (enumerate wk) ->
  exists x' y1 y2 w1 w2,
    draw_cell fromSolarDate truetype tz ctx mi x' y1 y2 cell w1 = (Ok tt, w2).
Proof.
  unfold draw_week. intros H cell Hc.
  destruct (for_each_ok_inv _ _ _ _ H cell Hc) as (w1 & w2 & Hb). eauto 10.
Qed.

Lemma draw_month_ok_inv tz ctx r_index dgap m_index mo w w' :
  draw_month fromSolarDate truetype tz ctx r_index dgap (m_index, mo) w = (Ok tt, w') ->
  forall wk, In wk (enumerate mo) ->
  exists x y dgap' w1 w2,
    draw_week fromSolarDate truetype tz ctx (m_index + r_index * 4 + 1) x y dgap' wk w1
    = (Ok tt, w2).
Proof.
  unfold draw_month. intros H wk Hwk.
  apply bind_ok_inv in H as (u1 & w1 & _ & H).
  apply bind_ok_inv in H as (u2 & w2 & _ & H).
  apply bind_ok_inv in H as (u3 & w3 & _ & H).
  destruct (for_each_ok_inv _ _ _ _ H wk Hwk) as (w4 & w5 & Hb). eauto 10.
Qed.

Lemma draw_row_ok_inv tz ctx dgap r_index row w w' :
  draw_row fromSolarDate truetype tz ctx dgap (r_index, row) w = (Ok tt, w') ->
  forall mo, In mo (enumerate row) ->
  exists w1 w2,
    draw_month fromSolarDate truetype tz ctx r_index dgap mo w1 = (Ok tt, w2).
Proof.
  unfold draw_row. intros H mo Hmo. eapply for_each_ok_inv; eassumption.
Qed.

Lemma rows_ok_inv tz data w w' :
  for_each (enumerate data)
    (draw_row fromSolarDate truetype tz (mkctx ephemeris)
       (FZ_MONTH + FZ_WEEK + DGAP_OFFSET)) w = (Ok tt, w') ->
  forall date, In date (grid_cells data) ->
  exists dt r,
    new_datetime (PyDatetime.year date) (month date) (day date) (Some tz) = Ok dt
    /\ get_illum_waxing dt (mkctx ephemeris) = Ok r.
Proof.
  intros Hloop date Hdate.
  destruct (in_grid_cells _ _ Hdate)
    as (r_index & row & m_index & mo & w_index & wk & d_index & Hr & Hm & Hw & Hd & Hmonth).
  destruct (for_each_ok_inv _ _ _ _ Hloop _ Hr) as (a1 & a2 & Hrow).
  destruct (draw_row_ok_inv _ _ _ _ _ _ _ Hrow _ Hm) as (b1 & b2 & Hmo).
  destruct (draw_month_ok_inv _ _ _ _ _ _ _ _ Hmo _ Hw) as (x & y & dg & c1 & c2 & Hwk).
  destruct (draw_week_ok_inv _ _ _ _ _ _ _ _ _ _ Hwk _ Hd)
    as (x' & y1 & y2 & d1 & d2 & Hcell).
  eapply draw_cell_ok_inv; eassumption.
Qed.

End RunInversion.


Lemma has_outcome_ret {A} (a : A) : has_outcome (ret a) (Ok tt).
Proof. intros w. exact I. Qed.

Lemma has_outcome_draw c : has_outcome (draw c) (Ok tt).
Proof. intros w. exact I. Qed.

Lemma has_outcome_seq {A B} (m : M A) (k : M B) r :
  has_outcome m (Ok tt) -> has_outcome k r -> has_outcome (bind m (fun _ => k)) r.
Proof.
  intros Hm Hk w. unfold bind. specialize (Hm w).
  destruct (m w) as [[a|e] w1]; cbn [fst] in Hm; [apply Hk | contradiction].
Qed.

Lemma has_outcome_then {A B} (m : M A) (k : M B) r :
  has_outcome m r -> has_outcome k (Ok tt) -> has_outcome (bind m (fun _ => k)) r.
Proof.
  intros Hm Hk w. unfold bind. specialize (Hm w).
  destruct (m w) as [[a|e] w1]; cbn [fst] in Hm |- *.
  - specialize (Hk w1). destruct r as [[]|e]; [|contradiction].
    destruct (fst (k w1)); [exact I | contradiction].
  - exact Hm.
Qed.

Lemma has_outcome_lift {A B} (r : result A) (k : A -> M B) (out : A -> result unit) :
  (forall a, r = Ok a -> has_outcome (k a) (out a)) ->
  has_outcome (bind (lift r) k) (rbind r out).
Proof.
  intros Hk w. unfold bind, lift. destruct r as [a|e]; cbn [rbind fst].
  - apply Hk. reflexivity.
  - reflexivity.
Qed.

Lemma first_raise_enumerate_filter {A} (p : A -> bool) (out : A -> result unit)
    (idx : list Z) (l : list A) :
  List.length idx = List.length l ->
  first_raise (map (fun c : Z * A => if p (snd c) then out (snd c) else Ok tt) (combine idx l))
  = first_raise (map out (filter p l)).
Proof.
  revert idx. induction l as [|a l IH]; intros [|i idx] Hlen; cbn in Hlen; try discriminate;
    try reflexivity.
  cbn [combine map filter snd first_raise fold_right].
  fold (first_raise (map (fun c : Z * A => if p (snd c) then out (snd c) else Ok tt)
                       (combine idx l))).
  rewrite (IH idx) by lia.
  destruct (p a); cbn [map first_raise fold_right]; [reflexivity|].
  reflexivity.
Qed.

Section RunOutcome.
Variable ephemeris : Skyfield.Time -> result PyFloat.float64.
Variable fromSolarDate : Z -> Z -> Z -> result LunarDate.t.
Variable truetype : string -> Z -> result PIL.font.
Variable now_year : Z.

Lemma has_outcome_draw_text xy text size fill :
  has_outcome (draw_text truetype xy text size fill)
    (let? _ := truetype FONT_NAME size in Ok tt).
Proof.
  unfold draw_text. apply has_outcome_lift. intros f _. apply has_outcome_draw.
Qed.

Lemma has_outcome_draw_text_ok xy text size fill :
  fonts_ok truetype -> In size [FZ_YEAR; FZ_MONTH; FZ_WEEK] ->
  has_outcome (draw_text truetype xy text size fill) (Ok tt).
Proof.
  intros Hf Hs. destruct (Hf size Hs) as [f Hsz].
  eapply has_outcome_ext; [|apply has_outcome_draw_text]. rewrite Hsz. reflexivity.
Qed.

Lemma has_outcome_draw_moon_ring cx cy radius dt ctx :
  has_outcome (draw_moon_ring fromSolarDate cx cy radius dt ctx)
    (let? '(illum, _) := get_illum_waxing dt ctx in
     let? _ := PyFloat.to_int (PyFloat.mul (PyFloat.of_int 360) illum) in
     let? _ := get_lunar_color fromSolarDate dt in
     Ok tt).
Proof.
  unfold draw_moon_ring. apply has_outcome_lift. intros [illum waxing] _.
  apply has_outcome_lift. intros sweep _.
  apply has_outcome_lift. intros fill _.
  repeat (apply has_outcome_seq; [apply has_outcome_draw|]). apply has_outcome_draw.
Qed.

Lemma has_outcome_draw_cell tz ctx mi x y1 y2 d_index date :
  has_outcome (draw_cell fromSolarDate truetype tz ctx mi x y1 y2 (d_index, date))
    (if month date =? mi then cell_outcome fromSolarDate truetype tz ctx date else Ok tt).
Proof.
  unfold draw_cell. destruct (month date =? mi); cbn [negb]; [|apply has_outcome_ret].
  apply has_outcome_seq.
  { destruct (_ || _); [apply has_outcome_draw | apply has_outcome_ret]. }
  unfold cell_outcome. apply has_outcome_lift. intros dt _.
  intros w. unfold bind.
  pose proof (has_outcome_draw_moon_ring (x + d_index * ASPACE + ASPACE / 2)
                (y1 + 33) 30 dt ctx w) as Hring.
  destruct (draw_moon_ring _ _ _ _ _ _ w) as [[u|e] w1]; cbn [fst] in Hring |- *.
  - destruct (get_illum_waxing dt ctx) as [[illum waxing]|e]; cbn [rbind] in Hring |- *;
      [|contradiction].
    destruct (PyFloat.to_int _) as [sweep|e]; cbn [rbind] in Hring |- *; [|contradiction].
    destruct (get_lunar_color fromSolarDate dt) as [fill|e]; cbn [rbind] in Hring |- *;
      [|contradiction].
    apply has_outcome_draw_text.
  - destruct (get_illum_waxing dt ctx) as [[illum waxing]|e']; cbn [rbind] in Hring |- *;
      [|exact Hring].
    destruct (PyFloat.to_int _) as [sweep|e']; cbn [rbind] in Hring |- *; [|exact Hring].
    destruct (get_lunar_color fromSolarDate dt) as [fill|e']; cbn [rbind] in Hring |- *;
      [contradiction | exact Hring].
Qed.

Lemma has_outcome_draw_week tz ctx mi x y dgap w_index wk :
  has_outcome (draw_week fromSolarDate truetype tz ctx mi x y dgap (w_index, wk))
    (first_raise (map (cell_outcome fromSolarDate truetype tz ctx)
                    (filter (fun date : date => month date =? mi) wk))).
Proof.
  unfold draw_week.
  rewrite <- (first_raise_enumerate_filter (fun date : date => month date =? mi)
                (cell_outcome fromSolarDate truetype tz ctx)
                (zrange 0 (Z.of_nat (List.length wk))) wk)
    by (rewrite length_zrange; lia).
  apply has_outcome_for_each. intros [d_index date] _. cbn [snd].
  apply has_outcome_draw_cell.
Qed.

Lemma has_outcome_draw_month tz ctx r_index dgap m_index mo :
  fonts_ok truetype ->
  has_outcome (draw_month fromSolarDate truetype tz ctx r_index dgap (m_index, mo))
    (first_raise
       (map (cell_outcome fromSolarDate truetype tz ctx)
          (flat_map (fun '(w_index, week) =>
             filter (fun date : date => month date =? m_index + r_index * 4 + 1) week)
             (enumerate mo)))).
Proof.
  intros Hf. unfold draw_month.
  apply has_outcome_seq; [apply has_outcome_draw_text_ok; cbn; auto|].
  apply has_outcome_seq.
  { eapply has_outcome_ext; [|apply (has_outcome_for_each _ (fun _ => Ok tt))].
    - apply first_raise_all_ok. intros r Hr. apply in_map_iff in Hr as (c & <- & _).
      reflexivity.
    - intros [a_index abbr] _. apply has_outcome_draw_text_ok; cbn; auto. }
  apply has_outcome_seq; [apply has_outcome_draw|].
  rewrite <- (first_raise_flat_map (cell_outcome fromSolarDate truetype tz ctx)
                (fun '(w_index, week) =>
                   filter (fun date : date => month date =? m_index + r_index * 4 + 1) week)).
  apply has_outcome_for_each. intros [w_index wk] _. apply has_outcome_draw_week.
Qed.

Lemma has_outcome_draw_row tz ctx dgap r_index row :
  fonts_ok truetype ->
  has_outcome (draw_row fromSolarDate truetype tz ctx dgap (r_index, row))
    (first_raise
       (map (cell_outcome fromSolarDate truetype tz ctx)
          (flat_map (fun '(m_index, month_) =>
             flat_map (fun '(w_index, week) =>
               filter (fun date : date => month date =? m_index + r_index * 4 + 1) week)
               (enumerate (A := list date) month_))
             (enumerate row)))).
Proof.
  intros Hf. unfold draw_row.
  rewrite <- (first_raise_flat_map (cell_outcome fromSolarDate truetype tz ctx)
                (fun '(m_index, month_) =>
                   flat_map (fun '(w_index, week) =>
                     filter (fun date : date => month date =? m_index + r_index * 4 + 1) week)
                     (enumerate (A := list date) month_))).
  apply has_outcome_for_each. intros [m_index mo] _. apply has_outcome_draw_month. exact Hf.
Qed.

Lemma has_outcome_rows tz data :
  fonts_ok truetype ->
  has_outcome
    (for_each (enumerate data)
       (draw_row fromSolarDate truetype tz (mkctx ephemeris)
          (FZ_MONTH + FZ_WEEK + DGAP_OFFSET)))
    (first_raise (map (cell_outcome fromSolarDate truetype tz (mkctx ephemeris))
                    (grid_cells data))).
Proof.
  intros Hf. unfold grid_cells.
  rewrite <- (first_raise_flat_map (cell_outcome fromSolarDate truetype tz (mkctx ephemeris))
                (fun '(r_index, row) =>
                   flat_map (fun '(m_index, month_) =>
                     flat_map (fun '(w_index, week) =>
                       filter (fun date : date => month date =? m_index + r_index * 4 + 1) week)
                       (enumerate (A := list date) month_))
                     (enumerate (A := list (list date)) row))).
  apply has_outcome_for_each. intros [r_index row] _. apply has_outcome_draw_row. exact Hf.
Qed.

End RunOutcome.

(** ** The two instants of a day *)

Section Sampling.
Variable ctx : draw_context.

Lemma midnight_sampling (d : date) (tz_offset : Z) (offset : timedelta) (tz : timezone) :
  valid_date d = true ->
  1 < year d < 9999 ->
  timedelta_hours tz_offset = Ok offset ->
  new_timezone offset = Ok tz ->
  let T0 := Skyfield.mkTime (toordinal d * US_PER_DAY - tz_offset * 3600 * US_PER_SECOND) in
  let T1 := Skyfield.mkTime (Skyfield.utc_us T0 + 24 * 3600 * US_PER_SECOND) in
  exists dt next,
    new_datetime (year d) (month d) (day d) (Some tz) = Ok dt
    /\ dt = mkdatetime d 0 0 0 0 (Some tz)
    /\ datetime_add dt US_PER_DAY = Ok next
    /\ next = mkdatetime (fromordinal (toordinal d + 1)) 0 0 0 0 (Some tz)
    /\ toordinal (civil next) = toordinal d + 1
    /\ Skyfield.from_datetime dt = Ok T0
    /\ Skyfield.from_datetime next = Ok T1
    /\ get_illum_waxing dt ctx
       = (let? illum := fraction_illuminated ctx T0 in
          let? illum_next := fraction_illuminated ctx T1 in
          Ok (illum, PyFloat.gt illum_next illum)).
Proof.
  intros Hv Hy Hh Htz T0 T1.
  apply timedelta_hours_inv in Hh. apply new_timezone_inv in Htz as [-> Hoff].
  pose proof (toordinal_bounds d Hv Hy) as Hord.
  set (dt := mkdatetime d 0 0 0 0 (Some (mktz offset))).
  assert (Hl : local_us dt = toordinal d * US_PER_DAY).
  { unfold local_us, dt, US_PER_DAY. cbn [civil hour minute second microsecond]. lia. }
  assert (Hday : (local_us dt + US_PER_DAY) / US_PER_DAY = toordinal d + 1
                 /\ (local_us dt + US_PER_DAY) mod US_PER_DAY = 0).
  { rewrite Hl. unfold US_PER_DAY, US_PER_SECOND.
    Z.to_euclidean_division_equations. lia. }
  destruct Hday as [Hdiv Hmod].
  destruct (datetime_add_spec dt US_PER_DAY) as (next & Hadd & Hln & Htzn & Hcn & Hfn).
  { rewrite Hdiv. lia. }
  rewrite Hdiv in Hcn. rewrite Hmod in Hfn.
  assert (Hnext : next = mkdatetime (fromordinal (toordinal d + 1)) 0 0 0 0 (Some (mktz offset))).
  { unfold datetime_add in Hadd. cbv zeta in Hadd. rewrite Hdiv, Hmod in Hadd.
    replace ((0 <? toordinal d + 1) && (toordinal d + 1 <=? MAXORDINAL)) with true in Hadd
      by (symmetry; apply andb_true_iff; rewrite Z.ltb_lt, Z.leb_le; lia).
    assert (Hus : (local_us dt + US_PER_DAY) mod US_PER_SECOND = 0).
    { rewrite Hl. unfold US_PER_DAY, US_PER_SECOND.
      Z.to_euclidean_division_equations. lia. }
    rewrite Hus in Hadd. inversion Hadd. reflexivity. }
  assert (H0 : Skyfield.from_datetime dt = Ok T0).
  { rewrite (from_datetime_aware dt (mktz offset)); [| reflexivity |].
    - unfold T0. rewrite Hl, Hh. reflexivity.
    - rewrite Hl. cbn [utcoffset]. apply utc_day_in_range; [assumption | lia]. }
  assert (H1 : Skyfield.from_datetime next = Ok T1).
  { rewrite (from_datetime_aware next (mktz offset)); [| exact Htzn |].
    - unfold T1, T0. cbn [Skyfield.utc_us utcoffset]. rewrite Hln, Hl, Hh. f_equal. f_equal.
      unfold US_PER_DAY, US_PER_SECOND. lia.
    - rewrite Hln, Hl. cbn [utcoffset].
      replace (toordinal d * US_PER_DAY + US_PER_DAY) with ((toordinal d + 1) * US_PER_DAY) by lia.
      apply utc_day_in_range; [assumption | lia]. }
  exists dt, next. repeat split; try assumption.
  - unfold new_datetime. unfold valid_date in Hv. rewrite (new_date_valid _ _ _ Hv).
    destruct d; reflexivity.
  - rewrite Hcn. apply toordinal_fromordinal. lia.
  - unfold get_illum_waxing. rewrite H0, timedelta_days_1. cbn [rbind].
    rewrite Hadd. cbn [rbind]. rewrite H1. reflexivity.
Qed.
End Sampling.

(** ** Comparisons that say "equal" *)

Lemma SFcompare_eq_inv x y :
  SFcompare x y = Some Eq ->
  x = y \/ (exists s s', x = S754_zero s /\ y = S754_zero s').
Proof.
  destruct x as [sx|sx| |sx mx ex]; destruct y as [sy|sy| |sy my ey]; cbn [SFcompare];
    intros H; try discriminate.
  - right. eauto.
  - destruct sy; discriminate.
  - destruct sy; discriminate.
  - destruct sx; discriminate.
  - left. destruct sx, sy; try discriminate; reflexivity.
  - destruct sx; discriminate.
  - destruct sx; discriminate.
  - destruct sy; discriminate.
  - left. injection H as H.
    assert (Hem : ex = ey /\ mx = my).
    { destruct sx, sy; try discriminate; destruct (ex ?= ey) eqn:Hc; try discriminate;
        apply Z.compare_eq in Hc; split; try assumption.
      - destruct (Pos.compare_cont Eq mx my) eqn:Hm; try discriminate.
        apply Pos.compare_eq. exact Hm.
      - apply Pos.compare_eq. exact H. }
    destruct Hem as [-> ->].
    destruct sx, sy; try discriminate; reflexivity.
Qed.

Lemma SFeqb_not_gt x y : SFeqb x y = true -> PyFloat.gt x y = false.
Proof.
  unfold SFeqb. destruct (SFcompare x y) as [[| |]|] eqn:Hc; try discriminate. intros _.
  destruct (SFcompare_eq_inv x y Hc) as [-> | (s & s' & -> & ->)].
  - apply gt_irrefl.
  - reflexivity.
Qed.

Lemma SFeqb_finite_eq x s m e : SFeqb x (S754_finite s m e) = true -> x = S754_finite s m e.
Proof.
  unfold SFeqb. destruct (SFcompare x _) as [[| |]|] eqn:Hc; try discriminate. intros _.
  destruct (SFcompare_eq_inv _ _ Hc) as [-> | (s1 & s2 & _ & H)]; [reflexivity | discriminate].
Qed.

Lemma SFeqb_zero_eq x s : SFeqb x (S754_zero s) = true -> exists s', x = S754_zero s'.
Proof.
  unfold SFeqb. destruct (SFcompare x _) as [[| |]|] eqn:Hc; try discriminate. intros _.
  destruct (SFcompare_eq_inv _ _ Hc) as [-> | (s1 & s2 & -> & _)]; eauto.
Qed.

Lemma in_unit_finite x : in_unit x = true -> PyFloat.is_finite x = true.
Proof.
  intros H. destruct (in_unit_cases x H) as [[s ->] | (m & e & -> & _)]; reflexivity.
Qed.

Lemma in_unit_to_Q x : in_unit x = true -> (0 <= PyFloat.to_Q x <= 1)%Q.
Proof.
  intros H. pose proof (in_unit_finite x H) as Hf.
  unfold in_unit in H. apply andb_prop in H as [H H1]. apply andb_prop in H as [Hv H0].
  unfold PyFloat.le, SFleb in H0, H1.
  rewrite SFcompare_to_Q in H0, H1
    by (assumption || (rewrite ?of_int_0, ?of_int_1; vm_compute; reflexivity)).
  rewrite of_int_0 in H0. rewrite of_int_1 in H1. split.
  - change 0%Q with (PyFloat.to_Q (S754_zero false)). apply Qle_alt.
    intros Hc. rewrite Hc in H0. discriminate.
  - apply Qle_trans with (PyFloat.to_Q (S754_finite false 4503599627370496 (-52))).
    + apply Qle_alt. intros Hc. rewrite Hc in H1. discriminate.
    + apply Qle_bool_iff. vm_compute. reflexivity.
Qed.

(** * Properties of the year's grid and of the finished page *)

(** ** Days and their ordinals *)

Lemma days_before_year_succ y :
  days_before_year (y + 1) = days_before_year y + 365 + (if is_leap y then 1 else 0).
Proof.
  unfold days_before_year, is_leap. cbv zeta.
  replace (y + 1 - 1) with y by lia.
  destruct (Z.eqb_spec (y mod 4) 0); destruct (Z.eqb_spec (y mod 100) 0);
    destruct (Z.eqb_spec (y mod 400) 0); cbn [andb orb negb];
    Z.to_euclidean_division_equations; lia.
Qed.

Lemma days_before_year_lt a b : a < b -> days_before_year a + 365 <= days_before_year b.
Proof.
  intros H. unfold days_before_year. cbv zeta.
  Z.to_euclidean_division_equations. lia.
Qed.

Lemma days_before_month_succ y m :
  1 <= m <= 11 ->
  days_before_month y (m + 1) = days_before_month y m + days_in_month y m.
Proof.
  intros Hm. unfold days_before_month, days_in_month.
  assert (m = 1 \/ m = 2 \/ m = 3 \/ m = 4 \/ m = 5 \/ m = 6 \/ m = 7 \/ m = 8
          \/ m = 9 \/ m = 10 \/ m = 11) as Hcases by lia.
  repeat (destruct Hcases as [-> | Hcases]); [.. | subst m];
    eval_index; destruct (is_leap y);
    cbn [andb Z.eqb Z.ltb Z.compare Z.add Pos.add Pos.succ Pos.eqb Pos.compare Pos.compare_cont];
    lia.
Qed.

Lemma days_before_month_december y :
  days_before_month y 12 + days_in_month y 12 = 365 + (if is_leap y then 1 else 0).
Proof.
  unfold days_before_month, days_in_month. eval_index.
  destruct (is_leap y); reflexivity.
Qed.

Lemma days_before_month_mono y m m' :
  1 <= m -> m < m' <= 12 ->
  days_before_month y m + days_in_month y m <= days_before_month y m'.
Proof.
  intros Hm Hm'.
  assert (Hstep : forall k, 0 <= k -> m + 1 + k <= 12 ->
             days_before_month y m + days_in_month y m <= days_before_month y (m + 1 + k)).
  { intros k Hk. pattern k. apply natlike_ind; [| |exact Hk].
    - intros _. rewrite Z.add_0_r, days_before_month_succ by lia. lia.
    - intros j Hj IH Hle. specialize (IH ltac:(lia)).
      replace (m + 1 + Z.succ j) with ((m + 1 + j) + 1) by lia.
      rewrite days_before_month_succ by lia.
      pose proof (days_in_month_bounds y (m + 1 + j) ltac:(lia)). lia. }
  replace m' with (m + 1 + (m' - m - 1)) by lia. apply Hstep; lia.
Qed.

Lemma ymd2ord_inj y m d y' m' d' :
  1 <= m <= 12 -> 1 <= d <= days_in_month y m ->
  1 <= m' <= 12 -> 1 <= d' <= days_in_month y' m' ->
  ymd2ord y m d = ymd2ord y' m' d' ->
  y = y' /\ m = m' /\ d = d'.
Proof.
  intros Hm Hd Hm' Hd' H. unfold ymd2ord in H.
  pose proof (days_before_month_day y m d Hm Hd) as Hy.
  pose proof (days_before_month_day y' m' d' Hm' Hd') as Hy'.
  assert (Hyy : y = y').
  { destruct (Z.lt_trichotomy y y') as [Hlt | [Heq | Hgt]]; [|exact Heq|].
    - pose proof (days_before_year_succ y) as Hs.
      assert (Hle : days_before_year (y + 1) <= days_before_year y').
      { destruct (Z.eq_dec (y + 1) y') as [<- | Hne]; [lia|].
        pose proof (days_before_year_lt (y + 1) y' ltac:(lia)). lia. }
      destruct (is_leap y); lia.
    - pose proof (days_before_year_succ y') as Hs.
      assert (Hle : days_before_year (y' + 1) <= days_before_year y).
      { destruct (Z.eq_dec (y' + 1) y) as [<- | Hne]; [lia|].
        pose proof (days_before_year_lt (y' + 1) y ltac:(lia)). lia. }
      destruct (is_leap y'); lia. }
  subst y'. split; [reflexivity|].
  assert (Hmm : m = m').
  { destruct (Z.lt_trichotomy m m') as [Hlt | [Heq | Hgt]]; [|exact Heq|].
    - pose proof (days_before_month_mono y m m' ltac:(lia) ltac:(lia)). lia.
    - pose proof (days_before_month_mono y m' m ltac:(lia) ltac:(lia)). lia. }
  subst m'. split; [reflexivity | lia].
Qed.

Lemma ord2ymd_ymd2ord y m d :
  1 <= y -> 1 <= m <= 12 -> 1 <= d <= days_in_month y m ->
  ord2ymd (ymd2ord y m d) = (y, m, d).
Proof.
  intros Hy Hm Hd.
  assert (Hn : 1 <= ymd2ord y m d).
  { unfold ymd2ord. pose proof (days_before_month_day y m d Hm Hd).
    assert (0 <= days_before_year y).
    { destruct (Z.eq_dec y 1) as [-> | Hne]; [cbv; discriminate|].
      pose proof (days_before_year_lt 1 y ltac:(lia)) as H1.
      change (days_before_year 1) with 0 in H1. lia. }
    lia. }
  pose proof (ord2ymd_roundtrip _ Hn) as H.
  destruct (ord2ymd (ymd2ord y m d)) as [[y' m'] d']. destruct H as (Heq & Hm' & Hd').
  destruct (ymd2ord_inj y' m' d' y m d Hm' Hd' Hm Hd Heq) as (-> & -> & ->). reflexivity.
Qed.

Lemma fromordinal_toordinal d : valid_date d = true -> fromordinal (toordinal d) = d.
Proof.
  unfold valid_date. rewrite check_date_fields_iff. intros (Hy & Hm & Hd).
  unfold fromordinal, toordinal. rewrite ord2ymd_ymd2ord by lia. destruct d; reflexivity.
Qed.

Lemma toordinal_tomorrow d :
  valid_date d = true ->
  toordinal (tomorrow d) = toordinal d + 1
  /\ 1 <= month (tomorrow d) <= 12
  /\ 1 <= day (tomorrow d) <= days_in_month (year (tomorrow d)) (month (tomorrow d)).
Proof.
  unfold valid_date. rewrite check_date_fields_iff. intros (Hy & Hm & Hd).
  unfold tomorrow, toordinal, ymd2ord.
  destruct (Z.ltb_spec (day d) (days_in_month (year d) (month d))) as [Hlt|Hge];
    [|destruct (Z.ltb_spec (month d) 12) as [Hm12|Hm12]]; cbn [year month day].
  - split; lia.
  - rewrite days_before_month_succ by lia.
    pose proof (days_in_month_bounds (year d) (month d + 1) ltac:(lia)). split; lia.
  - assert (month d = 12) as Hmd by lia. rewrite Hmd in *.
    rewrite days_before_year_succ. pose proof (days_before_month_december (year d)).
    pose proof (days_in_month_bounds (year d + 1) 1 ltac:(lia)).
    change (days_before_month (year d + 1) 1) with 0. split; lia.
Qed.

Lemma fromordinal_succ d :
  valid_date d = true -> fromordinal (toordinal d + 1) = tomorrow d.
Proof.
  intros Hv. destruct (toordinal_tomorrow d Hv) as (Ho & Hm & Hd).
  rewrite <- Ho. unfold fromordinal, toordinal.
  apply (proj1 (check_date_fields_iff _ _ _)) in Hv as (Hy & _ & _).
  rewrite ord2ymd_ymd2ord; [destruct (tomorrow d); reflexivity | | assumption | assumption].
  unfold tomorrow. destruct (_ <? _); [|destruct (_ <? _)]; cbn [year]; lia.
Qed.

Lemma valid_date_tomorrow d :
  valid_date d = true -> year d < 9999 -> valid_date (tomorrow d) = true.
Proof.
  intros Hv Hy. destruct (toordinal_tomorrow d Hv) as (_ & Hm & Hd).
  unfold valid_date. apply check_date_fields_iff. split; [|split; assumption].
  apply (proj1 (check_date_fields_iff _ _ _)) in Hv as (Hy1 & _ & _).
  unfold tomorrow. destruct (_ <? _); [|destruct (_ <? _)]; cbn [year]; lia.
Qed.

Lemma get_illum_waxing_first date ctx t illum waxing :
  Skyfield.from_datetime date = Ok t ->
  get_illum_waxing date ctx = Ok (illum, waxing) ->
  fraction_illuminated ctx t = Ok illum.
Proof.
  intros Ht. unfold get_illum_waxing. rewrite Ht, timedelta_days_1. cbn [rbind].
  destruct (datetime_add date US_PER_DAY) as [next|e]; cbn [rbind];
    [|intros X; discriminate X].
  destruct (Skyfield.from_datetime next) as [tn|e]; cbn [rbind];
    [|intros X; discriminate X].
  destruct (fraction_illuminated ctx t) as [i|e]; cbn [rbind];
    [|intros X; discriminate X].
  destruct (fraction_illuminated ctx tn) as [i'|e]; cbn [rbind];
    [|intros X; discriminate X].
  intros H. injection H as <- _. reflexivity.
Qed.

Lemma timezone_of_hours (h : Z) :
  -24 < h < 24 ->
  timedelta_hours h = Ok (h * 3600 * US_PER_SECOND)
  /\ new_timezone (h * 3600 * US_PER_SECOND) = Ok (mktz (h * 3600 * US_PER_SECOND)).
Proof.
  intros Hh. unfold timedelta_hours, new_timedelta, new_timezone. cbv zeta.
  unfold US_PER_DAY, US_PER_SECOND, MAX_DELTA_DAYS. split.
  - match goal with |- (if ?c then _ else _) = _ => assert (Hc : c = true) end.
    { apply andb_true_iff. rewrite !Z.leb_le.
      Z.to_euclidean_division_equations. lia. }
    rewrite Hc. reflexivity.
  - match goal with |- (if ?c then _ else _) = _ => assert (Hc : c = true) end.
    { apply andb_true_iff. rewrite !Z.ltb_lt. lia. }
    rewrite Hc. reflexivity.
Qed.

Lemma timezone_of_hours_fails (h : Z) :
  ~ (-24 < h < 24) ->
  (exists e, timedelta_hours h = Raise e /\ e = OverflowError)
  \/ (exists offset e, timedelta_hours h = Ok offset
                       /\ new_timezone offset = Raise e /\ e = ValueError).
Proof.
  intros Hh. unfold timedelta_hours, new_timedelta. cbv zeta.
  match goal with |- context [if ?c then Ok _ else _] => destruct c end.
  - right. exists (h * 3600 * US_PER_SECOND), ValueError. split; [reflexivity|].
    split; [|reflexivity]. unfold new_timezone.
    match goal with |- (if ?c then _ else _) = _ => assert (Hc : c = false) end.
    { apply andb_false_iff. rewrite !Z.ltb_ge.
      unfold US_PER_DAY, US_PER_SECOND. lia. }
    rewrite Hc. reflexivity.
  - left. exists OverflowError. split; reflexivity.
Qed.

Lemma first_raise_ok_iff l :
  first_raise l = Ok tt <-> (forall r, In r l -> r = Ok tt).
Proof.
  split; [|apply first_raise_all_ok].
  induction l as [|[[]|e] l IH]; cbn [first_raise fold_right]; intros H r Hr.
  - destruct Hr.
  - destruct Hr as [<- | Hr]; [reflexivity | apply IH; assumption].
  - discriminate H.
Qed.

Lemma keeps_files_at {A : Type} (m : M A) (Hm : keeps_files m) w r w' :
  m w = (r, w') -> PIL.files w' = PIL.files w.
Proof. intros H. specialize (Hm w). rewrite H in Hm. exact Hm. Qed.

(** ** The grid of a year *)

Lemma mapM_ok_map {A B : Type} (f : A -> result B) (g : A -> B) (l : list A) :
  (forall a, In a l -> f a = Ok (g a)) -> mapM f l = Ok (map g l).
Proof.
  induction l as [|a l IH]; intros H; cbn [mapM map]; [reflexivity|].
  rewrite (H a (or_introl eq_refl)). cbn [rbind].
  rewrite IH by (intros x Hx; apply H; right; exact Hx). reflexivity.
Qed.

Lemma in_zrange_inv (a b x : Z) : In x (zrange a b) -> a <= x < b.
Proof.
  unfold zrange. intros H. apply in_map_iff in H as (i & <- & Hi).
  apply in_seq in Hi. lia.
Qed.

Lemma chunks_fuel_concat {A : Type} (n : nat) (fuel : nat) (l : list A) :
  (0 < n)%nat -> (List.length l <= fuel)%nat -> List.concat (chunks_fuel fuel n l) = l.
Proof.
  intros Hn. revert l. induction fuel as [|fuel IH]; intros l Hlen.
  - destruct l; [reflexivity | cbn in Hlen; lia].
  - cbn [chunks_fuel]. destruct l as [|a l]; [reflexivity|].
    cbn [List.concat]. rewrite IH.
    + apply firstn_skipn.
    + rewrite length_skipn. cbn [List.length] in *. lia.
Qed.

Lemma concat_chunks {A : Type} (n : nat) (l : list A) :
  (0 < n)%nat -> List.concat (chunks n l) = l.
Proof. intros Hn. apply chunks_fuel_concat; [exact Hn | lia]. Qed.

Lemma flat_map_combine_snd {A B C : Type} (f : B -> list C) (idx : list A) (l : list B) :
  List.length idx = List.length l ->
  flat_map (fun p : A * B => f (snd p)) (combine idx l) = flat_map f l.
Proof.
  revert idx. induction l as [|b l IH]; intros [|i idx] Hlen; cbn in Hlen;
    try discriminate; try reflexivity.
  cbn [combine flat_map snd]. rewrite IH by lia. reflexivity.
Qed.

Lemma in_month_chunks (m : Z) (dates : list date) :
  in_month m (chunks 7 dates) = filter (fun date : date => month date =? m) dates.
Proof.
  unfold in_month, enumerate.
  rewrite (flat_map_ext _ (fun p : Z * list date =>
                             filter (fun date : date => month date =? m) (snd p)))
    by (intros [i wk]; reflexivity).
  rewrite flat_map_combine_snd by (rewrite length_zrange; lia).
  rewrite flat_map_concat_map, concat_filter_map, concat_chunks by lia.
  reflexivity.
Qed.

Lemma monthlen_days_in_month y m :
  1 <= m <= 12 -> PyCalendar.monthlen y m = days_in_month y m.
Proof.
  intros Hm. unfold PyCalendar.monthlen, days_in_month, PyCalendar.February.
  change (PyCalendar.isleap y) with (is_leap y).
  assert (m = 1 \/ m = 2 \/ m = 3 \/ m = 4 \/ m = 5 \/ m = 6 \/ m = 7 \/ m = 8
          \/ m = 9 \/ m = 10 \/ m = 11 \/ m = 12) as Hcases by lia.
  repeat (destruct Hcases as [-> | Hcases]); [.. | subst m];
    eval_index; destruct (is_leap y); reflexivity.
Qed.

Lemma new_date_ok y m d :
  1 <= y <= 9999 -> 1 <= m <= 12 -> 1 <= d <= days_in_month y m ->
  new_date y m d = Ok (mkdate y m d).
Proof.
  intros Hy Hm Hd. apply new_date_valid. apply check_date_fields_iff. auto.
Qed.

Lemma monthrange_ok y m :
  1 <= m <= 12 ->
  exists day1, PyCalendar.monthrange y m = Ok (day1, days_in_month y m) /\ 0 <= day1 < 7.
Proof.
  intros Hm. unfold PyCalendar.monthrange.
  replace ((1 <=? m) && (m <=? 12)) with true
    by (symmetry; apply andb_true_iff; rewrite !Z.leb_le; lia).
  unfold PyCalendar.weekday.
  set (y' := if (MINYEAR <=? y) && (y <=? MAXYEAR) then y else 2000 + y mod 400).
  assert (Hy' : 1 <= y' <= 9999).
  { subst y'. unfold MINYEAR, MAXYEAR.
    destruct (Z.leb_spec 1 y); destruct (Z.leb_spec y 9999); cbn [andb]; try lia;
      pose proof (Z.mod_pos_bound y 400 ltac:(lia)); lia. }
  pose proof (days_in_month_bounds y' m Hm).
  rewrite new_date_ok by lia. cbn [rbind]. rewrite monthlen_days_in_month by assumption.
  eexists. split; [reflexivity|]. unfold weekday. apply Z.mod_pos_bound. lia.
Qed.

Lemma filter_map_mkdate (m y' m' : Z) (l : list Z) :
  filter (fun date : date => month date =? m) (map (mkdate y' m') l)
  = if m' =? m then map (mkdate y' m') l else [].
Proof.
  induction l as [|d l IH]; cbn [map filter month]; [destruct (m' =? m); reflexivity|].
  rewrite IH. destruct (m' =? m); reflexivity.
Qed.

Lemma month_grid y m :
  1 < y < 9999 -> 1 <= m <= 12 ->
  exists grid,
    PyCalendar.monthdatescalendar PyCalendar.SUNDAY y m = Ok grid
    /\ in_month m grid = days_of_month y m.
Proof.
  intros Hy Hm.
  unfold PyCalendar.monthdatescalendar, PyCalendar.itermonthdates, PyCalendar.itermonthdays3.
  destruct (monthrange_ok y m Hm) as (day1 & -> & Hday1). cbn [rbind].
  set (days_before := (day1 - PyCalendar.SUNDAY) mod 7).
  set (days_after := (PyCalendar.SUNDAY - day1 - days_in_month y m) mod 7).
  assert (Hb : 0 <= days_before < 7) by (apply Z.mod_pos_bound; lia).
  assert (Ha : 0 <= days_after < 7) by (apply Z.mod_pos_bound; lia).
  destruct (PyCalendar.prevmonth y m) as [py pm] eqn:Hprev.
  destruct (PyCalendar.nextmonth y m) as [ny nm] eqn:Hnext.
  assert (Hp : 1 <= py <= 9999 /\ 1 <= pm <= 12 /\ pm <> m).
  { unfold PyCalendar.prevmonth in Hprev.
    destruct (Z.eqb_spec m 1); injection Hprev as <- <-; lia. }
  assert (Hn : 1 <= ny <= 9999 /\ 1 <= nm <= 12 /\ nm <> m).
  { unfold PyCalendar.nextmonth in Hnext.
    destruct (Z.eqb_spec m 12); injection Hnext as <- <-; lia. }
  destruct Hp as (Hpy & Hpm & Hpne). destruct Hn as (Hny & Hnm & Hnne).
  rewrite (monthlen_days_in_month py pm) by assumption.
  pose proof (days_in_month_bounds py pm Hpm) as Hdp.
  pose proof (days_in_month_bounds ny nm Hnm) as Hdn.
  cbn [rbind].
  rewrite (mapM_ok_map _ date_of_triple).
  - cbn [rbind]. eexists. split; [reflexivity|].
    rewrite in_month_chunks, !map_app, !map_map. cbn [date_of_triple].
    rewrite !filter_app.
    change (map (fun x : Z => mkdate py pm x)) with (map (mkdate py pm)).
    change (map (fun x : Z => mkdate y m x)) with (map (mkdate y m)).
    change (map (fun x : Z => mkdate ny nm x)) with (map (mkdate ny nm)).
    rewrite !filter_map_mkdate.
    replace (pm =? m) with false by (symmetry; apply Z.eqb_neq; assumption).
    replace (nm =? m) with false by (symmetry; apply Z.eqb_neq; assumption).
    rewrite Z.eqb_refl, app_nil_r. reflexivity.
  - intros [[ty tm] td] Hin. cbn [date_of_triple].
    apply in_app_or in Hin as [Hin | Hin]; [|apply in_app_or in Hin as [Hin | Hin]];
      apply in_map_iff in Hin as (d & Heq & Hd); injection Heq as <- <- <-;
      apply in_zrange_inv in Hd; apply new_date_ok; lia.
Qed.

Lemma grid_cells_12 (c1 c2 c3 c4 c5 c6 c7 c8 c9 c10 c11 c12 : list (list date)) :
  grid_cells (chunks 4 [c1; c2; c3; c4; c5; c6; c7; c8; c9; c10; c11; c12])
  = in_month 1 c1 ++ in_month 2 c2 ++ in_month 3 c3 ++ in_month 4 c4
    ++ in_month 5 c5 ++ in_month 6 c6 ++ in_month 7 c7 ++ in_month 8 c8
    ++ in_month 9 c9 ++ in_month 10 c10 ++ in_month 11 c11 ++ in_month 12 c12.
Proof.
  transitivity
    ((in_month 1 c1 ++ in_month 2 c2 ++ in_month 3 c3 ++ in_month 4 c4 ++ [])
     ++ (in_month 5 c5 ++ in_month 6 c6 ++ in_month 7 c7 ++ in_month 8 c8 ++ [])
     ++ (in_month 9 c9 ++ in_month 10 c10 ++ in_month 11 c11 ++ in_month 12 c12 ++ [])
     ++ []).
  - reflexivity.
  - rewrite !app_nil_r, <- !app_assoc. reflexivity.
Qed.

Lemma zrange_1_13 : zrange 1 13 = [1; 2; 3; 4; 5; 6; 7; 8; 9; 10; 11; 12].
Proof. reflexivity. Qed.

Lemma year_grid y :
  1 < y < 9999 ->
  exists data,
    PyCalendar.yeardatescalendar PyCalendar.SUNDAY y 4 = Ok data
    /\ grid_cells data = days_of_year y.
Proof.
  intros Hy. unfold PyCalendar.yeardatescalendar. rewrite zrange_1_13. cbn [mapM].
  destruct (month_grid y 1 Hy ltac:(lia)) as (g1 & -> & H1). cbn [rbind].
  destruct (month_grid y 2 Hy ltac:(lia)) as (g2 & -> & H2). cbn [rbind].
  destruct (month_grid y 3 Hy ltac:(lia)) as (g3 & -> & H3). cbn [rbind].
  destruct (month_grid y 4 Hy ltac:(lia)) as (g4 & -> & H4). cbn [rbind].
  destruct (month_grid y 5 Hy ltac:(lia)) as (g5 & -> & H5). cbn [rbind].
  destruct (month_grid y 6 Hy ltac:(lia)) as (g6 & -> & H6). cbn [rbind].
  destruct (month_grid y 7 Hy ltac:(lia)) as (g7 & -> & H7). cbn [rbind].
  destruct (month_grid y 8 Hy ltac:(lia)) as (g8 & -> & H8). cbn [rbind].
  destruct (month_grid y 9 Hy ltac:(lia)) as (g9 & -> & H9). cbn [rbind].
  destruct (month_grid y 10 Hy ltac:(lia)) as (g10 & -> & H10). cbn [rbind].
  destruct (month_grid y 11 Hy ltac:(lia)) as (g11 & -> & H11). cbn [rbind].
  destruct (month_grid y 12 Hy ltac:(lia)) as (g12 & -> & H12). cbn [rbind].
  eexists. split; [reflexivity|].
  rewrite grid_cells_12, H1, H2, H3, H4, H5, H6, H7, H8, H9, H10, H11, H12.
  unfold days_of_year. rewrite zrange_1_13. cbn [flat_map]. rewrite app_nil_r. reflexivity.
Qed.

Lemma zrange_cons (a b : Z) : a < b -> zrange a b = a :: zrange (a + 1) b.
Proof.
  intros H. unfold zrange.
  replace (Z.to_nat (b - a)) with (S (Z.to_nat (b - (a + 1)))) by lia.
  cbn [seq map]. f_equal; [lia|].
  rewrite <- seq_shift, map_map. apply map_ext. intros i. lia.
Qed.

Lemma zrange_nil (a b : Z) : b <= a -> zrange a b = [].
Proof. intros H. unfold zrange. replace (Z.to_nat (b - a)) with 0%nat by lia. reflexivity. Qed.

Lemma zrange_app (a b c : Z) : a <= b <= c -> zrange a b ++ zrange b c = zrange a c.
Proof.
  intros [Hab Hbc]. remember (Z.to_nat (b - a)) as n eqn:Hn. revert a Hab Hn.
  induction n as [|n IH]; intros a Hab Hn.
  - replace a with b by lia. rewrite (zrange_nil b b) by lia. reflexivity.
  - rewrite (zrange_cons a b) by lia. rewrite (zrange_cons a c) by lia.
    cbn [app]. f_equal. apply IH; lia.
Qed.

Lemma map_add_zrange (k a b : Z) : map (Z.add k) (zrange a b) = zrange (k + a) (k + b).
Proof.
  unfold zrange. rewrite map_map. replace (k + b - (k + a)) with (b - a) by lia.
  apply map_ext. intros i. lia.
Qed.

Lemma days_of_month_ordinals y m :
  1 <= y -> 1 <= m <= 12 ->
  days_of_month y m
  = map fromordinal (zrange (ymd2ord y m 1) (ymd2ord y m 1 + days_in_month y m)).
Proof.
  intros Hy Hm. unfold days_of_month.
  replace (zrange (ymd2ord y m 1) (ymd2ord y m 1 + days_in_month y m))
    with (map (Z.add (ymd2ord y m 0)) (zrange 1 (days_in_month y m + 1)))
    by (rewrite map_add_zrange; unfold ymd2ord; f_equal; lia).
  rewrite map_map. apply map_ext_in. intros d Hd. apply in_zrange_inv in Hd.
  replace (ymd2ord y m 0 + d) with (ymd2ord y m d) by (unfold ymd2ord; lia).
  unfold fromordinal. rewrite ord2ymd_ymd2ord by lia. reflexivity.
Qed.

Lemma first_of_next_month y m :
  1 <= m <= 11 -> ymd2ord y (m + 1) 1 = ymd2ord y m 1 + days_in_month y m.
Proof. intros Hm. unfold ymd2ord. rewrite days_before_month_succ by lia. lia. Qed.

Lemma first_of_next_year y :
  ymd2ord (y + 1) 1 1 = ymd2ord y 12 1 + days_in_month y 12.
Proof.
  unfold ymd2ord. rewrite days_before_year_succ.
  pose proof (days_before_month_december y).
  change (days_before_month (y + 1) 1) with 0. lia.
Qed.

Lemma year_length y :
  ymd2ord (y + 1) 1 1 = ymd2ord y 1 1 + 365 + (if is_leap y then 1 else 0).
Proof.
  unfold ymd2ord. rewrite days_before_year_succ.
  change (days_before_month (y + 1) 1) with 0. change (days_before_month y 1) with 0. lia.
Qed.

Lemma days_of_year_ordinals y :
  1 <= y ->
  days_of_year y = map fromordinal (zrange (ymd2ord y 1 1) (ymd2ord (y + 1) 1 1)).
Proof.
  intros Hy. unfold days_of_year. rewrite zrange_1_13. cbn [flat_map].
  rewrite app_nil_r, !days_of_month_ordinals by lia.
  rewrite <- !map_app. f_equal.
  rewrite first_of_next_year.
  pose proof (days_in_month_bounds y 1 ltac:(lia)).
  pose proof (days_in_month_bounds y 2 ltac:(lia)).
  pose proof (days_in_month_bounds y 3 ltac:(lia)).
  pose proof (days_in_month_bounds y 4 ltac:(lia)).
  pose proof (days_in_month_bounds y 5 ltac:(lia)).
  pose proof (days_in_month_bounds y 6 ltac:(lia)).
  pose proof (days_in_month_bounds y 7 ltac:(lia)).
  pose proof (days_in_month_bounds y 8 ltac:(lia)).
  pose proof (days_in_month_bounds y 9 ltac:(lia)).
  pose proof (days_in_month_bounds y 10 ltac:(lia)).
  pose proof (days_in_month_bounds y 11 ltac:(lia)).
  pose proof (days_in_month_bounds y 12 ltac:(lia)).
  pose proof (first_of_next_month y 1 ltac:(lia)) as E1.
  pose proof (first_of_next_month y 2 ltac:(lia)) as E2.
  pose proof (first_of_next_month y 3 ltac:(lia)) as E3.
  pose proof (first_of_next_month y 4 ltac:(lia)) as E4.
  pose proof (first_of_next_month y 5 ltac:(lia)) as E5.
  pose proof (first_of_next_month y 6 ltac:(lia)) as E6.
  pose proof (first_of_next_month y 7 ltac:(lia)) as E7.
  pose proof (first_of_next_month y 8 ltac:(lia)) as E8.
  pose proof (first_of_next_month y 9 ltac:(lia)) as E9.
  pose proof (first_of_next_month y 10 ltac:(lia)) as E10.
  pose proof (first_of_next_month y 11 ltac:(lia)) as E11.
  cbn [Z.add Pos.add Pos.succ] in E1, E2, E3, E4, E5, E6, E7, E8, E9, E10, E11.
  rewrite <- E1, <- E2, <- E3, <- E4, <- E5, <- E6, <- E7, <- E8, <- E9, <- E10, <- E11.
  rewrite !zrange_app by lia. reflexivity.
Qed.

Lemma length_days_of_year y :
  1 <= y -> Z.of_nat (List.length (days_of_year y)) = (if is_leap y then 366 else 365).
Proof.
  intros Hy. rewrite days_of_year_ordinals by assumption.
  rewrite length_map, length_zrange, year_length.
  destruct (is_leap y); lia.
Qed.

(** ** Years without a grid *)

Lemma new_date_bad_year y m d :
  y < 1 \/ 9999 < y -> fits_c_int m = true -> fits_c_int d = true ->
  new_date y m d = Raise (if fits_c_int y then ValueError else OverflowError).
Proof.
  intros Hy Hm Hd. unfold new_date. rewrite Hm, Hd, !andb_true_r.
  destruct (fits_c_int y); [|reflexivity].
  replace (check_date_fields y m d) with false; [reflexivity|].
  symmetry. unfold check_date_fields, MINYEAR, MAXYEAR.
  destruct (Z.leb_spec 1 y); destruct (Z.leb_spec y 9999); cbn [andb]; try reflexivity.
  lia.
Qed.

Lemma fits_c_int_small z : -1000 <= z <= 1000 -> fits_c_int z = true.
Proof.
  intros H. unfold fits_c_int, C_INT_MIN, C_INT_MAX.
  apply andb_true_iff. rewrite !Z.leb_le. lia.
Qed.

(** The first date of the grid of January is one of the year before, or
    the first of January: neither exists when both years are out of range. *)
Lemma first_month_fails y :
  y < 1 \/ 10000 < y ->
  fits_c_int (y - 1) = fits_c_int y ->
  PyCalendar.monthdatescalendar PyCalendar.SUNDAY y 1
  = Raise (if fits_c_int y then ValueError else OverflowError).
Proof.
  intros Hy Hfit.
  unfold PyCalendar.monthdatescalendar, PyCalendar.itermonthdates, PyCalendar.itermonthdays3.
  destruct (monthrange_ok y 1 ltac:(lia)) as (day1 & -> & Hday1). cbn [rbind].
  assert (Hp : PyCalendar.prevmonth y 1 = (y - 1, 12)) by reflexivity.
  assert (Hn : PyCalendar.nextmonth y 1 = (y, 2)) by reflexivity.
  rewrite Hp, Hn.
  set (db := (day1 - PyCalendar.SUNDAY) mod 7).
  assert (Hdb : 0 <= db < 7) by (apply Z.mod_pos_bound; lia).
  rewrite (monthlen_days_in_month (y - 1) 12) by lia.
  pose proof (days_in_month_bounds (y - 1) 12 ltac:(lia)) as Hdp.
  pose proof (days_in_month_bounds y 1 ltac:(lia)) as Hd1.
  destruct (Z.eq_dec db 0) as [E0 | N0].
  - rewrite E0, Z.sub_0_r, (zrange_nil _ _ (Z.le_refl _)). cbn [map app].
    rewrite (zrange_cons 1) by lia. cbn [map app mapM rbind].
    rewrite (new_date_bad_year y 1 1) by (reflexivity || lia). reflexivity.
  - rewrite (zrange_cons (days_in_month (y - 1) 12 + 1 - db)) by lia.
    cbn [map app mapM rbind].
    rewrite (new_date_bad_year (y - 1) 12);
      [rewrite Hfit; reflexivity | lia | reflexivity | apply fits_c_int_small; lia].
Qed.

(** A year outside 2..9998 has no grid. The error is [ValueError] while the
    years the grid of January needs are C [int]s, and [OverflowError]
    beyond. *)
Lemma year_grid_fails y :
  ~ (1 < y < 9999) ->
  exists e,
    PyCalendar.yeardatescalendar PyCalendar.SUNDAY y 4 = Raise e
    /\ (e = ValueError \/ e = OverflowError)
    /\ (C_INT_MIN < y <= C_INT_MAX + 1 -> e = ValueError)
    /\ (y <= C_INT_MIN \/ C_INT_MAX + 1 < y -> e = OverflowError).
Proof.
  intros Hy. unfold C_INT_MIN, C_INT_MAX.
  destruct (Z.eq_dec y 1) as [-> | N1].
  { exists ValueError. split; [vm_compute; reflexivity|]. repeat split; auto; lia. }
  destruct (Z.eq_dec y 9999) as [-> | N2].
  { exists ValueError. split; [vm_compute; reflexivity|]. repeat split; auto; lia. }
  destruct (Z.eq_dec y 10000) as [-> | N3].
  { exists ValueError. split; [vm_compute; reflexivity|]. repeat split; auto; lia. }
  destruct (Z.eq_dec y 2147483648) as [-> | N4].
  { exists ValueError. split; [vm_compute; reflexivity|]. repeat split; auto; lia. }
  destruct (Z.eq_dec y (-2147483648)) as [-> | N5].
  { exists OverflowError. split; [vm_compute; reflexivity|]. repeat split; auto; lia. }
  assert (Hfit : fits_c_int (y - 1) = fits_c_int y).
  { unfold fits_c_int, C_INT_MIN, C_INT_MAX.
    destruct (Z.leb_spec (-2147483648) (y - 1)); destruct (Z.leb_spec (y - 1) 2147483647);
      destruct (Z.leb_spec (-2147483648) y); destruct (Z.leb_spec y 2147483647);
      cbn [andb]; try reflexivity; lia. }
  exists (if fits_c_int y then ValueError else OverflowError). split.
  - unfold PyCalendar.yeardatescalendar. rewrite zrange_1_13. cbn [mapM].
    rewrite first_month_fails by (assumption || lia). reflexivity.
  - unfold fits_c_int, C_INT_MIN, C_INT_MAX.
    destruct (Z.leb_spec (-2147483648) y); destruct (Z.leb_spec y 2147483647);
      cbn [andb]; repeat split; auto; intros; lia.
Qed.

Lemma grid_year_range y data :
  PyCalendar.yeardatescalendar PyCalendar.SUNDAY y 4 = Ok data -> 1 < y < 9999.
Proof.
  intros H.
  destruct (Z_lt_dec 1 y) as [H1|H1]; [destruct (Z_lt_dec y 9999) as [H2|H2]; [lia|]|].
  all: destruct (year_grid_fails y ltac:(lia)) as (e & He & _); rewrite He in H;
    discriminate H.
Qed.

(** ** Files *)

Lemma read_store_same name f fs : PIL.read name (PIL.store name f fs) = Some f.
Proof.
  unfold PIL.read, PIL.store. cbn [PIL.entries find fst snd].
  rewrite String.eqb_refl. reflexivity.
Qed.

Lemma read_store_other name name' f fs :
  name' <> name -> PIL.read name' (PIL.store name f fs) = PIL.read name' fs.
Proof.
  intros Hne. unfold PIL.read, PIL.store. cbn [PIL.entries find fst].
  replace (String.eqb name name') with false
    by (symmetry; apply String.eqb_neq; congruence).
  induction (PIL.entries fs) as [|[n g] l IH]; [reflexivity|].
  cbn [filter find fst].
  destruct (String.eqb_spec n name) as [-> | Hn]; cbn [negb].
  - replace (String.eqb name name') with false
      by (symmetry; apply String.eqb_neq; congruence).
    exact IH.
  - cbn [find fst]. destruct (String.eqb n name'); [reflexivity | exact IH].
Qed.

Lemma year_grid_months y :
  1 < y < 9999 ->
  exists g1 g2 g3 g4 g5 g6 g7 g8 g9 g10 g11 g12,
    PyCalendar.yeardatescalendar PyCalendar.SUNDAY y 4
    = Ok [[g1; g2; g3; g4]; [g5; g6; g7; g8]; [g9; g10; g11; g12]]
    /\ in_month 1 g1 = days_of_month y 1 /\ in_month 2 g2 = days_of_month y 2
    /\ in_month 3 g3 = days_of_month y 3 /\ in_month 4 g4 = days_of_month y 4
    /\ in_month 5 g5 = days_of_month y 5 /\ in_month 6 g6 = days_of_month y 6
    /\ in_month 7 g7 = days_of_month y 7 /\ in_month 8 g8 = days_of_month y 8
    /\ in_month 9 g9 = days_of_month y 9 /\ in_month 10 g10 = days_of_month y 10
    /\ in_month 11 g11 = days_of_month y 11 /\ in_month 12 g12 = days_of_month y 12.
Proof.
  intros Hy. unfold PyCalendar.yeardatescalendar. rewrite zrange_1_13. cbn [mapM].
  destruct (month_grid y 1 Hy ltac:(lia)) as (g1 & -> & H1). cbn [rbind].
  destruct (month_grid y 2 Hy ltac:(lia)) as (g2 & -> & H2). cbn [rbind].
  destruct (month_grid y 3 Hy ltac:(lia)) as (g3 & -> & H3). cbn [rbind].
  destruct (month_grid y 4 Hy ltac:(lia)) as (g4 & -> & H4). cbn [rbind].
  destruct (month_grid y 5 Hy ltac:(lia)) as (g5 & -> & H5). cbn [rbind].
  destruct (month_grid y 6 Hy ltac:(lia)) as (g6 & -> & H6). cbn [rbind].
  destruct (month_grid y 7 Hy ltac:(lia)) as (g7 & -> & H7). cbn [rbind].
  destruct (month_grid y 8 Hy ltac:(lia)) as (g8 & -> & H8). cbn [rbind].
  destruct (month_grid y 9 Hy ltac:(lia)) as (g9 & -> & H9). cbn [rbind].
  destruct (month_grid y 10 Hy ltac:(lia)) as (g10 & -> & H10). cbn [rbind].
  destruct (month_grid y 11 Hy ltac:(lia)) as (g11 & -> & H11). cbn [rbind].
  destruct (month_grid y 12 Hy ltac:(lia)) as (g12 & -> & H12). cbn [rbind].
  exists g1, g2, g3, g4, g5, g6, g7, g8, g9, g10, g11, g12.
  split; [reflexivity|]. repeat split; assumption.
Qed.

Lemma day_numbers y m :
  flat_map (fun d : date => [str (day d)]) (days_of_month y m)
  = map str (zrange 1 (days_in_month y m + 1)).
Proof.
  unfold days_of_month. induction (zrange 1 (days_in_month y m + 1)) as [|d l IH];
    [reflexivity|].
  cbn [map flat_map app day]. rewrite IH. reflexivity.
Qed.

(** ** The weeks of a month grid *)

Lemma map_mkdate_ordinals y m a b :
  1 <= y -> 1 <= m <= 12 -> 1 <= a -> b <= days_in_month y m + 1 ->
  map (mkdate y m) (zrange a b)
  = map fromordinal (zrange (ymd2ord y m 0 + a) (ymd2ord y m 0 + b)).
Proof.
  intros Hy Hm Ha Hb. rewrite <- map_add_zrange, map_map.
  apply map_ext_in. intros d Hd. apply in_zrange_inv in Hd.
  replace (ymd2ord y m 0 + d) with (ymd2ord y m d) by (unfold ymd2ord; lia).
  unfold fromordinal. rewrite ord2ymd_ymd2ord by lia. reflexivity.
Qed.

Lemma monthrange_value y m :
  1 <= y <= 9999 -> 1 <= m <= 12 ->
  PyCalendar.monthrange y m = Ok ((ymd2ord y m 1 + 6) mod 7, days_in_month y m).
Proof.
  intros Hy Hm. unfold PyCalendar.monthrange.
  replace ((1 <=? m) && (m <=? 12)) with true
    by (symmetry; apply andb_true_iff; rewrite !Z.leb_le; lia).
  unfold PyCalendar.weekday, MINYEAR, MAXYEAR.
  replace ((1 <=? y) && (y <=? 9999)) with true
    by (symmetry; apply andb_true_iff; rewrite !Z.leb_le; lia).
  pose proof (days_in_month_bounds y m Hm).
  rewrite new_date_ok by lia. cbn [rbind]. rewrite monthlen_days_in_month by assumption.
  reflexivity.
Qed.

Lemma prevmonth_ordinal y m :
  1 <= m <= 12 ->
  let '(py, pm) := PyCalendar.prevmonth y m in
  1 <= pm <= 12 /\ py = (if m =? 1 then y - 1 else y)
  /\ ymd2ord py pm 0 + days_in_month py pm + 1 = ymd2ord y m 1.
Proof.
  intros Hm. unfold PyCalendar.prevmonth. destruct (Z.eqb_spec m 1) as [-> | Hne].
  - split; [lia|]. split; [reflexivity|].
    pose proof (first_of_next_year (y - 1)) as H.
    replace (y - 1 + 1) with y in H by lia. unfold ymd2ord in *. lia.
  - split; [lia|]. split; [reflexivity|].
    pose proof (first_of_next_month y (m - 1) ltac:(lia)) as H.
    replace (m - 1 + 1) with m in H by lia. unfold ymd2ord in *. lia.
Qed.

Lemma nextmonth_ordinal y m :
  1 <= m <= 12 ->
  let '(ny, nm) := PyCalendar.nextmonth y m in
  1 <= nm <= 12 /\ ny = (if m =? 12 then y + 1 else y)
  /\ ymd2ord ny nm 0 + 1 = ymd2ord y m 1 + days_in_month y m.
Proof.
  intros Hm. unfold PyCalendar.nextmonth. destruct (Z.eqb_spec m 12) as [-> | Hne].
  - split; [lia|]. split; [reflexivity|].
    pose proof (first_of_next_year y) as H. unfold ymd2ord in *. lia.
  - split; [lia|]. split; [reflexivity|].
    pose proof (first_of_next_month y m ltac:(lia)) as H. unfold ymd2ord in *. lia.
Qed.

Lemma week_padding (o D : Z) :
  let day1 := (o + 6) mod 7 in
  let days_before := (day1 - 6) mod 7 in
  let days_after := (6 - day1 - D) mod 7 in
  0 <= days_before < 7 /\ 0 <= days_after < 7
  /\ (o - days_before) mod 7 = 0
  /\ (days_before + D + days_after) mod 7 = 0.
Proof.
  cbv zeta. Z.to_euclidean_division_equations. lia.
Qed.

(** The dates of a month grid are consecutive days, from a Sunday on, a
    whole number of weeks. *)
Lemma month_dates y m :
  1 < y < 9999 -> 1 <= m <= 12 ->
  exists s n,
    PyCalendar.itermonthdates PyCalendar.SUNDAY y m
    = Ok (map fromordinal (zrange s (s + 7 * n)))
    /\ s mod 7 = 0 /\ 1 <= s /\ s + 7 * n <= MAXORDINAL /\ 0 <= n <= 6.
Proof.
  intros Hy Hm.
  set (o := ymd2ord y m 1). set (D := days_in_month y m).
  destruct (week_padding o D) as (Hb & Ha & Hs & Hn).
  set (days_before := (((o + 6) mod 7) - 6) mod 7) in *.
  set (days_after := (6 - (o + 6) mod 7 - D) mod 7) in *.
  pose proof (days_in_month_bounds y m Hm) as Hd. fold D in Hd.
  assert (Hsum : 7 * ((days_before + D + days_after) / 7) = days_before + D + days_after).
  { pose proof (Z.div_mod (days_before + D + days_after) 7 ltac:(lia)). lia. }
  exists (o - days_before), ((days_before + D + days_after) / 7).
  replace (o - days_before + 7 * ((days_before + D + days_after) / 7))
    with (o + D + days_after) by lia.
  split.
  - unfold PyCalendar.itermonthdates, PyCalendar.itermonthdays3.
    rewrite monthrange_value by lia. cbn [rbind]. unfold PyCalendar.SUNDAY.
    fold o D. fold days_before days_after.
    pose proof (prevmonth_ordinal y m Hm) as Hp.
    pose proof (nextmonth_ordinal y m Hm) as Hx.
    destruct (PyCalendar.prevmonth y m) as [py pm].
    destruct (PyCalendar.nextmonth y m) as [ny nm].
    destruct Hp as (Hpm & Hpy & Hpo). destruct Hx as (Hnm & Hny & Hno).
    fold o in Hpo. fold o D in Hno.
    assert (Hpy' : 1 <= py <= 9999) by (destruct (m =? 1); lia).
    assert (Hny' : 1 <= ny <= 9999) by (destruct (m =? 12); lia).
    rewrite (monthlen_days_in_month py pm) by assumption.
    pose proof (days_in_month_bounds py pm Hpm) as Hdp.
    pose proof (days_in_month_bounds ny nm Hnm) as Hdn.
    cbn [rbind].
    rewrite (mapM_ok_map _ date_of_triple).
    2: { intros [[ty tm] td] Hin. cbn [date_of_triple].
         apply in_app_or in Hin as [Hin | Hin]; [|apply in_app_or in Hin as [Hin | Hin]];
           apply in_map_iff in Hin as (d & Heq & Hdd); injection Heq as <- <- <-;
           apply in_zrange_inv in Hdd; apply new_date_ok; fold D; lia. }
    rewrite !map_app, !map_map. cbn [date_of_triple].
    change (map (fun x : Z => mkdate py pm x)) with (map (mkdate py pm)).
    change (map (fun x : Z => mkdate y m x)) with (map (mkdate y m)).
    change (map (fun x : Z => mkdate ny nm x)) with (map (mkdate ny nm)).
    rewrite (map_mkdate_ordinals py pm), (map_mkdate_ordinals y m),
      (map_mkdate_ordinals ny nm) by (fold D; lia).
    rewrite <- !map_app.
    replace (ymd2ord py pm 0 + (days_in_month py pm + 1 - days_before))
      with (o - days_before) by lia.
    replace (ymd2ord py pm 0 + (days_in_month py pm + 1)) with o by lia.
    replace (ymd2ord y m 0 + 1) with o by (unfold o, ymd2ord; lia).
    replace (ymd2ord y m 0 + (D + 1)) with (o + D) by (unfold o, ymd2ord; lia).
    replace (ymd2ord ny nm 0 + 1) with (o + D) by lia.
    replace (ymd2ord ny nm 0 + (days_after + 1)) with (o + D + days_after) by lia.
    rewrite !zrange_app by lia. reflexivity.
  - split; [exact Hs|].
    pose proof (days_before_year_bounds y Hy) as Hby.
    pose proof (days_before_month_day y m 1 Hm ltac:(fold D; lia)) as H1.
    pose proof (days_before_month_day y m D Hm ltac:(fold D; lia)) as H2.
    assert (Ho : o = days_before_year y + days_before_month y m + 1)
      by (unfold o, ymd2ord; lia).
    unfold MAXORDINAL in *.
    split; [lia|]. split; [destruct (is_leap y); lia|].
    split; [apply Z.div_pos; lia|].
    apply Z.div_le_upper_bound; lia.
Qed.

Lemma chunks_fuel_exact {A : Type} (fuel n : nat) (l1 l2 : list A) :
  List.length l1 = n -> (0 < n)%nat ->
  chunks_fuel (S fuel) n (l1 ++ l2) = l1 :: chunks_fuel fuel n l2.
Proof.
  intros Hlen Hn. cbn [chunks_fuel].
  destruct (l1 ++ l2) as [|a l] eqn:Happ.
  - destruct l1; [cbn in Hlen; lia | discriminate Happ].
  - rewrite <- Happ. f_equal.
    + rewrite firstn_app, Hlen, Nat.sub_diag, firstn_O, app_nil_r.
      rewrite <- Hlen. apply firstn_all.
    + rewrite skipn_app, Hlen, Nat.sub_diag. cbn [skipn].
      rewrite <- Hlen, skipn_all. reflexivity.
Qed.

Lemma chunks_fuel_weeks {A : Type} (f : Z -> A) (n fuel : nat) (s : Z) :
  (n <= fuel)%nat ->
  chunks_fuel fuel 7 (map f (zrange s (s + 7 * Z.of_nat n)))
  = map (fun i => map f (zrange (s + 7 * i) (s + 7 * i + 7))) (zrange 0 (Z.of_nat n)).
Proof.
  revert fuel s. induction n as [|n IH]; intros fuel s Hfuel.
  - rewrite zrange_nil by lia. destruct fuel; reflexivity.
  - destruct fuel as [|fuel]; [lia|].
    rewrite <- (zrange_app s (s + 7) (s + 7 * Z.of_nat (S n))) by lia.
    rewrite map_app, chunks_fuel_exact
      by (rewrite ?length_map, ?length_zrange; lia).
    replace (s + 7 * Z.of_nat (S n)) with (s + 7 + 7 * Z.of_nat n) by lia.
    rewrite IH by lia.
    rewrite (zrange_cons 0 (Z.of_nat (S n))) by lia. cbn [map].
    replace (s + 7 * 0) with s by lia. f_equal.
    replace (zrange (0 + 1) (Z.of_nat (S n))) with (map (Z.add 1) (zrange 0 (Z.of_nat n)))
      by (rewrite map_add_zrange; f_equal; lia).
    rewrite map_map. apply map_ext. intros i.
    replace (s + 7 + 7 * i) with (s + 7 * (1 + i)) by lia. reflexivity.
Qed.

Lemma combine_map_self {A B : Type} (g : A -> B) (l : list A) :
  combine l (map g l) = map (fun a => (a, g a)) l.
Proof. induction l as [|a l IH]; cbn [combine map]; [reflexivity | rewrite IH; reflexivity]. Qed.

Lemma in_enumerate_map_zrange {A : Type} (g : Z -> A) (n : Z) (i : Z) (x : A) :
  In (i, x) (enumerate (map g (zrange 0 n))) -> 0 <= i < n /\ x = g i.
Proof.
  unfold enumerate. rewrite length_map, length_zrange.
  destruct (Z.le_gt_cases n 0) as [Hn | Hn].
  - rewrite (zrange_nil 0 n) by lia. cbn [map combine].
    rewrite combine_nil. intros [].
  - replace (Z.of_nat (Z.to_nat (n - 0))) with n by lia.
    rewrite combine_map_self. intros H. apply in_map_iff in H as (j & Heq & Hj).
    injection Heq as <- <-. apply in_zrange_inv in Hj. split; [lia | reflexivity].
Qed.

(** Where a date sits in a month grid: row [w_index], column [d_index]. *)
Lemma month_cells y m :
  1 < y < 9999 -> 1 <= m <= 12 ->
  exists grid s,
    PyCalendar.monthdatescalendar PyCalendar.SUNDAY y m = Ok grid
    /\ s mod 7 = 0
    /\ forall w_index wk d_index date,
         In (w_index, wk) (enumerate grid) ->
         In (d_index, date) (enumerate wk) ->
         0 <= w_index < 6 /\ 0 <= d_index < 7
         /\ date = fromordinal (s + 7 * w_index + d_index)
         /\ 1 <= s + 7 * w_index + d_index.
Proof.
  intros Hy Hm. destruct (month_dates y m Hy Hm) as (s & n & Hdates & Hs & Hs1 & Hmax & Hn).
  unfold PyCalendar.monthdatescalendar. rewrite Hdates. cbn [rbind].
  eexists. exists s. split; [reflexivity|]. split; [exact Hs|].
  intros w_index wk d_index date Hw Hd.
  unfold chunks in Hw. replace n with (Z.of_nat (Z.to_nat n)) in Hw by lia.
  rewrite chunks_fuel_weeks in Hw by (rewrite length_map, length_zrange; lia).
  apply in_enumerate_map_zrange in Hw as [Hwi ->].
  replace (zrange (s + 7 * w_index) (s + 7 * w_index + 7))
    with (map (Z.add (s + 7 * w_index)) (zrange 0 7)) in Hd
    by (rewrite map_add_zrange; f_equal; lia).
  rewrite map_map in Hd. apply in_enumerate_map_zrange in Hd as [Hdi ->].
  repeat split; lia.
Qed.

Lemma weekday_of_cell s w_index d_index :
  s mod 7 = 0 -> 0 <= d_index < 7 -> 1 <= s + 7 * w_index + d_index ->
  d_index = (weekday (fromordinal (s + 7 * w_index + d_index)) + 1) mod 7.
Proof.
  intros Hs Hd Ho. unfold weekday. rewrite toordinal_fromordinal by assumption.
  Z.to_euclidean_division_equations. lia.
Qed.

(** Where a month sits in a year's grid: row [r_index], column [m_index]. *)
Lemma year_months y data :
  PyCalendar.yeardatescalendar PyCalendar.SUNDAY y 4 = Ok data ->
  1 < y < 9999
  /\ forall r_index row m_index mo,
       In (r_index, row) (enumerate data) ->
       In (m_index, mo) (enumerate row) ->
       0 <= r_index < 3 /\ 0 <= m_index < 4
       /\ PyCalendar.monthdatescalendar PyCalendar.SUNDAY y (m_index + r_index * 4 + 1)
          = Ok mo.
Proof.
  intros Hdata.
  pose proof (grid_year_range _ _ Hdata) as Hy.
  split; [exact Hy|].
  unfold PyCalendar.yeardatescalendar in Hdata. rewrite zrange_1_13 in Hdata.
  cbn [mapM] in Hdata.
  destruct (month_grid y 1 Hy ltac:(lia)) as (g1 & G1 & _).
  destruct (month_grid y 2 Hy ltac:(lia)) as (g2 & G2 & _).
  destruct (month_grid y 3 Hy ltac:(lia)) as (g3 & G3 & _).
  destruct (month_grid y 4 Hy ltac:(lia)) as (g4 & G4 & _).
  destruct (month_grid y 5 Hy ltac:(lia)) as (g5 & G5 & _).
  destruct (month_grid y 6 Hy ltac:(lia)) as (g6 & G6 & _).
  destruct (month_grid y 7 Hy ltac:(lia)) as (g7 & G7 & _).
  destruct (month_grid y 8 Hy ltac:(lia)) as (g8 & G8 & _).
  destruct (month_grid y 9 Hy ltac:(lia)) as (g9 & G9 & _).
  destruct (month_grid y 10 Hy ltac:(lia)) as (g10 & G10 & _).
  destruct (month_grid y 11 Hy ltac:(lia)) as (g11 & G11 & _).
  destruct (month_grid y 12 Hy ltac:(lia)) as (g12 & G12 & _).
  rewrite G1, G2, G3, G4, G5, G6, G7, G8, G9, G10, G11, G12 in Hdata.
  cbn [rbind] in Hdata. injection Hdata as <-.
  intros r_index row m_index mo Hr Hmo.
  change (enumerate (chunks 4 [g1; g2; g3; g4; g5; g6; g7; g8; g9; g10; g11; g12]))
    with [(0, [g1; g2; g3; g4]); (1, [g5; g6; g7; g8]); (2, [g9; g10; g11; g12])] in Hr.
  destruct Hr as [Hr | [Hr | [Hr | []]]]; injection Hr as <- <-;
    (change (enumerate [?a; ?b; ?c; ?d]) with [(0, a); (1, b); (2, c); (3, d)] in Hmo ||
     idtac);
    cbn in Hmo;
    destruct Hmo as [Hmo | [Hmo | [Hmo | [Hmo | []]]]]; injection Hmo as <- <-;
    (split; [lia|]; split; [lia|]; assumption).
Qed.

(** The position of every cell of a year's grid: three rows of four months,
    at most six weeks of seven days, and the column of a date is its weekday
    counted from Sunday. *)
Lemma grid_cell_position y data r_index row m_index mo w_index wk d_index date :
  PyCalendar.yeardatescalendar PyCalendar.SUNDAY y 4 = Ok data ->
  In (r_index, row) (enumerate data) ->
  In (m_index, mo) (enumerate row) ->
  In (w_index, wk) (enumerate mo) ->
  In (d_index, date) (enumerate wk) ->
  0 <= r_index < 3 /\ 0 <= m_index < 4 /\ 0 <= w_index < 6 /\ 0 <= d_index < 7
  /\ d_index = (weekday date + 1) mod 7.
Proof.
  intros Hdata Hr Hm Hw Hd.
  destruct (year_months y data Hdata) as (Hy & Hmonths).
  destruct (Hmonths _ _ _ _ Hr Hm) as (Hri & Hmi & Hgrid).
  destruct (month_cells y (m_index + r_index * 4 + 1) Hy ltac:(lia))
    as (grid & s & Hgrid' & Hs & Hcells).
  rewrite Hgrid in Hgrid'. injection Hgrid' as <-.
  destruct (Hcells _ _ _ _ Hw Hd) as (Hwi & Hdi & -> & Ho).
  repeat split; try lia. apply weekday_of_cell; assumption.
Qed.

(** ** What a run adds to the page *)

Lemma flat_map_nil {A B} (l : list A) : flat_map (fun _ : A => @nil B) l = [].
Proof. induction l as [|a l IH]; [reflexivity | exact IH]. Qed.

Lemma flat_map_enumerate_filter {A B} (p : A -> bool) (out : A -> list B)
    (idx : list Z) (l : list A) :
  List.length idx = List.length l ->
  flat_map (fun c : Z * A => if p (snd c) then out (snd c) else []) (combine idx l)
  = flat_map out (filter p l).
Proof.
  revert idx. induction l as [|a l IH]; intros [|i idx] Hlen; cbn in Hlen; try discriminate;
    try reflexivity.
  cbn [combine flat_map filter snd]. rewrite (IH idx) by lia.
  destruct (p a); reflexivity.
Qed.

Lemma flat_map_flat_map {A B C} (f : B -> list C) (g : A -> list B) (l : list A) :
  flat_map f (flat_map g l) = flat_map (fun a => flat_map f (g a)) l.
Proof.
  induction l as [|a l IH]; cbn [flat_map]; [reflexivity|].
  rewrite flat_map_app, IH. reflexivity.
Qed.

Lemma flat_map_ext_in {A B : Type} (f g : A -> list B) (l : list A) :
  (forall a, In a l -> f a = g a) -> flat_map f l = flat_map g l.
Proof.
  induction l as [|a l IH]; intros H; cbn [flat_map]; [reflexivity|].
  rewrite (H a (or_introl eq_refl)), IH; [reflexivity|].
  intros x Hx. apply H. right. exact Hx.
Qed.

Section ObservedLemmas.
Context {X : Type}.
Variable obs : PIL.draw_cmd -> list X.

Lemma adds_ret {A} (a : A) : adds obs (ret a) [].
Proof. intros w x w' H. injection H as _ <-. rewrite app_nil_r. reflexivity. Qed.

Lemma adds_draw c : adds obs (draw c) (obs c).
Proof.
  intros w x w' H. unfold draw in H. injection H as _ <-.
  unfold view. cbn [PIL.canvas]. rewrite flat_map_app. cbn [flat_map].
  rewrite app_nil_r. reflexivity.
Qed.

Lemma adds_bind {A B} (m : M A) (k : A -> M B) o1 o2 :
  adds obs m o1 -> (forall a, adds obs (k a) o2) -> adds obs (bind m k) (o1 ++ o2).
Proof.
  intros Hm Hk w b w' H. apply bind_ok_inv in H as (a & w1 & H1 & H2).
  rewrite (Hk a _ _ _ H2), (Hm _ _ _ H1), app_assoc. reflexivity.
Qed.

Lemma adds_seq {A B} (m : M A) (k : A -> M B) o :
  adds obs m [] -> (forall a, adds obs (k a) o) -> adds obs (bind m k) o.
Proof. intros Hm Hk. apply (adds_bind m k [] o); assumption. Qed.

Lemma adds_lift {A B} (r : result A) (k : A -> M B) out :
  (forall a, r = Ok a -> adds obs (k a) out) -> adds obs (bind (lift r) k) out.
Proof.
  intros Hk w b w' H. apply bind_ok_inv in H as (a & w1 & H1 & H2).
  apply lift_ok_inv in H1 as [-> ->]. eapply Hk; [reflexivity | eassumption].
Qed.

Lemma adds_ext {A} (m : M A) o o' : o = o' -> adds obs m o -> adds obs m o'.
Proof. intros ->. exact (fun H => H). Qed.

Lemma adds_for_each {A} (body : A -> M unit) (out : A -> list X) (l : list A) :
  (forall a, In a l -> adds obs (body a) (out a)) ->
  adds obs (for_each l body) (flat_map out l).
Proof.
  induction l as [|x l IH]; intros Hb; cbn [for_each flat_map].
  - apply adds_ret.
  - apply adds_bind; [apply Hb; left; reflexivity|].
    intros _. apply IH. intros a Ha. apply Hb. right. exact Ha.
Qed.

Lemma adds_for_each_nil {A} (body : A -> M unit) (l : list A) :
  (forall a, In a l -> adds obs (body a) []) -> adds obs (for_each l body) [].
Proof.
  intros Hb. eapply adds_ext; [|apply (adds_for_each body (fun _ => [])); exact Hb].
  apply flat_map_nil.
Qed.

End ObservedLemmas.

Lemma cells_view_grid_cells {X : Type} (F : Z -> date -> list X) (G : date -> list X) data :
  (forall r_index row m_index mo w_index wk d_index date,
      In (r_index, row) (enumerate data) ->
      In (m_index, mo) (enumerate row) ->
      In (w_index, wk) (enumerate mo) ->
      In (d_index, date) (enumerate wk) ->
      F d_index date = G date) ->
  cells_view F data = flat_map G (grid_cells data).
Proof.
  intros H. unfold cells_view, grid_cells. rewrite flat_map_flat_map.
  apply flat_map_ext_in. intros [r_index row] Hr. rewrite flat_map_flat_map.
  apply flat_map_ext_in. intros [m_index mo] Hm. rewrite flat_map_flat_map.
  apply flat_map_ext_in. intros [w_index wk] Hw.
  rewrite <- (flat_map_enumerate_filter
                (fun date : date => month date =? m_index + r_index * 4 + 1) G
                (zrange 0 (Z.of_nat (List.length wk))) wk)
    by (rewrite length_zrange; lia).
  apply flat_map_ext_in. intros [d_index date] Hd. cbn [snd].
  rewrite (H _ _ _ _ _ _ _ _ Hr Hm Hw Hd). reflexivity.
Qed.

Lemma column_marks_weekend d_index d :
  d_index = (weekday d + 1) mod 7 -> column_marks d_index d = weekend_marks d.
Proof.
  intros ->. unfold column_marks, weekend_marks.
  assert (Hw : 0 <= weekday d < 7) by (unfold weekday; apply Z.mod_pos_bound; lia).
  destruct (Z.eqb_spec (weekday d) 6) as [E6|E6].
  - rewrite E6. reflexivity.
  - destruct (Z.eqb_spec (weekday d) 5) as [E5|E5].
    + rewrite E5. reflexivity.
    + assert (Hne0 : (weekday d + 1) mod 7 <> 0)
        by (Z.to_euclidean_division_equations; lia).
      assert (Hne6 : (weekday d + 1) mod 7 <> 6)
        by (Z.to_euclidean_division_equations; lia).
      apply Z.eqb_neq in Hne0, Hne6. rewrite Hne0, Hne6. reflexivity.
Qed.

Lemma disks_ring_view w :
  disks w
  = flat_map (fun part => match part with Disk fill => [fill] | ArcOf _ _ _ => [] end)
      (ring_view w).
Proof.
  unfold disks, ring_view, view. induction (PIL.canvas w) as [|c l IH]; [reflexivity|].
  cbn [flat_map]. rewrite flat_map_app, IH. destruct c; reflexivity.
Qed.

Lemma disks_of_rings (rings : list (option PIL.color * Z)) :
  flat_map (fun part => match part with Disk fill => [fill] | ArcOf _ _ _ => [] end)
    (flat_map ring_parts rings)
  = map fst rings.
Proof.
  induction rings as [|p rings IH]; [reflexivity|].
  cbn [flat_map map ring_parts app]. cbn [flat_map] in IH. rewrite IH. reflexivity.
Qed.

Lemma all_ok_list {A B C : Type} (f : A -> result B) (g : B -> list C) (l : list A) :
  (forall a, In a l -> exists b, f a = Ok b) ->
  exists bs,
    Forall2 (fun a b => f a = Ok b) l bs
    /\ flat_map (fun a => match f a with Ok b => g b | Raise _ => [] end) l
       = flat_map g bs.
Proof.
  induction l as [|a l IH]; intros H.
  - exists []. split; [constructor | reflexivity].
  - destruct (H a (or_introl eq_refl)) as [b Hb].
    destruct IH as (bs & HF & Heq); [intros x Hx; apply H; right; exact Hx|].
    exists (b :: bs). split; [constructor; assumption|].
    cbn [flat_map]. rewrite Hb, Heq. reflexivity.
Qed.

Lemma non_finite_to_int (x : PyFloat.float64) :
  PyFloat.is_finite x = false ->
  PyFloat.to_int (PyFloat.mul (PyFloat.of_int 360) x)
  = Raise (match x with S754_nan => ValueError | _ => OverflowError end).
Proof.
  rewrite of_int_360. destruct x as [s|s| |s m e]; cbn [PyFloat.is_finite];
    intros H; try discriminate H; reflexivity.
Qed.

Lemma box_on_page_iff x1 y1 x2 y2 :
  box_on_page x1 y1 x2 y2 = true
  <-> 0 <= x1 <= x2 /\ x2 <= 3508 /\ 0 <= y1 <= y2 /\ y2 <= 2480.
Proof.
  unfold box_on_page, WIDTH, HEIGHT. rewrite !andb_true_iff, !Z.leb_le. lia.
Qed.

Lemma off_page_on c : on_page c = true -> off_page c = [].
Proof. unfold off_page. intros ->. reflexivity. Qed.

Lemma layout_constants :
  ASPACE = 113 /\ ASPACE / 2 = 56 /\ WGAP = 50 /\ WSPACE = 791 /\ WSPACE / 2 = 395
  /\ PADDING = 100 /\ PSTART = 400 /\ HSPACE = 680 /\ BGAP = 80
  /\ FZ_MONTH = 80 /\ FZ_WEEK = 40 /\ FZ_WEEK / 2 = 20 /\ DGAP_OFFSET = 20
  /\ WIDTH / 2 = 1754.
Proof. repeat split; reflexivity. Qed.

Lemma view_off_page (w : PIL.world) :
  view off_page w = [] -> forallb on_page (PIL.canvas w) = true.
Proof.
  unfold view. induction (PIL.canvas w) as [|c l IH]; [reflexivity|].
  cbn [flat_map forallb]. unfold off_page at 1.
  destruct (on_page c); cbn [app andb]; [exact IH | intros H; discriminate H].
Qed.

Section FinishedRun.
Variable ephemeris : Skyfield.Time -> result PyFloat.float64.
Variable fromSolarDate : Z -> Z -> Z -> result LunarDate.t.
Variable truetype : string -> Z -> result PIL.font.
Variable now_year : Z.

Lemma draw_cell_ok_ring tz ctx mi x y1 y2 d_index date w w' :
  draw_cell fromSolarDate truetype tz ctx mi x y1 y2 (d_index, date) w = (Ok tt, w') ->
  month date = mi ->
  exists p, day_ring fromSolarDate tz ctx date = Ok p.
Proof.
  intros H Hm. unfold draw_cell in H.
  replace (month date =? mi) with true in H by (symmetry; apply Z.eqb_eq; exact Hm).
  cbn [negb] in H.
  apply bind_ok_inv in H as (u & w1 & _ & H).
  apply bind_ok_inv in H as (dt & w2 & Hdt & H).
  apply lift_ok_inv in Hdt as [Hdt ->].
  apply bind_ok_inv in H as (u' & w3 & Hring & _).
  unfold day_ring, ring_params. rewrite Hdt. cbn [rbind].
  destruct (draw_moon_ring_cases fromSolarDate
              (x + d_index * ASPACE + ASPACE / 2) (y1 + 33) 30 dt ctx w1)
    as [(illum & waxing & sweep & fill & Hi & Hs & Hc) | (e & He & _)].
  - rewrite Hi. cbn [rbind]. rewrite Hs. cbn [rbind]. rewrite Hc. cbn [rbind]. eauto.
  - rewrite He in Hring. discriminate Hring.
Qed.

Lemma generate_calendar_ok_rings tz_offset year offset tz data w w' :
  generate_calendar ephemeris fromSolarDate truetype now_year tz_offset year w
  = (Ok tt, w') ->
  timedelta_hours tz_offset = Ok offset ->
  new_timezone offset = Ok tz ->
  PyCalendar.yeardatescalendar PyCalendar.SUNDAY
    (match year with None => now_year | Some y => y end) 4 = Ok data ->
  forall date, In date (grid_cells data) ->
  exists p, day_ring fromSolarDate tz (mkctx ephemeris) date = Ok p.
Proof.
  intros H Hoff Htz Hdata date Hdate.
  destruct (generate_calendar_ok_steps _ _ _ _ _ _ _ _ H)
    as (offset' & tz' & title & data' & w1 & w2
        & Hoff' & Htz' & Hstr & Hdata' & Htitle & Hloop & Hfiles & Hsave).
  rewrite Hoff in Hoff'. injection Hoff' as <-.
  rewrite Htz in Htz'. injection Htz' as <-.
  rewrite Hdata in Hdata'. injection Hdata' as <-.
  destruct (in_grid_cells _ _ Hdate)
    as (r_index & row & m_index & mo & w_index & wk & d_index & Hr & Hm & Hw & Hd & Hmonth).
  destruct (for_each_ok_inv _ _ _ _ Hloop _ Hr) as (a1 & a2 & Hrow).
  destruct (draw_row_ok_inv _ _ _ _ _ _ _ _ _ Hrow _ Hm) as (b1 & b2 & Hmo).
  destruct (draw_month_ok_inv _ _ _ _ _ _ _ _ _ _ Hmo _ Hw) as (x & y & dg & c1 & c2 & Hwk).
  destruct (draw_week_ok_inv _ _ _ _ _ _ _ _ _ _ _ _ Hwk _ Hd)
    as (x' & y1 & y2 & d1 & d2 & Hcell).
  eapply draw_cell_ok_ring; eassumption.
Qed.

(** What a run that returns tells about its arguments, and the grid it drew. *)
Lemma finished_run_inv tz_offset year w w' :
  generate_calendar ephemeris fromSolarDate truetype now_year tz_offset year w
  = (Ok tt, w') ->
  let y := match year with None => now_year | Some y => y end in
  -24 < tz_offset < 24
  /\ 1 < y < 9999
  /\ exists data,
       PyCalendar.yeardatescalendar PyCalendar.SUNDAY y 4 = Ok data
       /\ grid_cells data = days_of_year y.
Proof.
  intros H y.
  destruct (generate_calendar_ok_steps _ _ _ _ _ _ _ _ H)
    as (offset' & tz' & title & data' & w1 & w2
        & Hoff' & Htz' & Hstr & Hdata' & Htitle & Hloop & Hfiles & Hsave).
  fold y in Hdata'.
  assert (Hh : -24 < tz_offset < 24).
  { destruct (Z_lt_dec (-24) tz_offset) as [H1|H1];
      [destruct (Z_lt_dec tz_offset 24) as [H2|H2]; [lia|]|].
    all: exfalso;
      destruct (timezone_of_hours_fails tz_offset ltac:(lia))
        as [(e & He & _) | (offset & e & Ho & He & _)];
      [rewrite He in Hoff'; discriminate Hoff'
      | rewrite Ho in Hoff'; injection Hoff' as <-; rewrite He in Htz';
        discriminate Htz']. }
  pose proof (grid_year_range _ _ Hdata') as Hy.
  split; [exact Hh|]. split; [exact Hy|]. apply year_grid. exact Hy.
Qed.

Lemma cell_outcome_day_ring tz ctx d :
  (exists f, truetype FONT_NAME FZ_WEEK = Ok f) ->
  (cell_outcome fromSolarDate truetype tz ctx d = Ok tt
   <-> exists p, day_ring fromSolarDate tz ctx d = Ok p).
Proof.
  intros [f Hf]. unfold cell_outcome, day_ring, ring_params.
  destruct (new_datetime _ _ _ _) as [dt|e]; cbn [rbind];
    [|split; [intros X; discriminate X | intros [p X]; discriminate X]].
  destruct (get_illum_waxing dt ctx) as [[illum waxing]|e]; cbn [rbind];
    [|split; [intros X; discriminate X | intros [p X]; discriminate X]].
  destruct (PyFloat.to_int _) as [sweep|e]; cbn [rbind];
    [|split; [intros X; discriminate X | intros [p X]; discriminate X]].
  destruct (get_lunar_color fromSolarDate dt) as [fill|e]; cbn [rbind];
    [|split; [intros X; discriminate X | intros [p X]; discriminate X]].
  rewrite Hf. cbn [rbind]. split; eauto.
Qed.

(** *** Rings *)

Lemma rings_draw_text xy text size fill :
  adds ring_parts_of (draw_text truetype xy text size fill) [].
Proof.
  unfold draw_text. apply adds_lift. intros f _. apply (adds_draw ring_parts_of).
Qed.

Lemma rings_draw_moon_ring cx cy radius dt ctx :
  adds ring_parts_of (draw_moon_ring fromSolarDate cx cy radius dt ctx)
    (match ring_params fromSolarDate dt ctx with
     | Ok p => ring_parts p
     | Raise _ => []
     end).
Proof.
  intros w u w' H.
  destruct (draw_moon_ring_cases fromSolarDate cx cy radius dt ctx w)
    as [(illum & waxing & sweep & fill & Hi & Hs & Hc) | (e & He & _)].
  - rewrite (draw_moon_ring_ok fromSolarDate cx cy radius dt ctx illum waxing sweep fill w
               Hi Hs Hc) in H.
    injection H as _ <-. unfold ring_params. rewrite Hi. cbn [rbind]. rewrite Hs. cbn [rbind].
    rewrite Hc. cbn [rbind]. unfold view, strokes_after. cbn [PIL.canvas].
    rewrite flat_map_app. reflexivity.
  - rewrite He in H. discriminate H.
Qed.

Lemma rings_draw_cell tz ctx mi x y1 y2 d_index date :
  adds ring_parts_of
    (draw_cell fromSolarDate truetype tz ctx mi x y1 y2 (d_index, date))
    (if month date =? mi then ring_of_day fromSolarDate tz ctx date else []).
Proof.
  unfold draw_cell. destruct (month date =? mi); cbn [negb]; [|apply adds_ret].
  apply adds_seq.
  { destruct (_ || _); [apply (adds_draw ring_parts_of) | apply adds_ret]. }
  intros _. unfold ring_of_day, day_ring. apply adds_lift. intros dt ->. cbn [rbind].
  eapply adds_ext; [apply app_nil_r|].
  apply adds_bind; [apply rings_draw_moon_ring|].
  intros _. apply rings_draw_text.
Qed.

Lemma rings_generate_calendar tz_offset year offset tz data w w' :
  generate_calendar ephemeris fromSolarDate truetype now_year tz_offset year w
  = (Ok tt, w') ->
  timedelta_hours tz_offset = Ok offset ->
  new_timezone offset = Ok tz ->
  PyCalendar.yeardatescalendar PyCalendar.SUNDAY
    (match year with None => now_year | Some y => y end) 4 = Ok data ->
  ring_view w' = flat_map (ring_of_day fromSolarDate tz (mkctx ephemeris)) (grid_cells data).
Proof.
  intros H Hoff Htz Hdata.
  destruct (generate_calendar_ok_steps _ _ _ _ _ _ _ _ H)
    as (offset' & tz' & title & data' & w1 & w2
        & Hoff' & Htz' & Hstr & Hdata' & Htitle & Hloop & Hfiles & Hsave).
  rewrite Hoff in Hoff'. injection Hoff' as <-.
  rewrite Htz in Htz'. injection Htz' as <-.
  rewrite Hdata in Hdata'. injection Hdata' as <-.
  apply rings_draw_text in Htitle.
  apply save_ok_inv in Hsave as (_ & Hcanvas & _).
  assert (Hrows : adds ring_parts_of
                    (for_each (enumerate data)
                       (draw_row fromSolarDate truetype tz (mkctx ephemeris)
                          (FZ_MONTH + FZ_WEEK + DGAP_OFFSET)))
                    (cells_view (fun _ => ring_of_day fromSolarDate tz (mkctx ephemeris))
                       data)).
  { unfold cells_view. apply adds_for_each. intros [r_index row] _.
    unfold draw_row. apply adds_for_each. intros [m_index mo] _.
    unfold draw_month.
    apply adds_seq; [apply rings_draw_text|]. intros _.
    apply adds_seq.
    { apply adds_for_each_nil. intros [a_index abbr] _. apply rings_draw_text. }
    intros _. apply adds_seq; [apply (adds_draw ring_parts_of)|]. intros _.
    apply adds_for_each. intros [w_index wk] _.
    unfold draw_week. apply adds_for_each. intros [d_index date] _.
    apply rings_draw_cell. }
  apply Hrows in Hloop. unfold ring_view, view in *. cbn [PIL.canvas flat_map app] in Htitle.
  rewrite Hcanvas, Hloop, Htitle. cbn [app].
  apply (cells_view_grid_cells
           (fun _ => ring_of_day fromSolarDate tz (mkctx ephemeris))
           (ring_of_day fromSolarDate tz (mkctx ephemeris))).
  reflexivity.
Qed.

Lemma finished_run_rings tz_offset year w w' :
  generate_calendar ephemeris fromSolarDate truetype now_year tz_offset year w
  = (Ok tt, w') ->
  let y := match year with None => now_year | Some y => y end in
  let tz := mktz (tz_offset * 3600 * US_PER_SECOND) in
  exists rings,
    Forall2 (fun d p => day_ring fromSolarDate tz (mkctx ephemeris) d = Ok p)
      (days_of_year y) rings
    /\ ring_view w' = flat_map ring_parts rings.
Proof.
  intros H y tz.
  destruct (finished_run_inv _ _ _ _ H) as (Htz & Hy & data & Hdata & Hcells).
  fold y in Hy, Hdata, Hcells.
  destruct (timezone_of_hours tz_offset Htz) as [Hoff Hz]. fold tz in Hz.
  pose proof (rings_generate_calendar _ _ _ _ _ _ _ H Hoff Hz Hdata) as Hview.
  pose proof (generate_calendar_ok_rings _ _ _ _ _ _ _ H Hoff Hz Hdata) as Hok.
  rewrite Hcells in Hview, Hok.
  destruct (all_ok_list (day_ring fromSolarDate tz (mkctx ephemeris)) ring_parts
              (days_of_year y) Hok) as (rings & HF & Heq).
  exists rings. split; [exact HF|]. rewrite Hview. exact Heq.
Qed.

(** *** Weekend marks *)

Lemma marks_draw_text xy text size fill :
  adds weekend_marks_of (draw_text truetype xy text size fill)
    (if is_black fill then [] else [DayNumber text fill]).
Proof.
  unfold draw_text. apply adds_lift. intros f _.
  apply (adds_draw weekend_marks_of).
Qed.

Lemma marks_draw_moon_ring cx cy radius dt ctx :
  adds weekend_marks_of (draw_moon_ring fromSolarDate cx cy radius dt ctx) [].
Proof.
  unfold draw_moon_ring. apply adds_lift. intros [illum waxing] _.
  apply adds_lift. intros sweep _. apply adds_lift. intros fill _.
  apply adds_seq; [apply (adds_draw weekend_marks_of)|]. intros _.
  apply adds_seq; [apply (adds_draw weekend_marks_of)|]. intros _.
  apply (adds_draw weekend_marks_of).
Qed.

Lemma marks_draw_cell tz ctx mi x y1 y2 d_index date :
  adds weekend_marks_of
    (draw_cell fromSolarDate truetype tz ctx mi x y1 y2 (d_index, date))
    (if month date =? mi then column_marks d_index date else []).
Proof.
  unfold draw_cell. destruct (month date =? mi); cbn [negb]; [|apply adds_ret].
  unfold column_marks. apply adds_bind.
  { destruct (_ || _); [apply (adds_draw weekend_marks_of) | apply adds_ret]. }
  intros _. apply adds_lift. intros dt _.
  apply adds_seq; [apply marks_draw_moon_ring|]. intros _.
  eapply adds_ext; [|apply marks_draw_text].
  destruct (d_index =? 0); [reflexivity|]. destruct (d_index =? 6); reflexivity.
Qed.

Lemma marks_generate_calendar tz_offset year data w w' :
  generate_calendar ephemeris fromSolarDate truetype now_year tz_offset year w
  = (Ok tt, w') ->
  PyCalendar.yeardatescalendar PyCalendar.SUNDAY
    (match year with None => now_year | Some y => y end) 4 = Ok data ->
  view weekend_marks_of w' = cells_view column_marks data.
Proof.
  intros H Hdata.
  destruct (generate_calendar_ok_steps _ _ _ _ _ _ _ _ H)
    as (offset & tz & title & data' & w1 & w2
        & Hoff' & Htz' & Hstr & Hdata' & Htitle & Hloop & Hfiles & Hsave).
  rewrite Hdata in Hdata'. injection Hdata' as <-.
  apply marks_draw_text in Htitle.
  apply save_ok_inv in Hsave as (_ & Hcanvas & _).
  assert (Hrows : adds weekend_marks_of
                    (for_each (enumerate data)
                       (draw_row fromSolarDate truetype tz (mkctx ephemeris)
                          (FZ_MONTH + FZ_WEEK + DGAP_OFFSET)))
                    (cells_view column_marks data)).
  { unfold cells_view. apply adds_for_each. intros [r_index row] _.
    unfold draw_row. apply adds_for_each. intros [m_index mo] _.
    unfold draw_month.
    apply adds_seq; [apply marks_draw_text|]. intros _.
    apply adds_seq.
    { apply adds_for_each_nil. intros [a_index abbr] _. apply marks_draw_text. }
    intros _. apply adds_seq; [apply (adds_draw weekend_marks_of)|]. intros _.
    apply adds_for_each. intros [w_index wk] _.
    unfold draw_week. apply adds_for_each. intros [d_index date] _.
    apply marks_draw_cell. }
  apply Hrows in Hloop. unfold view in *.
  cbn [PIL.canvas flat_map app is_black COLOR_BLACK] in Htitle.
  rewrite Hcanvas, Hloop, Htitle. reflexivity.
Qed.

Lemma finished_run_marks tz_offset year w w' :
  generate_calendar ephemeris fromSolarDate truetype now_year tz_offset year w
  = (Ok tt, w') ->
  let y := match year with None => now_year | Some y => y end in
  view weekend_marks_of w' = flat_map weekend_marks (days_of_year y).
Proof.
  intros H y.
  destruct (finished_run_inv _ _ _ _ H) as (_ & _ & data & Hdata & Hcells).
  fold y in Hdata, Hcells.
  rewrite (marks_generate_calendar _ _ _ _ _ H Hdata), <- Hcells.
  apply cells_view_grid_cells.
  intros r_index row m_index mo w_index wk d_index date Hr Hm Hw Hd.
  apply column_marks_weekend.
  eapply (grid_cell_position y data); eassumption.
Qed.

(** *** Page bounds *)

Lemma on_page_draw_text x y text size fill :
  box_on_page x y x y = true ->
  adds off_page (draw_text truetype (x, y) text size fill) [].
Proof.
  intros Hb. unfold draw_text. apply adds_lift. intros f _.
  eapply adds_ext; [|apply (adds_draw off_page)]. apply off_page_on. exact Hb.
Qed.

Lemma on_page_draw_moon_ring cx cy radius dt ctx :
  box_on_page (cx - radius) (cy - radius) (cx + radius) (cy + radius) = true ->
  adds off_page (draw_moon_ring fromSolarDate cx cy radius dt ctx) [].
Proof.
  intros Hb. unfold draw_moon_ring. apply adds_lift. intros [illum waxing] _.
  apply adds_lift. intros sweep _. apply adds_lift. intros fill _.
  apply adds_seq; [|intros _; apply adds_seq; [|intros _]];
    (eapply adds_ext; [|apply (adds_draw off_page)]); apply off_page_on; exact Hb.
Qed.

Lemma on_page_draw_cell tz ctx mi x y1 d_index date :
  0 <= x -> x + 791 <= 3508 -> 0 <= y1 -> y1 + 80 <= 2480 -> 0 <= d_index < 7 ->
  adds off_page
    (draw_cell fromSolarDate truetype tz ctx mi x y1 (y1 + BGAP) (d_index, date)) [].
Proof.
  intros Hx0 Hx1 Hy0 Hy1 Hd.
  destruct layout_constants
    as (EA & EA2 & EG & EW & EW2 & EP & EPS & EH & EB & EFM & EFW & EFW2 & EDG & EWI).
  unfold draw_cell. destruct (negb _); [apply adds_ret|].
  rewrite EA2, EFW2, EA, EB.
  apply adds_seq.
  { destruct (_ || _); [|apply adds_ret].
    eapply adds_ext; [|apply (adds_draw off_page)]. apply off_page_on.
    cbn [on_page]. apply box_on_page_iff. lia. }
  intros _. apply adds_lift. intros dt _.
  apply adds_seq.
  { apply on_page_draw_moon_ring. apply box_on_page_iff. lia. }
  intros _. apply on_page_draw_text. apply box_on_page_iff. lia.
Qed.

Lemma on_page_generate_calendar tz_offset year w w' :
  generate_calendar ephemeris fromSolarDate truetype now_year tz_offset year w
  = (Ok tt, w') ->
  view off_page w' = [].
Proof.
  intros H.
  destruct layout_constants
    as (EA & EA2 & EG & EW & EW2 & EP & EPS & EH & EB & EFM & EFW & EFW2 & EDG & EWI).
  destruct (generate_calendar_ok_steps _ _ _ _ _ _ _ _ H)
    as (offset & tz & title & data0 & w1 & w2
        & Hoff' & Htz' & Hstr & Hdata & Htitle & Hloop & Hfiles & Hsave).
  apply on_page_draw_text in Htitle; [|rewrite EWI, EP; reflexivity].
  apply save_ok_inv in Hsave as (_ & Hcanvas & _).
  assert (Hrows : adds off_page
                    (for_each (enumerate data0)
                       (draw_row fromSolarDate truetype tz (mkctx ephemeris)
                          (FZ_MONTH + FZ_WEEK + DGAP_OFFSET))) []).
  { apply adds_for_each_nil. intros [r_index row] Hr.
    unfold draw_row. apply adds_for_each_nil. intros [m_index mo] Hm.
    assert (Hrm : 0 <= r_index < 3 /\ 0 <= m_index < 4).
    { destruct (year_months _ _ Hdata) as (_ & Hmonths).
      destruct (Hmonths _ _ _ _ Hr Hm) as (? & ? & _). split; assumption. }
    unfold draw_month. rewrite ?EP, ?EG, ?EW2, ?EW, ?EPS, ?EH, ?EA2, ?EA, ?EFM, ?EFW, ?EDG.
    apply adds_seq; [apply on_page_draw_text; apply box_on_page_iff; lia|]. intros _.
    apply adds_seq.
    { apply adds_for_each_nil. intros [a_index abbr] Ha.
      assert (0 <= a_index < 7).
      { apply in_combine_l in Ha. apply in_zrange_inv in Ha. cbn in Ha. lia. }
      apply on_page_draw_text. apply box_on_page_iff. lia. }
    intros _. apply adds_seq.
    { eapply adds_ext; [|apply (adds_draw off_page)]. apply off_page_on.
      cbn [on_page]. apply box_on_page_iff. lia. }
    intros _. apply adds_for_each_nil. intros [w_index wk] Hw.
    unfold draw_week. apply adds_for_each_nil. intros [d_index date] Hd.
    destruct (grid_cell_position _ _ _ _ _ _ _ _ _ _ Hdata Hr Hm Hw Hd)
      as (_ & _ & Hwi & Hdi & _).
    rewrite EB.
    replace (400 + r_index * 680 + (80 + 40 + 20) + w_index * 80 + 80)
      with (400 + r_index * 680 + (80 + 40 + 20) + w_index * 80 + BGAP) by (rewrite EB; lia).
    apply on_page_draw_cell; lia. }
  apply Hrows in Hloop. unfold view in *. cbn [PIL.canvas flat_map app] in Htitle.
  rewrite Hcanvas, Hloop, Htitle. reflexivity.
Qed.

(** *** Texts *)

Lemma texts_draw_text xy text size fill :
  adds texts_of (draw_text truetype xy text size fill) [text].
Proof.
  unfold draw_text. apply adds_lift. intros f _. apply (adds_draw texts_of).
Qed.

Lemma texts_draw_moon_ring cx cy radius dt ctx :
  adds texts_of (draw_moon_ring fromSolarDate cx cy radius dt ctx) [].
Proof.
  unfold draw_moon_ring. apply adds_lift. intros [illum waxing] _.
  apply adds_lift. intros sweep _. apply adds_lift. intros fill _.
  apply adds_seq; [apply (adds_draw texts_of)|]. intros _.
  apply adds_seq; [apply (adds_draw texts_of)|]. intros _.
  apply (adds_draw texts_of).
Qed.

Lemma texts_draw_cell tz ctx mi x y1 y2 d_index date :
  adds texts_of
    (draw_cell fromSolarDate truetype tz ctx mi x y1 y2 (d_index, date))
    (if month date =? mi then [str (day date)] else []).
Proof.
  unfold draw_cell. destruct (month date =? mi); cbn [negb]; [|apply adds_ret].
  apply adds_seq.
  { destruct (_ || _); [apply (adds_draw texts_of) | apply adds_ret]. }
  intros _. apply adds_lift. intros dt _.
  apply adds_seq; [apply texts_draw_moon_ring|]. intros _.
  apply texts_draw_text.
Qed.

Lemma texts_draw_month tz ctx r_index dgap m_index mo :
  adds texts_of
    (draw_month fromSolarDate truetype tz ctx r_index dgap (m_index, mo))
    (nth (Z.to_nat (m_index + r_index * 4 + 1)) PyCalendar.month_name ""%string
     :: WEEKDAY_LIST
     ++ flat_map (fun d : date => [str (day d)]) (in_month (m_index + r_index * 4 + 1) mo)).
Proof.
  unfold draw_month.
  apply (adds_bind texts_of _ _ [_]); [apply texts_draw_text|]. intros _.
  apply adds_bind.
  { eapply adds_ext;
      [|apply (adds_for_each texts_of _ (fun c : Z * string => [snd c]))].
    - reflexivity.
    - intros [a_index abbr] _. apply texts_draw_text. }
  intros _. apply adds_seq; [apply (adds_draw texts_of)|]. intros _.
  unfold in_month. rewrite flat_map_flat_map.
  apply adds_for_each. intros [w_index wk] _.
  unfold draw_week.
  rewrite <- (flat_map_enumerate_filter
                (fun date : date => month date =? m_index + r_index * 4 + 1)
                (fun d : date => [str (day d)])
                (zrange 0 (Z.of_nat (List.length wk))) wk)
    by (rewrite length_zrange; lia).
  apply adds_for_each. intros [d_index date] _. cbn [snd]. apply texts_draw_cell.
Qed.

Lemma finished_run_texts tz_offset year w w' :
  generate_calendar ephemeris fromSolarDate truetype now_year tz_offset year w
  = (Ok tt, w') ->
  let y := match year with None => now_year | Some y => y end in
  view texts_of w' = page_texts y.
Proof.
  intros H y.
  destruct (finished_run_inv _ _ _ _ H) as (_ & Hy & _). fold y in Hy.
  destruct (year_grid_months y Hy)
    as (g1 & g2 & g3 & g4 & g5 & g6 & g7 & g8 & g9 & g10 & g11 & g12 & Hdata
        & M1 & M2 & M3 & M4 & M5 & M6 & M7 & M8 & M9 & M10 & M11 & M12).
  destruct (generate_calendar_ok_steps _ _ _ _ _ _ _ _ H)
    as (offset & tz & title & data' & w1 & w2
        & Hoff' & Htz' & Hstr & Hdata' & Htitle & Hloop & Hfiles & Hsave).
  fold y in Hstr, Hdata'. rewrite Hdata in Hdata'. injection Hdata' as <-.
  apply PyInt_str_ok in Hstr. subst title.
  apply texts_draw_text in Htitle.
  apply save_ok_inv in Hsave as (_ & Hcanvas & _).
  apply (adds_for_each texts_of _
           (fun rw : Z * list (list (list date)) =>
              flat_map (fun mo : Z * list (list date) =>
                nth (Z.to_nat (fst mo + fst rw * 4 + 1)) PyCalendar.month_name ""%string
                :: WEEKDAY_LIST
                ++ flat_map (fun d : date => [str (day d)])
                     (in_month (fst mo + fst rw * 4 + 1) (snd mo)))
                (enumerate (snd rw)))) in Hloop.
  2: { intros [r_index row] _. unfold draw_row. cbn [fst snd].
       apply adds_for_each. intros [m_index mo] _. apply texts_draw_month. }
  unfold view in *. cbn [PIL.canvas flat_map app] in Htitle.
  rewrite Hcanvas, Hloop, Htitle.
  change (enumerate [[g1; g2; g3; g4]; [g5; g6; g7; g8]; [g9; g10; g11; g12]])
    with [(0, [g1; g2; g3; g4]); (1, [g5; g6; g7; g8]); (2, [g9; g10; g11; g12])].
  cbn [flat_map fst snd app].
  change (enumerate [g1; g2; g3; g4]) with [(0, g1); (1, g2); (2, g3); (3, g4)].
  change (enumerate [g5; g6; g7; g8]) with [(0, g5); (1, g6); (2, g7); (3, g8)].
  change (enumerate [g9; g10; g11; g12]) with [(0, g9); (1, g10); (2, g11); (3, g12)].
  cbn [flat_map fst snd].
  change (0 + 0 * 4 + 1) with 1. change (1 + 0 * 4 + 1) with 2.
  change (2 + 0 * 4 + 1) with 3. change (3 + 0 * 4 + 1) with 4.
  change (0 + 1 * 4 + 1) with 5. change (1 + 1 * 4 + 1) with 6.
  change (2 + 1 * 4 + 1) with 7. change (3 + 1 * 4 + 1) with 8.
  change (0 + 2 * 4 + 1) with 9. change (1 + 2 * 4 + 1) with 10.
  change (2 + 2 * 4 + 1) with 11. change (3 + 2 * 4 + 1) with 12.
  rewrite M1, M2, M3, M4, M5, M6, M7, M8, M9, M10, M11, M12, !day_numbers.
  unfold page_texts. rewrite zrange_1_13. cbn [flat_map]. unfold month_texts.
  rewrite !app_nil_r, <- !app_assoc. reflexivity.
Qed.

End FinishedRun.

(** * The claims *)

Section Claims.
Variable ephemeris : Skyfield.Time -> result PyFloat.float64.
Variable fromSolarDate : Z -> Z -> Z -> result LunarDate.t.
Variable truetype : string -> Z -> result PIL.font.
Variable now_year : Z.

(** C1, as amended. For a fraction in [0,1] the ring renderer computes
    its sweep as [int(360 * illum)]: the conversion never raises, and the
    sweep is the floor of the float product (the product truncated, not
    rounded to nearest), an integer from 0 to 360; it is what separates the
    start and the end of the black arc. *)
Theorem sweep_is_truncated_product cx cy radius date ctx illum waxing fill w :
  get_illum_waxing date ctx = Ok (illum, waxing) ->
  in_unit illum = true ->
  get_lunar_color fromSolarDate date = Ok fill ->
  exists sweep,
    PyFloat.to_int (PyFloat.mul (PyFloat.of_int 360) illum) = Ok sweep
    /\ sweep = Qfloor (PyFloat.to_Q (PyFloat.mul (PyFloat.of_int 360) illum))
    /\ 0 <= sweep <= 360
    /\ draw_moon_ring fromSolarDate cx cy radius date ctx w
       = (Ok tt,
          strokes_after w
            [PIL.Ellipse (ring_bbox cx cy radius) fill COLOR_GRAY_BORDER 2;
             PIL.Arc (ring_bbox cx cy radius) 0 360 COLOR_YELLOW 4;
             PIL.Arc (ring_bbox cx cy radius) (-90)
               (if waxing then -90 + sweep else -90 - sweep) COLOR_BLACK 4]).
Proof.
  intros Hi Hu Hc. destruct (sweep_in_unit illum Hu) as (sweep & Hs & Hfloor & _).
  destruct (sweep_range illum Hu) as (sweep' & Hs' & Hrange).
  rewrite Hs in Hs'. injection Hs' as <-.
  exists sweep. split; [exact Hs|]. split; [exact Hfloor|]. split; [exact Hrange|].
  eapply draw_moon_ring_ok; eassumption.
Qed.

(** C2. When both instants can be built and the ephemeris answers at
    both, [get_illum_waxing] returns the illumination at the first instant
    together with the flag [illum_next > illum]: the flag is false when the
    two compare equal, and for finite values it holds exactly when the
    second value is strictly greater as a number. *)
Theorem fraction_and_strict_waxing date ctx next t tn illum illum_next :
  Skyfield.from_datetime date = Ok t ->
  datetime_add date US_PER_DAY = Ok next ->
  Skyfield.from_datetime next = Ok tn ->
  fraction_illuminated ctx t = Ok illum ->
  fraction_illuminated ctx tn = Ok illum_next ->
  exists waxing,
    get_illum_waxing date ctx = Ok (illum, waxing)
    /\ waxing = PyFloat.gt illum_next illum
    /\ (SFeqb illum_next illum = true -> waxing = false)
    /\ (PyFloat.valid illum = true -> PyFloat.valid illum_next = true ->
        PyFloat.is_finite illum = true -> PyFloat.is_finite illum_next = true ->
        (waxing = true <-> (PyFloat.to_Q illum < PyFloat.to_Q illum_next)%Q)).
Proof.
  intros Ht Hnext Htn Hi Hin. exists (PyFloat.gt illum_next illum).
  split; [|split; [reflexivity | split]].
  - unfold get_illum_waxing. rewrite Ht, timedelta_days_1. cbn [rbind].
    rewrite Hnext. cbn [rbind]. rewrite Htn. cbn [rbind]. rewrite Hi, Hin. reflexivity.
  - apply SFeqb_not_gt.
  - intros V V' F F'. apply gt_to_Q; assumption.
Qed.


(** C4. When the lunar calendar knows the date, the fill is the new-moon
    pink exactly on lunar day 1, the full-moon blue exactly on lunar day
    15, and absent on every other lunar day. *)
Theorem lunar_marker date lunar :
  fromSolarDate (year (civil date)) (month (civil date)) (day (civil date)) = Ok lunar ->
  exists marker,
    get_lunar_color fromSolarDate date = Ok marker
    /\ (marker = Some COLOR_LUNAR_NEW_MOON <-> LunarDate.day lunar = 1)
    /\ (marker = Some COLOR_LUNAR_FULL_MOON <-> LunarDate.day lunar = 15)
    /\ (marker = None <-> LunarDate.day lunar <> 1 /\ LunarDate.day lunar <> 15)
    /\ COLOR_LUNAR_NEW_MOON = PIL.RGB 255 205 210
    /\ COLOR_LUNAR_FULL_MOON = PIL.RGB 187 222 251.
Proof.
  intros H. unfold get_lunar_color. rewrite H. cbn [rbind].
  destruct (Z.eqb_spec (LunarDate.day lunar) 1) as [E1|E1];
    [|destruct (Z.eqb_spec (LunarDate.day lunar) 15) as [E15|E15]];
    eexists; (split; [reflexivity|]);
    unfold COLOR_LUNAR_NEW_MOON, COLOR_LUNAR_FULL_MOON;
    repeat split; intros; try congruence; try lia.
Qed.

(** C5. The black arc starts at -90 degrees, and ends at start plus the
    sweep when waxing, at start minus the sweep when not. *)
Theorem sweep_arc_direction cx cy radius date ctx illum waxing sweep fill w :
  get_illum_waxing date ctx = Ok (illum, waxing) ->
  PyFloat.to_int (PyFloat.mul (PyFloat.of_int 360) illum) = Ok sweep ->
  get_lunar_color fromSolarDate date = Ok fill ->
  exists start end_ w',
    draw_moon_ring fromSolarDate cx cy radius date ctx w = (Ok tt, w')
    /\ last (PIL.canvas w') (PIL.Arc [] 0 0 COLOR_BLACK 0)
       = PIL.Arc (ring_bbox cx cy radius) start end_ COLOR_BLACK 4
    /\ start = -90
    /\ (waxing = true -> end_ = start + sweep)
    /\ (waxing = false -> end_ = start - sweep).
Proof.
  intros Hi Hs Hc.
  exists (-90), (if waxing then -90 + sweep else -90 - sweep). eexists.
  split; [eapply draw_moon_ring_ok; eassumption|].
  split.
  - unfold strokes_after. cbn [PIL.canvas].
    change [PIL.Ellipse (ring_bbox cx cy radius) fill COLOR_GRAY_BORDER 2;
            PIL.Arc (ring_bbox cx cy radius) 0 360 COLOR_YELLOW 4;
            PIL.Arc (ring_bbox cx cy radius) (-90)
              (if waxing then -90 + sweep else -90 - sweep) COLOR_BLACK 4]
      with ([PIL.Ellipse (ring_bbox cx cy radius) fill COLOR_GRAY_BORDER 2;
             PIL.Arc (ring_bbox cx cy radius) 0 360 COLOR_YELLOW 4]
            ++ [PIL.Arc (ring_bbox cx cy radius) (-90)
                  (if waxing then -90 + sweep else -90 - sweep) COLOR_BLACK 4]).
    rewrite app_assoc. apply last_last.
  - split; [reflexivity|]. split; intros ->; reflexivity.
Qed.

(** C6. A fraction equal to 0 gives an arc that ends where it starts; a
    fraction equal to 1 gives a sweep of 360 degrees, to 270 when waxing
    and to -450 when not: 360 degrees away from the start either way. *)
Theorem degenerate_sweeps cx cy radius date ctx illum waxing fill w :
  get_illum_waxing date ctx = Ok (illum, waxing) ->
  get_lunar_color fromSolarDate date = Ok fill ->
  let ring end_ :=
    (Ok tt,
     strokes_after w
       [PIL.Ellipse (ring_bbox cx cy radius) fill COLOR_GRAY_BORDER 2;
        PIL.Arc (ring_bbox cx cy radius) 0 360 COLOR_YELLOW 4;
        PIL.Arc (ring_bbox cx cy radius) (-90) end_ COLOR_BLACK 4]) in
  (SFeqb illum (PyFloat.of_int 0) = true ->
   draw_moon_ring fromSolarDate cx cy radius date ctx w = ring (-90))
  /\ (SFeqb illum (PyFloat.of_int 1) = true ->
      exists end_,
        draw_moon_ring fromSolarDate cx cy radius date ctx w = ring end_
        /\ end_ = (if waxing then 270 else -450)
        /\ Z.abs (end_ - -90) = 360).
Proof.
  intros Hi Hc ring. split; intros He.
  - rewrite of_int_0 in He. apply SFeqb_zero_eq in He as [s ->].
    rewrite (draw_moon_ring_ok fromSolarDate cx cy radius date ctx
               (S754_zero s) waxing 0 fill w Hi); [|destruct s; reflexivity | exact Hc].
    unfold ring. destruct waxing; reflexivity.
  - rewrite of_int_1 in He. apply SFeqb_finite_eq in He. subst illum.
    exists (if waxing then 270 else -450).
    rewrite (draw_moon_ring_ok fromSolarDate cx cy radius date ctx
               _ waxing 360 fill w Hi); [|vm_compute; reflexivity | exact Hc].
    unfold ring. destruct waxing; repeat split; reflexivity.
Qed.

(** C8. When the three lookups of a ring return (the fraction and the
    direction, the sweep as an integer, the lunar marker), the renderer
    returns, and it has added exactly three strokes on top of the surface,
    in this order: the disk, the full yellow outline from 0 to 360, and
    then, on top, the black sweep arc from -90; all three in the box
    [center -/+ radius]. No file is touched. And no call does anything
    else: a call that returns has added these three strokes, for some fill
    and some end angle, and a call that raises has left the surface as it
    was. *)
Theorem ring_stroke_order cx cy radius date ctx illum waxing sweep fill w :
  get_illum_waxing date ctx = Ok (illum, waxing) ->
  PyFloat.to_int (PyFloat.mul (PyFloat.of_int 360) illum) = Ok sweep ->
  get_lunar_color fromSolarDate date = Ok fill ->
  let bbox := [cx - radius; cy - radius; cx + radius; cy + radius] in
  draw_moon_ring fromSolarDate cx cy radius date ctx w
  = (Ok tt,
     PIL.mkworld
       (PIL.canvas w
        ++ [PIL.Ellipse bbox fill COLOR_GRAY_BORDER 2;
            PIL.Arc bbox 0 360 COLOR_YELLOW 4;
            PIL.Arc bbox (-90) (if waxing then -90 + sweep else -90 - sweep)
              COLOR_BLACK 4])
       (PIL.files w))
  /\ forall date' ctx',
       match draw_moon_ring fromSolarDate cx cy radius date' ctx' w with
       | (Ok _, w') =>
           exists fill' end_,
             w' = PIL.mkworld
                    (PIL.canvas w
                     ++ [PIL.Ellipse bbox fill' COLOR_GRAY_BORDER 2;
                         PIL.Arc bbox 0 360 COLOR_YELLOW 4;
                         PIL.Arc bbox (-90) end_ COLOR_BLACK 4])
                    (PIL.files w)
       | (Raise _, w') => w' = w
       end.
Proof.
  intros Hi Hs Hc bbox. split.
  - exact (draw_moon_ring_ok fromSolarDate cx cy radius date ctx illum waxing sweep fill w
             Hi Hs Hc).
  - intros date' ctx'.
    destruct (draw_moon_ring_cases fromSolarDate cx cy radius date' ctx' w)
      as [(illum' & waxing' & sweep' & fill' & Hi' & Hs' & Hc') | (e & He & _)].
    + rewrite (draw_moon_ring_ok fromSolarDate cx cy radius date' ctx'
                 illum' waxing' sweep' fill' w Hi' Hs' Hc').
      eexists. eexists. reflexivity.
    + rewrite He. reflexivity.
Qed.

(** C9. If the ephemeris query of any cell of the year's grid raises, the
    whole run raises and writes no file. With the fonts loaded, the error
    the run ends with is the first failure among the cells in drawing
    order; so it is this cell's own error when no cell before it fails. *)
Theorem ephemeris_error_aborts_run tz_offset year w offset tz data date dt e :
  timedelta_hours tz_offset = Ok offset ->
  new_timezone offset = Ok tz ->
  PyCalendar.yeardatescalendar PyCalendar.SUNDAY
    (match year with None => now_year | Some y => y end) 4 = Ok data ->
  In date (grid_cells data) ->
  new_datetime (PyDatetime.year date) (month date) (day date) (Some tz) = Ok dt ->
  get_illum_waxing dt (mkctx ephemeris) = Raise e ->
  exists e' w',
    generate_calendar ephemeris fromSolarDate truetype now_year tz_offset year w
    = (Raise e', w')
    /\ PIL.files w' = PIL.files w
    /\ (fonts_ok truetype ->
        first_raise (map (cell_outcome fromSolarDate truetype tz (mkctx ephemeris))
                       (grid_cells data)) = Raise e')
    /\ (fonts_ok truetype ->
        forall pre post,
          grid_cells data = pre ++ date :: post ->
          (forall d0, In d0 pre ->
                      cell_outcome fromSolarDate truetype tz (mkctx ephemeris) d0 = Ok tt) ->
          e' = e).
Proof.
  intros Hoff Htz Hdata Hin Hdt Hq.
  pose proof (grid_year_range _ _ Hdata) as Hy.
  assert (Hstr : PyInt.str (match year with None => now_year | Some y => y end)
                 = Ok (str (match year with None => now_year | Some y => y end)))
    by (apply PyInt_str_small; lia).
  rewrite (generate_calendar_on_grid ephemeris fromSolarDate truetype now_year
             tz_offset year offset tz _ data w Hoff Htz Hstr Hdata).
  set (w0 := PIL.mkworld [] (PIL.files w)).
  set (title := str (match year with None => now_year | Some y => y end)).
  pose proof (keeps_files_draw_text truetype (WIDTH / 2, PADDING) title FZ_YEAR
                COLOR_BLACK w0) as K1.
  destruct (draw_text truetype (WIDTH / 2, PADDING) title FZ_YEAR COLOR_BLACK w0)
    as [[u|e1] w1] eqn:Htitle; cbn [snd] in K1.
  - pose proof (keeps_files_for_each (enumerate data) _
                  (fun rw => keeps_files_draw_row fromSolarDate truetype tz
                               (mkctx ephemeris) (FZ_MONTH + FZ_WEEK + DGAP_OFFSET) rw)
                  w1) as K2.
    destruct (for_each (enumerate data)
                (draw_row fromSolarDate truetype tz (mkctx ephemeris)
                   (FZ_MONTH + FZ_WEEK + DGAP_OFFSET)) w1)
      as [[[]|e2] w2] eqn:Hloop; cbn [snd] in K2.
    + exfalso.
      destruct (rows_ok_inv ephemeris fromSolarDate truetype tz data w1 w2 Hloop date Hin)
        as (dt' & r & Hdt' & Hr).
      rewrite Hdt in Hdt'. injection Hdt' as <-. rewrite Hq in Hr. discriminate Hr.
    + exists e2, w2. split; [reflexivity|].
      split; [rewrite K2, K1; reflexivity|].
      assert (Hfirst : fonts_ok truetype ->
                first_raise (map (cell_outcome fromSolarDate truetype tz (mkctx ephemeris))
                               (grid_cells data)) = Raise e2).
      { intros Hf.
        pose proof (has_outcome_rows ephemeris fromSolarDate truetype tz data Hf w1) as Ho.
        rewrite Hloop in Ho. cbn [fst] in Ho.
        destruct (first_raise _) as [[]|e'']; [contradiction | congruence]. }
      split; [exact Hfirst|].
      intros Hf pre post Hsplit Hpre. specialize (Hfirst Hf).
      rewrite Hsplit, map_app in Hfirst. cbn [map] in Hfirst.
      assert (Hcell : cell_outcome fromSolarDate truetype tz (mkctx ephemeris) date
                      = Raise e).
      { unfold cell_outcome. rewrite Hdt. cbn [rbind]. rewrite Hq. reflexivity. }
      rewrite Hcell, first_raise_split in Hfirst.
      * congruence.
      * intros r Hr. apply in_map_iff in Hr as (d0 & <- & Hd0). apply Hpre. exact Hd0.
  - exists e1, w1. split; [reflexivity|]. split; [rewrite K1; reflexivity|].
    assert (Hno : fonts_ok truetype -> False).
    { intros Hf.
      pose proof (has_outcome_draw_text_ok truetype (WIDTH / 2, PADDING) title FZ_YEAR
                    COLOR_BLACK Hf ltac:(cbn; auto) w0) as Ho.
      rewrite Htitle in Ho. exact Ho. }
    split; intros Hf; destruct (Hno Hf).
Qed.

(** C10. Two datetimes with the same civil year, month and day get the
    same lunar marker, whatever their time of day and their zone. *)
Theorem lunar_color_depends_on_civil_date (d1 d2 : datetime) :
  year (civil d1) = year (civil d2) ->
  month (civil d1) = month (civil d2) ->
  day (civil d1) = day (civil d2) ->
  get_lunar_color fromSolarDate d1 = get_lunar_color fromSolarDate d2.
Proof.
  intros Hy Hm Hd. unfold get_lunar_color. rewrite Hy, Hm, Hd. reflexivity.
Qed.

End Claims.

(** * The claims on concrete runs *)

(** C1 (counterexample). At the fraction 255/256 the renderer draws a sweep
    of 358 degrees (the arc goes from -90 to -448), while 360 * 255/256 =
    358.59375 and the integer nearest to it is 359: 358 is not a nearest
    integer of the product. *)
Lemma sweep_is_not_rounded :
  let illum := PyFloat.of_dyadic 255 (-8) in
  in_unit illum = true
  /\ (PyFloat.to_Q illum == 255 # 256)%Q
  /\ draw_moon_ring Sample.fromSolarDate 56 33 30 Sample.midnight
       (mkctx (Sample.constant illum)) Sample.blank
     = (Ok tt,
        strokes_after Sample.blank
          [PIL.Ellipse (ring_bbox 56 33 30) None COLOR_GRAY_BORDER 2;
           PIL.Arc (ring_bbox 56 33 30) 0 360 COLOR_YELLOW 4;
           PIL.Arc (ring_bbox 56 33 30) (-90) (-90 - 358) COLOR_BLACK 4])
  /\ nearest_integer (360 * PyFloat.to_Q illum) 359
  /\ ~ nearest_integer (360 * PyFloat.to_Q illum) 358.
Proof.
  cbv zeta. split; [vm_compute; reflexivity|].
  split; [vm_compute; reflexivity|].
  split; [vm_compute; reflexivity|].
  unfold nearest_integer. split.
  - apply Qle_bool_iff. vm_compute. reflexivity.
  - intros H. apply Qle_bool_iff in H. vm_compute in H. discriminate H.
Qed.

(** C1 on a run: the fraction 255/256 on 2026-11-03, not waxing. *)
Lemma sweep_is_truncated_product_witness :
  let illum := PyFloat.of_dyadic 255 (-8) in
  let ctx := mkctx (Sample.constant illum) in
  get_illum_waxing Sample.midnight ctx = Ok (illum, false)
  /\ in_unit illum = true
  /\ get_lunar_color Sample.fromSolarDate Sample.midnight = Ok None
  /\ exists sweep,
      PyFloat.to_int (PyFloat.mul (PyFloat.of_int 360) illum) = Ok sweep
      /\ sweep = Qfloor (PyFloat.to_Q (PyFloat.mul (PyFloat.of_int 360) illum))
      /\ 0 <= sweep <= 360
      /\ draw_moon_ring Sample.fromSolarDate 56 33 30 Sample.midnight ctx Sample.blank
         = (Ok tt,
            strokes_after Sample.blank
              [PIL.Ellipse (ring_bbox 56 33 30) None COLOR_GRAY_BORDER 2;
               PIL.Arc (ring_bbox 56 33 30) 0 360 COLOR_YELLOW 4;
               PIL.Arc (ring_bbox 56 33 30) (-90) (-90 - sweep) COLOR_BLACK 4]).
Proof.
  cbv zeta.
  assert (H1 : get_illum_waxing Sample.midnight
                 (mkctx (Sample.constant (PyFloat.of_dyadic 255 (-8))))
               = Ok (PyFloat.of_dyadic 255 (-8), false)) by (vm_compute; reflexivity).
  assert (H2 : in_unit (PyFloat.of_dyadic 255 (-8)) = true) by (vm_compute; reflexivity).
  assert (H3 : get_lunar_color Sample.fromSolarDate Sample.midnight = Ok None)
    by (vm_compute; reflexivity).
  repeat (split; [assumption|]).
  exact (sweep_is_truncated_product Sample.fromSolarDate 56 33 30 Sample.midnight
           (mkctx (Sample.constant (PyFloat.of_dyadic 255 (-8))))
           (PyFloat.of_dyadic 255 (-8)) false None Sample.blank H1 H2 H3).
Defined.

(** C2 on a run: 2026-11-03 at UTC+7 with the sawtooth ephemeris, 2/16 then
    3/16. *)
Lemma fraction_and_strict_waxing_witness :
  let ctx := mkctx Sample.ephemeris in
  let next := mkdatetime (mkdate 2026 11 4) 0 0 0 0 (Some Sample.utc_plus_7) in
  let t := Skyfield.mkTime (toordinal (mkdate 2026 11 3) * US_PER_DAY
                            - 7 * 3600 * US_PER_SECOND) in
  let tn := Skyfield.mkTime (toordinal (mkdate 2026 11 4) * US_PER_DAY
                             - 7 * 3600 * US_PER_SECOND) in
  let illum := PyFloat.of_dyadic 2 (-4) in
  let illum_next := PyFloat.of_dyadic 3 (-4) in
  Skyfield.from_datetime Sample.midnight = Ok t
  /\ datetime_add Sample.midnight US_PER_DAY = Ok next
  /\ Skyfield.from_datetime next = Ok tn
  /\ fraction_illuminated ctx t = Ok illum
  /\ fraction_illuminated ctx tn = Ok illum_next
  /\ exists waxing,
      get_illum_waxing Sample.midnight ctx = Ok (illum, waxing)
      /\ waxing = PyFloat.gt illum_next illum
      /\ (SFeqb illum_next illum = true -> waxing = false)
      /\ (PyFloat.valid illum = true -> PyFloat.valid illum_next = true ->
          PyFloat.is_finite illum = true -> PyFloat.is_finite illum_next = true ->
          (waxing = true <-> (PyFloat.to_Q illum < PyFloat.to_Q illum_next)%Q)).
Proof.
  cbv zeta.
  assert (H1 : Skyfield.from_datetime Sample.midnight
               = Ok (Skyfield.mkTime (toordinal (mkdate 2026 11 3) * US_PER_DAY
                                      - 7 * 3600 * US_PER_SECOND)))
    by (vm_compute; reflexivity).
  assert (H2 : datetime_add Sample.midnight US_PER_DAY
               = Ok (mkdatetime (mkdate 2026 11 4) 0 0 0 0 (Some Sample.utc_plus_7)))
    by (vm_compute; reflexivity).
  assert (H3 : Skyfield.from_datetime
                 (mkdatetime (mkdate 2026 11 4) 0 0 0 0 (Some Sample.utc_plus_7))
               = Ok (Skyfield.mkTime (toordinal (mkdate 2026 11 4) * US_PER_DAY
                                      - 7 * 3600 * US_PER_SECOND)))
    by (vm_compute; reflexivity).
  assert (H4 : fraction_illuminated (mkctx Sample.ephemeris)
                 (Skyfield.mkTime (toordinal (mkdate 2026 11 3) * US_PER_DAY
                                   - 7 * 3600 * US_PER_SECOND))
               = Ok (PyFloat.of_dyadic 2 (-4))) by (vm_compute; reflexivity).
  assert (H5 : fraction_illuminated (mkctx Sample.ephemeris)
                 (Skyfield.mkTime (toordinal (mkdate 2026 11 4) * US_PER_DAY
                                   - 7 * 3600 * US_PER_SECOND))
               = Ok (PyFloat.of_dyadic 3 (-4))) by (vm_compute; reflexivity).
  repeat (split; [assumption|]).
  exact (fraction_and_strict_waxing Sample.midnight (mkctx Sample.ephemeris) _ _ _ _ _
           H1 H2 H3 H4 H5).
Defined.


(** C4 on a run: the lunar day of 2026-11-03 in the 30-day stand-in. *)
Lemma lunar_marker_witness :
  let lunar := LunarDate.mk 2026 11 (ymd2ord 2026 11 3 mod 30 + 1) false in
  Sample.fromSolarDate (year (civil Sample.midnight)) (month (civil Sample.midnight))
    (day (civil Sample.midnight)) = Ok lunar
  /\ exists marker,
      get_lunar_color Sample.fromSolarDate Sample.midnight = Ok marker
      /\ (marker = Some COLOR_LUNAR_NEW_MOON <-> LunarDate.day lunar = 1)
      /\ (marker = Some COLOR_LUNAR_FULL_MOON <-> LunarDate.day lunar = 15)
      /\ (marker = None <-> LunarDate.day lunar <> 1 /\ LunarDate.day lunar <> 15)
      /\ COLOR_LUNAR_NEW_MOON = PIL.RGB 255 205 210
      /\ COLOR_LUNAR_FULL_MOON = PIL.RGB 187 222 251.
Proof.
  cbv zeta.
  assert (H1 : Sample.fromSolarDate (year (civil Sample.midnight))
                 (month (civil Sample.midnight)) (day (civil Sample.midnight))
               = Ok (LunarDate.mk 2026 11 (ymd2ord 2026 11 3 mod 30 + 1) false))
    by (vm_compute; reflexivity).
  split; [assumption|].
  exact (lunar_marker Sample.fromSolarDate Sample.midnight _ H1).
Defined.

(** C5 on a run: fraction 2/16, waxing, a sweep of 45 degrees. *)
Lemma sweep_arc_direction_witness :
  let ctx := mkctx Sample.ephemeris in
  let illum := PyFloat.of_dyadic 2 (-4) in
  get_illum_waxing Sample.midnight ctx = Ok (illum, true)
  /\ PyFloat.to_int (PyFloat.mul (PyFloat.of_int 360) illum) = Ok 45
  /\ get_lunar_color Sample.fromSolarDate Sample.midnight = Ok None
  /\ exists start end_ w',
      draw_moon_ring Sample.fromSolarDate 56 33 30 Sample.midnight ctx Sample.blank
      = (Ok tt, w')
      /\ last (PIL.canvas w') (PIL.Arc [] 0 0 COLOR_BLACK 0)
         = PIL.Arc (ring_bbox 56 33 30) start end_ COLOR_BLACK 4
      /\ start = -90
      /\ (true = true -> end_ = start + 45)
      /\ (true = false -> end_ = start - 45).
Proof.
  cbv zeta.
  assert (H1 : get_illum_waxing Sample.midnight (mkctx Sample.ephemeris)
               = Ok (PyFloat.of_dyadic 2 (-4), true)) by (vm_compute; reflexivity).
  assert (H2 : PyFloat.to_int (PyFloat.mul (PyFloat.of_int 360) (PyFloat.of_dyadic 2 (-4)))
               = Ok 45) by (vm_compute; reflexivity).
  assert (H3 : get_lunar_color Sample.fromSolarDate Sample.midnight = Ok None)
    by (vm_compute; reflexivity).
  repeat (split; [assumption|]).
  exact (sweep_arc_direction Sample.fromSolarDate 56 33 30 Sample.midnight
           (mkctx Sample.ephemeris) _ true 45 None Sample.blank H1 H2 H3).
Defined.

(** C6 on a run: the fraction 1.0, not waxing. *)
Lemma degenerate_sweeps_witness :
  let illum := PyFloat.of_int 1 in
  let ctx := mkctx (Sample.constant illum) in
  let ring end_ :=
    (Ok tt,
     strokes_after Sample.blank
       [PIL.Ellipse (ring_bbox 56 33 30) None COLOR_GRAY_BORDER 2;
        PIL.Arc (ring_bbox 56 33 30) 0 360 COLOR_YELLOW 4;
        PIL.Arc (ring_bbox 56 33 30) (-90) end_ COLOR_BLACK 4]) in
  get_illum_waxing Sample.midnight ctx = Ok (illum, false)
  /\ get_lunar_color Sample.fromSolarDate Sample.midnight = Ok None
  /\ (SFeqb illum (PyFloat.of_int 0) = true ->
      draw_moon_ring Sample.fromSolarDate 56 33 30 Sample.midnight ctx Sample.blank
      = ring (-90))
  /\ (SFeqb illum (PyFloat.of_int 1) = true ->
      exists end_,
        draw_moon_ring Sample.fromSolarDate 56 33 30 Sample.midnight ctx Sample.blank
        = ring end_
        /\ end_ = -450
        /\ Z.abs (end_ - -90) = 360).
Proof.
  cbv zeta.
  assert (H1 : get_illum_waxing Sample.midnight (mkctx (Sample.constant (PyFloat.of_int 1)))
               = Ok (PyFloat.of_int 1, false)) by (vm_compute; reflexivity).
  assert (H2 : get_lunar_color Sample.fromSolarDate Sample.midnight = Ok None)
    by (vm_compute; reflexivity).
  repeat (split; [assumption|]).
  exact (degenerate_sweeps Sample.fromSolarDate 56 33 30 Sample.midnight
           (mkctx (Sample.constant (PyFloat.of_int 1))) _ false None Sample.blank H1 H2).
Defined.

(** C8 on a run: the ring of the sample midnight, fraction 2/16, waxing. *)
Lemma ring_stroke_order_witness :
  let ctx := mkctx Sample.ephemeris in
  let illum := PyFloat.of_dyadic 2 (-4) in
  let bbox := [56 - 30; 33 - 30; 56 + 30; 33 + 30] in
  get_illum_waxing Sample.midnight ctx = Ok (illum, true)
  /\ PyFloat.to_int (PyFloat.mul (PyFloat.of_int 360) illum) = Ok 45
  /\ get_lunar_color Sample.fromSolarDate Sample.midnight = Ok None
  /\ draw_moon_ring Sample.fromSolarDate 56 33 30 Sample.midnight ctx Sample.blank
     = (Ok tt,
        PIL.mkworld
          (PIL.canvas Sample.blank
           ++ [PIL.Ellipse bbox None COLOR_GRAY_BORDER 2;
               PIL.Arc bbox 0 360 COLOR_YELLOW 4;
               PIL.Arc bbox (-90) (-90 + 45) COLOR_BLACK 4])
          (PIL.files Sample.blank))
  /\ forall date' ctx',
       match draw_moon_ring Sample.fromSolarDate 56 33 30 date' ctx' Sample.blank with
       | (Ok _, w') =>
           exists fill' end_,
             w' = PIL.mkworld
                    (PIL.canvas Sample.blank
                     ++ [PIL.Ellipse bbox fill' COLOR_GRAY_BORDER 2;
                         PIL.Arc bbox 0 360 COLOR_YELLOW 4;
                         PIL.Arc bbox (-90) end_ COLOR_BLACK 4])
                    (PIL.files Sample.blank)
       | (Raise _, w') => w' = Sample.blank
       end.
Proof.
  cbv zeta.
  assert (H1 : get_illum_waxing Sample.midnight (mkctx Sample.ephemeris)
               = Ok (PyFloat.of_dyadic 2 (-4), true)) by (vm_compute; reflexivity).
  assert (H2 : PyFloat.to_int (PyFloat.mul (PyFloat.of_int 360) (PyFloat.of_dyadic 2 (-4)))
               = Ok 45) by (vm_compute; reflexivity).
  assert (H3 : get_lunar_color Sample.fromSolarDate Sample.midnight = Ok None)
    by (vm_compute; reflexivity).
  repeat (split; [assumption|]).
  exact (ring_stroke_order Sample.fromSolarDate 56 33 30 Sample.midnight
           (mkctx Sample.ephemeris) _ true 45 None Sample.blank H1 H2 H3).
Defined.

(** C9 on a run: the year 2053, whose cell of October 8 asks for an instant
    past the end of the ephemeris. *)
Lemma ephemeris_error_aborts_run_witness :
  let date := mkdate 2053 10 8 in
  let dt := mkdatetime date 0 0 0 0 (Some (mktz 0)) in
  In date (grid_cells (Sample.grid 2053))
  /\ get_illum_waxing dt (mkctx Sample.ephemeris) = Raise EphemerisRangeError
  /\ exists e' w',
      generate_calendar Sample.ephemeris Sample.fromSolarDate Sample.truetype 2026
        0 (Some 2053) Sample.blank = (Raise e', w')
      /\ PIL.files w' = PIL.files Sample.blank
      /\ (fonts_ok Sample.truetype ->
          first_raise (map (cell_outcome Sample.fromSolarDate Sample.truetype (mktz 0)
                              (mkctx Sample.ephemeris))
                         (grid_cells (Sample.grid 2053))) = Raise e')
      /\ (fonts_ok Sample.truetype ->
          forall pre post,
            grid_cells (Sample.grid 2053) = pre ++ date :: post ->
            (forall d0, In d0 pre ->
                        cell_outcome Sample.fromSolarDate Sample.truetype (mktz 0)
                          (mkctx Sample.ephemeris) d0 = Ok tt) ->
            e' = EphemerisRangeError).
Proof.
  cbv zeta.
  assert (H1 : timedelta_hours 0 = Ok 0) by (vm_compute; reflexivity).
  assert (H2 : new_timezone 0 = Ok (mktz 0)) by (vm_compute; reflexivity).
  assert (H3 : PyCalendar.yeardatescalendar PyCalendar.SUNDAY 2053 4 = Ok (Sample.grid 2053))
    by (vm_compute; reflexivity).
  assert (H4 : In (mkdate 2053 10 8) (grid_cells (Sample.grid 2053))).
  { vm_compute. repeat (first [left; reflexivity | right]). }
  assert (H5 : new_datetime 2053 10 8 (Some (mktz 0))
               = Ok (mkdatetime (mkdate 2053 10 8) 0 0 0 0 (Some (mktz 0))))
    by (vm_compute; reflexivity).
  assert (H6 : get_illum_waxing (mkdatetime (mkdate 2053 10 8) 0 0 0 0 (Some (mktz 0)))
                 (mkctx Sample.ephemeris) = Raise EphemerisRangeError)
    by (vm_compute; reflexivity).
  repeat (split; [assumption|]).
  exact (ephemeris_error_aborts_run Sample.ephemeris Sample.fromSolarDate Sample.truetype 2026
           0 (Some 2053) Sample.blank 0 (mktz 0) (Sample.grid 2053) (mkdate 2053 10 8)
           _ EphemerisRangeError H1 H2 H3 H4 H5 H6).
Defined.

(** C10 on a run: midnight at UTC+7 and 18:30 UTC of the same civil day. *)
Lemma lunar_color_depends_on_civil_date_witness :
  hour Sample.midnight <> hour Sample.evening
  /\ tzinfo Sample.midnight <> tzinfo Sample.evening
  /\ get_lunar_color Sample.fromSolarDate Sample.midnight
     = get_lunar_color Sample.fromSolarDate Sample.evening.
Proof.
  split; [discriminate|]. split; [discriminate|].
  exact (lunar_color_depends_on_civil_date Sample.fromSolarDate Sample.midnight
           Sample.evening eq_refl eq_refl eq_refl).
Defined.

(** * Further properties *)

Section FurtherProperties.
Variable ephemeris : Skyfield.Time -> result PyFloat.float64.
Variable fromSolarDate : Z -> Z -> Z -> result LunarDate.t.
Variable truetype : string -> Z -> result PIL.font.
Variable now_year : Z.


(** X2. A year outside 2..9998 has no grid: the month grids of the years 1
    and 9999 would need days of the years 0 and 10000. The run raises and
    writes no file. While the year has a decimal form of at most 4300
    digits, the year title is the one thing drawn on the new image, and the
    error is [ValueError] from [date] for the years that are C [int]s (and
    for the one after them, whose January starts in the year before), and
    [OverflowError] for the others. Beyond 4300 digits [str(year)] itself
    raises [ValueError], and the new image is left empty. *)
Theorem year_out_of_range_aborts tz_offset year f w :
  let y := match year with None => now_year | Some y => y end in
  -24 < tz_offset < 24 ->
  truetype FONT_NAME FZ_YEAR = Ok f ->
  ~ (1 < y < 9999) ->
  exists e w',
    generate_calendar ephemeris fromSolarDate truetype now_year tz_offset year w
    = (Raise e, w')
    /\ PIL.files w' = PIL.files w
    /\ (Z.abs y < 10 ^ PyInt.MAX_STR_DIGITS ->
        PIL.canvas w' = [PIL.Text (WIDTH / 2, PADDING) (str y) f COLOR_BLACK "mt"]
        /\ (C_INT_MIN < y <= C_INT_MAX + 1 -> e = ValueError)
        /\ (y <= C_INT_MIN \/ C_INT_MAX + 1 < y -> e = OverflowError))
    /\ (10 ^ PyInt.MAX_STR_DIGITS <= Z.abs y ->
        e = ValueError /\ PIL.canvas w' = []).
Proof.
  intros y Htz Hf Hy. destruct (timezone_of_hours tz_offset Htz) as [Hoff Hz].
  destruct (Z.ltb_spec (Z.abs y) (10 ^ PyInt.MAX_STR_DIGITS)) as [Hlt | Hge].
  - assert (Hstr : PyInt.str y = Ok (str y)).
    { unfold PyInt.str. apply Z.ltb_lt in Hlt. rewrite Hlt. reflexivity. }
    destruct (year_grid_fails y Hy) as (e & He & _ & Hv & Ho).
    exists e, (PIL.mkworld [PIL.Text (WIDTH / 2, PADDING) (str y) f COLOR_BLACK "mt"]
                 (PIL.files w)).
    split; [|split; [reflexivity|split]].
    + unfold generate_calendar, bind, lift, new_image. rewrite Hoff, Hz. fold y.
      rewrite Hstr. unfold draw_text, draw, bind, lift. rewrite Hf.
      cbn [PIL.canvas PIL.files app]. rewrite He. reflexivity.
    + intros _. split; [reflexivity|]. split; assumption.
    + intros Hge. exfalso. apply (Z.lt_irrefl (Z.abs y)).
      eapply Z.lt_le_trans; eassumption.
  - assert (Hstr : PyInt.str y = Raise ValueError).
    { unfold PyInt.str. apply Z.ltb_ge in Hge. rewrite Hge. reflexivity. }
    exists ValueError, (PIL.mkworld [] (PIL.files w)).
    split; [|split; [reflexivity|split]].
    + unfold generate_calendar, bind, lift, new_image. rewrite Hoff, Hz. fold y.
      rewrite Hstr. reflexivity.
    + intros Hlt. exfalso. apply (Z.lt_irrefl (Z.abs y)).
      eapply Z.lt_le_trans; eassumption.
    + intros _. split; reflexivity.
Qed.

(** X3. A run that returns has written [calendar.png]: the file holds the
    whole image as it stands at the end of the run, in the place of
    whatever a file of that name held before, and every other file is as it
    was. The disk took the file: a run does not return when it does not. *)
Theorem finished_run_saves_the_image tz_offset year w w' :
  generate_calendar ephemeris fromSolarDate truetype now_year tz_offset year w
  = (Ok tt, w') ->
  PIL.read "calendar.png" (PIL.files w') = Some (PIL.Picture (PIL.canvas w'))
  /\ (forall name, name <> "calendar.png"%string ->
                   PIL.read name (PIL.files w') = PIL.read name (PIL.files w))
  /\ PIL.files w'
     = PIL.store "calendar.png" (PIL.Picture (PIL.canvas w')) (PIL.files w)
  /\ PIL.answer (PIL.files w) "calendar.png" = PIL.Written.
Proof.
  intros H.
  destruct (generate_calendar_ok_steps _ _ _ _ _ _ _ _ H)
    as (offset & tz & title & data & w1 & w2
        & _ & _ & _ & _ & _ & _ & Hfiles & Hsave).
  apply save_ok_inv in Hsave as (Hanswer & Hcanvas & Hstore).
  rewrite Hfiles in Hanswer, Hstore. rewrite <- Hcanvas in Hstore.
  rewrite Hstore. split; [apply read_store_same|]. split; [|split].
  - intros name Hname. apply read_store_other. exact Hname.
  - reflexivity.
  - exact Hanswer.
Qed.

(** X4. With the fonts loaded, a run returns exactly when the offset is
    less than 24 hours either way, the year is one of 2..9998, the ring of
    every day of the year can be computed (both instants of the day exist
    and the ephemeris covers them, the sweep converts to an integer, and the
    lunar calendar knows the date), and the disk takes [calendar.png]. *)
Theorem run_returns_iff tz_offset year w :
  fonts_ok truetype ->
  let y := match year with None => now_year | Some y => y end in
  let tz := mktz (tz_offset * 3600 * US_PER_SECOND) in
  (exists w',
     generate_calendar ephemeris fromSolarDate truetype now_year tz_offset year w
     = (Ok tt, w'))
  <-> (-24 < tz_offset < 24
       /\ 1 < y < 9999
       /\ (forall d, In d (days_of_year y) ->
                     exists p, day_ring fromSolarDate tz (mkctx ephemeris) d = Ok p)
       /\ PIL.answer (PIL.files w) "calendar.png" = PIL.Written).
Proof.
  intros Hfonts y tz. split.
  - intros [w' H].
    destruct (finished_run_inv _ _ _ _ _ _ _ _ H) as (Htz & Hy & data & Hdata & Hcells).
    fold y in Hy, Hdata, Hcells.
    split; [exact Htz|]. split; [exact Hy|].
    destruct (timezone_of_hours tz_offset Htz) as [Hoff Hz]. fold tz in Hz.
    split.
    + rewrite <- Hcells. eapply generate_calendar_ok_rings; eassumption.
    + destruct (generate_calendar_ok_steps _ _ _ _ _ _ _ _ H)
        as (offset' & tz' & title & data' & w1 & w2
            & _ & _ & _ & _ & _ & _ & Hfiles & Hsave).
      apply save_ok_inv in Hsave as (Hanswer & _). rewrite Hfiles in Hanswer.
      exact Hanswer.
  - intros (Htz & Hy & Hall & Hdisk).
    destruct (timezone_of_hours tz_offset Htz) as [Hoff Hz]. fold tz in Hz.
    destruct (year_grid y Hy) as (data & Hdata & Hcells).
    assert (Hstr : PyInt.str y = Ok (str y)) by (apply PyInt_str_small; lia).
    rewrite (generate_calendar_on_grid ephemeris fromSolarDate truetype now_year
               tz_offset year _ tz _ data w Hoff Hz Hstr Hdata).
    set (w0 := PIL.mkworld [] (PIL.files w)).
    pose proof (has_outcome_draw_text_ok truetype (WIDTH / 2, PADDING) (str y) FZ_YEAR
                  COLOR_BLACK Hfonts ltac:(cbn; auto) w0) as Ho1.
    pose proof (keeps_files_draw_text truetype (WIDTH / 2, PADDING) (str y) FZ_YEAR
                  COLOR_BLACK w0) as K1.
    destruct (draw_text truetype (WIDTH / 2, PADDING) (str y) FZ_YEAR COLOR_BLACK w0)
      as [[u1|e1] w1]; cbn [fst snd] in Ho1, K1; [|contradiction].
    pose proof (has_outcome_rows ephemeris fromSolarDate truetype tz data Hfonts w1) as Ho2.
    pose proof (keeps_files_for_each (enumerate data) _
                  (fun rw => keeps_files_draw_row fromSolarDate truetype tz
                               (mkctx ephemeris) (FZ_MONTH + FZ_WEEK + DGAP_OFFSET) rw)
                  w1) as K2.
    rewrite Hcells, first_raise_all_ok in Ho2.
    + destruct (for_each (enumerate data)
                  (draw_row fromSolarDate truetype tz (mkctx ephemeris)
                     (FZ_MONTH + FZ_WEEK + DGAP_OFFSET)) w1)
        as [[u2|e2] w2]; cbn [fst snd] in Ho2, K2; [|contradiction].
      unfold save. rewrite K2, K1. subst w0. cbn [PIL.files]. rewrite Hdisk. eauto.
    + intros r Hr. apply in_map_iff in Hr as (d & <- & Hd).
      apply cell_outcome_day_ring; [apply Hfonts; cbn; auto | apply Hall; exact Hd].
Qed.

(** X5. One ring for every day of the year, from the first of January to
    the last of December: a run that returns has drawn, in this order and
    for each day in turn, the disk with the day's lunar fill, the yellow
    outline and the black sweep to the day's end angle. It has drawn no
    other disk or arc: the days of the neighbouring months that fill the
    first and the last week of a month grid get no ring. *)
Theorem one_ring_per_day_of_the_year tz_offset year w w' :
  generate_calendar ephemeris fromSolarDate truetype now_year tz_offset year w
  = (Ok tt, w') ->
  let y := match year with None => now_year | Some y => y end in
  let tz := mktz (tz_offset * 3600 * US_PER_SECOND) in
  exists rings,
    Forall2 (fun d p => day_ring fromSolarDate tz (mkctx ephemeris) d = Ok p)
      (days_of_year y) rings
    /\ ring_view w' = flat_map ring_parts rings.
Proof. apply finished_run_rings. Qed.

(** X6. The page of a run that returns holds 365 disks, and 366 for a leap
    year. *)
Theorem disk_count_is_year_length tz_offset year w w' :
  generate_calendar ephemeris fromSolarDate truetype now_year tz_offset year w
  = (Ok tt, w') ->
  let y := match year with None => now_year | Some y => y end in
  Z.of_nat (List.length (disks w')) = (if is_leap y then 366 else 365).
Proof.
  intros H y.
  destruct (finished_run_rings _ _ _ _ _ _ _ _ H) as (rings & HF & Hview).
  destruct (finished_run_inv _ _ _ _ _ _ _ _ H) as (_ & Hy & _). fold y in HF, Hy.
  rewrite disks_ring_view, Hview, disks_of_rings, length_map.
  rewrite <- (Forall2_length HF). apply length_days_of_year. lia.
Qed.

(** X7. On the page of a run that returns, the shaded cells and the day
    numbers that are not black are those of the weekends: every Sunday of
    the year has a shaded cell and a red day number, every Saturday a shaded
    cell and a blue one, in date order, and no other day has either. *)
Theorem weekends_are_marked tz_offset year w w' :
  generate_calendar ephemeris fromSolarDate truetype now_year tz_offset year w
  = (Ok tt, w') ->
  let y := match year with None => now_year | Some y => y end in
  view weekend_marks_of w' = flat_map weekend_marks (days_of_year y).
Proof. apply finished_run_marks. Qed.

(** X8. Nothing is drawn off the page: on the page of a run that returns,
    the box of every rectangle, line, disk and arc, and the anchor of every
    text, lie within the 3508 by 2480 image. *)
Theorem nothing_off_the_page tz_offset year w w' :
  generate_calendar ephemeris fromSolarDate truetype now_year tz_offset year w
  = (Ok tt, w') ->
  forallb on_page (PIL.canvas w') = true.
Proof.
  intros H. apply view_off_page.
  exact (on_page_generate_calendar _ _ _ _ _ _ _ _ H).
Qed.

(** X9. The cells that pass the month filter of a year's grid are the days
    from the first of January of the year up to the first of January of the
    next, each once, in the order of their day numbers: 365 days, or 366. *)
Theorem grid_cells_are_consecutive_days y :
  1 < y < 9999 ->
  exists data,
    PyCalendar.yeardatescalendar PyCalendar.SUNDAY y 4 = Ok data
    /\ grid_cells data
       = map fromordinal (zrange (ymd2ord y 1 1) (ymd2ord (y + 1) 1 1))
    /\ ymd2ord (y + 1) 1 1 - ymd2ord y 1 1 = (if is_leap y then 366 else 365).
Proof.
  intros Hy. destruct (year_grid y Hy) as (data & Hdata & Hcells).
  exists data. split; [exact Hdata|]. split.
  - rewrite Hcells. apply days_of_year_ordinals. lia.
  - rewrite year_length. destruct (is_leap y); lia.
Qed.

(** X10. The waxing flag of a day compares the fraction shown for the
    following day with the fraction shown for the day itself. *)
Theorem waxing_compares_with_next_cell ctx (d : date) (tz_offset : Z) (offset : timedelta)
    (tz : timezone) illum waxing illum' waxing' :
  valid_date d = true ->
  1 < year d < 9999 ->
  timedelta_hours tz_offset = Ok offset ->
  new_timezone offset = Ok tz ->
  get_illum_waxing (mkdatetime d 0 0 0 0 (Some tz)) ctx = Ok (illum, waxing) ->
  get_illum_waxing (mkdatetime (tomorrow d) 0 0 0 0 (Some tz)) ctx = Ok (illum', waxing') ->
  waxing = PyFloat.gt illum' illum.
Proof.
  intros Hv Hy Hoff Htz H0 H1.
  destruct (midnight_sampling ctx d tz_offset offset tz Hv Hy Hoff Htz)
    as (dt & next & _ & -> & _ & -> & _ & Ht0 & Ht1 & Hg).
  rewrite fromordinal_succ in Ht1 by assumption.
  pose proof (get_illum_waxing_first _ _ _ _ _ Ht1 H1) as Hq1.
  rewrite H0 in Hg. rewrite Hq1 in Hg.
  destruct (fraction_illuminated ctx _) as [i0|e]; cbn [rbind] in Hg; [|discriminate].
  injection Hg as -> ->. reflexivity.
Qed.

(** X11. The second instant of a day's cell is the first instant of the
    cell of the following civil day: [date + timedelta(days=1)] is the
    datetime the calendar builds for the day after in the month, else for
    the first of the next month, else for the first of January. *)
Theorem second_instant_is_next_cell (d : date) (tz_offset : Z) (offset : timedelta)
    (tz : timezone) :
  valid_date d = true ->
  1 < year d < 9999 ->
  timedelta_hours tz_offset = Ok offset ->
  new_timezone offset = Ok tz ->
  let n := tomorrow d in
  datetime_add (mkdatetime d 0 0 0 0 (Some tz)) US_PER_DAY
  = new_datetime (year n) (month n) (day n) (Some tz)
  /\ new_datetime (year n) (month n) (day n) (Some tz)
     = Ok (mkdatetime n 0 0 0 0 (Some tz))
  /\ toordinal n = toordinal d + 1.
Proof.
  intros Hv Hy Hoff Htz n.
  destruct (midnight_sampling (mkctx (fun _ => Raise ValueError)) d tz_offset offset tz
              Hv Hy Hoff Htz)
    as (dt & next & _ & -> & Hadd & -> & _).
  rewrite fromordinal_succ in Hadd by assumption. fold n in Hadd.
  assert (Hn : new_datetime (year n) (month n) (day n) (Some tz)
               = Ok (mkdatetime n 0 0 0 0 (Some tz))).
  { unfold new_datetime.
    pose proof (valid_date_tomorrow d Hv ltac:(lia)) as Hvn. fold n in Hvn.
    unfold valid_date in Hvn. rewrite (new_date_valid _ _ _ Hvn).
    destruct n; reflexivity. }
  split; [rewrite Hn; exact Hadd|]. split; [exact Hn|].
  apply toordinal_tomorrow. exact Hv.
Qed.

(** X12. A fraction that is not a finite number stops the ring before any
    stroke: [int] raises [ValueError] on a NaN and [OverflowError] on an
    infinity, and the surface is left as it was. *)
Theorem non_finite_fraction_draws_nothing cx cy radius date ctx illum waxing w :
  get_illum_waxing date ctx = Ok (illum, waxing) ->
  PyFloat.is_finite illum = false ->
  draw_moon_ring fromSolarDate cx cy radius date ctx w
  = (Raise (match illum with S754_nan => ValueError | _ => OverflowError end), w).
Proof.
  intros Hi Hf. unfold draw_moon_ring, bind, lift. rewrite Hi.
  rewrite (non_finite_to_int illum Hf). reflexivity.
Qed.

(** X13. What the page of a run that returns reads, in drawing order: the
    year; then for each month from January to December the English name of
    the month, the letters S M T W T F S, and the numbers from 1 to the
    number of days of the month. *)
Theorem page_reads tz_offset year w w' :
  generate_calendar ephemeris fromSolarDate truetype now_year tz_offset year w
  = (Ok tt, w') ->
  let y := match year with None => now_year | Some y => y end in
  view texts_of w' = page_texts y.
Proof. apply finished_run_texts. Qed.

(** X14. The file is written at the very end. A run that raises leaves
    every file as it was, with one exception: when the run got as far as
    the file and the disk gave up in the middle of the write ([OSError]), a
    [calendar.png] that was there before is left cut short. In no case does
    a run that raises leave a picture it has drawn, or touch another
    file. *)
Theorem failed_run_saves_no_picture tz_offset year w e w' :
  generate_calendar ephemeris fromSolarDate truetype now_year tz_offset year w
  = (Raise e, w') ->
  (PIL.files w' = PIL.files w
   \/ (e = OSError
       /\ PIL.answer (PIL.files w) "calendar.png" = PIL.Interrupted
       /\ PIL.read "calendar.png" (PIL.files w) <> None
       /\ PIL.files w' = PIL.store "calendar.png" PIL.Truncated (PIL.files w)))
  /\ (forall name, name <> "calendar.png"%string ->
                   PIL.read name (PIL.files w') = PIL.read name (PIL.files w))
  /\ (forall strokes,
        PIL.read "calendar.png" (PIL.files w') = Some (PIL.Picture strokes) ->
        PIL.read "calendar.png" (PIL.files w) = Some (PIL.Picture strokes)).
Proof.
  intros H.
  assert (Hcases : PIL.files w' = PIL.files w
                   \/ (e = OSError
                       /\ PIL.answer (PIL.files w) "calendar.png" = PIL.Interrupted
                       /\ PIL.read "calendar.png" (PIL.files w) <> None
                       /\ PIL.files w'
                          = PIL.store "calendar.png" PIL.Truncated (PIL.files w))).
  { destruct (generate_calendar_raise_steps _ _ _ _ _ _ _ _ _ H)
      as [Hkept | (w2 & Hfiles & Hsave)]; [left; exact Hkept|].
    apply save_raise_inv in Hsave as (He & _ & [[_ Hkept] | [Hanswer Hcut]]).
    - left. rewrite Hkept. exact Hfiles.
    - rewrite Hfiles in Hanswer, Hcut.
      destruct (PIL.read "calendar.png" (PIL.files w)) as [old|] eqn:Hold.
      + right. repeat split; [exact He | exact Hanswer | discriminate | exact Hcut].
      + left. exact Hcut. }
  split; [exact Hcases|].
  destruct Hcases as [-> | (_ & _ & _ & ->)].
  - split; [reflexivity | auto].
  - split.
    + intros name Hname. apply read_store_other. exact Hname.
    + intros strokes Hread. rewrite read_store_same in Hread. discriminate Hread.
Qed.

End FurtherProperties.

(** * The further properties on concrete runs *)


(** X2 on a run: the year 9999. *)
Lemma year_out_of_range_aborts_witness :
  -24 < 7 < 24
  /\ Sample.truetype FONT_NAME FZ_YEAR = Ok (PIL.mkfont FONT_NAME FZ_YEAR)
  /\ ~ (1 < 9999 < 9999)
  /\ exists e w',
      generate_calendar Sample.ephemeris Sample.fromSolarDate Sample.truetype 2026
        7 (Some 9999) Sample.blank = (Raise e, w')
      /\ PIL.files w' = PIL.files Sample.blank
      /\ (Z.abs 9999 < 10 ^ PyInt.MAX_STR_DIGITS ->
          PIL.canvas w'
          = [PIL.Text (WIDTH / 2, PADDING) (str 9999) (PIL.mkfont FONT_NAME FZ_YEAR)
               COLOR_BLACK "mt"]
          /\ (C_INT_MIN < 9999 <= C_INT_MAX + 1 -> e = ValueError)
          /\ (9999 <= C_INT_MIN \/ C_INT_MAX + 1 < 9999 -> e = OverflowError))
      /\ (10 ^ PyInt.MAX_STR_DIGITS <= Z.abs 9999 ->
          e = ValueError /\ PIL.canvas w' = []).
Proof.
  assert (H1 : -24 < 7 < 24) by lia.
  assert (H2 : Sample.truetype FONT_NAME FZ_YEAR = Ok (PIL.mkfont FONT_NAME FZ_YEAR))
    by reflexivity.
  assert (H3 : ~ (1 < 9999 < 9999)) by lia.
  repeat (split; [assumption|]).
  exact (year_out_of_range_aborts Sample.ephemeris Sample.fromSolarDate Sample.truetype
           2026 7 (Some 9999) _ Sample.blank H1 H2 H3).
Defined.

(** X3 on a run: the year 2026 at UTC+7. *)
Lemma finished_run_saves_the_image_witness :
  generate_calendar Sample.ephemeris Sample.fromSolarDate Sample.truetype 2026 7 None
    Sample.blank = (Ok tt, SampleRun.page_2026)
  /\ PIL.read "calendar.png" (PIL.files SampleRun.page_2026)
     = Some (PIL.Picture (PIL.canvas SampleRun.page_2026))
  /\ (forall name, name <> "calendar.png"%string ->
                   PIL.read name (PIL.files SampleRun.page_2026)
                   = PIL.read name (PIL.files Sample.blank))
  /\ PIL.files SampleRun.page_2026
     = PIL.store "calendar.png" (PIL.Picture (PIL.canvas SampleRun.page_2026))
         (PIL.files Sample.blank)
  /\ PIL.answer (PIL.files Sample.blank) "calendar.png" = PIL.Written.
Proof.
  assert (H : generate_calendar Sample.ephemeris Sample.fromSolarDate Sample.truetype
                2026 7 None Sample.blank = (Ok tt, SampleRun.page_2026))
    by (vm_compute; reflexivity).
  split; [exact H|].
  exact (finished_run_saves_the_image Sample.ephemeris Sample.fromSolarDate Sample.truetype
           2026 7 None Sample.blank SampleRun.page_2026 H).
Defined.

(** X4 on a run: the stand-in fonts always load. *)
Lemma run_returns_iff_witness :
  fonts_ok Sample.truetype
  /\ ((exists w',
         generate_calendar Sample.ephemeris Sample.fromSolarDate Sample.truetype 2026 7 None
           Sample.blank = (Ok tt, w'))
      <-> (-24 < 7 < 24
           /\ 1 < 2026 < 9999
           /\ (forall d, In d (days_of_year 2026) ->
                         exists p, day_ring Sample.fromSolarDate
                                     (mktz (7 * 3600 * US_PER_SECOND))
                                     (mkctx Sample.ephemeris) d = Ok p)
           /\ PIL.answer (PIL.files Sample.blank) "calendar.png" = PIL.Written)).
Proof.
  assert (H : fonts_ok Sample.truetype).
  { intros size _. exists (PIL.mkfont FONT_NAME size). reflexivity. }
  split; [exact H|].
  exact (run_returns_iff Sample.ephemeris Sample.fromSolarDate Sample.truetype 2026 7 None
           Sample.blank H).
Defined.

(** X5 on a run: the rings of 2026. *)
Lemma one_ring_per_day_of_the_year_witness :
  generate_calendar Sample.ephemeris Sample.fromSolarDate Sample.truetype 2026 7 None
    Sample.blank = (Ok tt, SampleRun.page_2026)
  /\ exists rings,
      Forall2 (fun d p => day_ring Sample.fromSolarDate (mktz (7 * 3600 * US_PER_SECOND))
                            (mkctx Sample.ephemeris) d = Ok p)
        (days_of_year 2026) rings
      /\ ring_view SampleRun.page_2026 = flat_map ring_parts rings.
Proof.
  assert (H : generate_calendar Sample.ephemeris Sample.fromSolarDate Sample.truetype
                2026 7 None Sample.blank = (Ok tt, SampleRun.page_2026))
    by (vm_compute; reflexivity).
  split; [exact H|].
  exact (one_ring_per_day_of_the_year Sample.ephemeris Sample.fromSolarDate Sample.truetype
           2026 7 None Sample.blank SampleRun.page_2026 H).
Defined.

(** X6 on a run: 2026 is not a leap year. *)
Lemma disk_count_is_year_length_witness :
  generate_calendar Sample.ephemeris Sample.fromSolarDate Sample.truetype 2026 7 None
    Sample.blank = (Ok tt, SampleRun.page_2026)
  /\ Z.of_nat (List.length (disks SampleRun.page_2026))
     = (if is_leap 2026 then 366 else 365).
Proof.
  assert (H : generate_calendar Sample.ephemeris Sample.fromSolarDate Sample.truetype
                2026 7 None Sample.blank = (Ok tt, SampleRun.page_2026))
    by (vm_compute; reflexivity).
  split; [exact H|].
  exact (disk_count_is_year_length Sample.ephemeris Sample.fromSolarDate Sample.truetype
           2026 7 None Sample.blank SampleRun.page_2026 H).
Defined.

(** X7 on a run: the weekends of 2026. *)
Lemma weekends_are_marked_witness :
  generate_calendar Sample.ephemeris Sample.fromSolarDate Sample.truetype 2026 7 None
    Sample.blank = (Ok tt, SampleRun.page_2026)
  /\ view weekend_marks_of SampleRun.page_2026
     = flat_map weekend_marks (days_of_year 2026).
Proof.
  assert (H : generate_calendar Sample.ephemeris Sample.fromSolarDate Sample.truetype
                2026 7 None Sample.blank = (Ok tt, SampleRun.page_2026))
    by (vm_compute; reflexivity).
  split; [exact H|].
  exact (weekends_are_marked Sample.ephemeris Sample.fromSolarDate Sample.truetype
           2026 7 None Sample.blank SampleRun.page_2026 H).
Defined.

(** X8 on a run: the page of 2026. *)
Lemma nothing_off_the_page_witness :
  generate_calendar Sample.ephemeris Sample.fromSolarDate Sample.truetype 2026 7 None
    Sample.blank = (Ok tt, SampleRun.page_2026)
  /\ forallb on_page (PIL.canvas SampleRun.page_2026) = true.
Proof.
  assert (H : generate_calendar Sample.ephemeris Sample.fromSolarDate Sample.truetype
                2026 7 None Sample.blank = (Ok tt, SampleRun.page_2026))
    by (vm_compute; reflexivity).
  split; [exact H|].
  exact (nothing_off_the_page Sample.ephemeris Sample.fromSolarDate Sample.truetype
           2026 7 None Sample.blank SampleRun.page_2026 H).
Defined.

(** X9 on a run: the grid of 2026. *)
Lemma grid_cells_are_consecutive_days_witness :
  1 < 2026 < 9999
  /\ exists data,
      PyCalendar.yeardatescalendar PyCalendar.SUNDAY 2026 4 = Ok data
      /\ grid_cells data
         = map fromordinal (zrange (ymd2ord 2026 1 1) (ymd2ord (2026 + 1) 1 1))
      /\ ymd2ord (2026 + 1) 1 1 - ymd2ord 2026 1 1 = (if is_leap 2026 then 366 else 365).
Proof.
  assert (H : 1 < 2026 < 9999) by lia.
  split; [exact H|].
  exact (grid_cells_are_consecutive_days 2026 H).
Defined.

(** X10 on a run: 2026-11-03 and 2026-11-04 at UTC+7, fractions 2/16 and
    3/16. *)
Lemma waxing_compares_with_next_cell_witness :
  let d := mkdate 2026 11 3 in
  let ctx := mkctx Sample.ephemeris in
  valid_date d = true
  /\ 1 < year d < 9999
  /\ timedelta_hours 7 = Ok (utcoffset Sample.utc_plus_7)
  /\ new_timezone (utcoffset Sample.utc_plus_7) = Ok Sample.utc_plus_7
  /\ get_illum_waxing (mkdatetime d 0 0 0 0 (Some Sample.utc_plus_7)) ctx
     = Ok (PyFloat.of_dyadic 2 (-4), true)
  /\ get_illum_waxing (mkdatetime (tomorrow d) 0 0 0 0 (Some Sample.utc_plus_7)) ctx
     = Ok (PyFloat.of_dyadic 3 (-4), true)
  /\ true = PyFloat.gt (PyFloat.of_dyadic 3 (-4)) (PyFloat.of_dyadic 2 (-4)).
Proof.
  cbv zeta.
  assert (H1 : valid_date (mkdate 2026 11 3) = true) by (vm_compute; reflexivity).
  assert (H2 : 1 < year (mkdate 2026 11 3) < 9999) by (split; reflexivity).
  assert (H3 : timedelta_hours 7 = Ok (utcoffset Sample.utc_plus_7))
    by (vm_compute; reflexivity).
  assert (H4 : new_timezone (utcoffset Sample.utc_plus_7) = Ok Sample.utc_plus_7)
    by (vm_compute; reflexivity).
  assert (H5 : get_illum_waxing
                 (mkdatetime (mkdate 2026 11 3) 0 0 0 0 (Some Sample.utc_plus_7))
                 (mkctx Sample.ephemeris)
               = Ok (PyFloat.of_dyadic 2 (-4), true)) by (vm_compute; reflexivity).
  assert (H6 : get_illum_waxing
                 (mkdatetime (tomorrow (mkdate 2026 11 3)) 0 0 0 0 (Some Sample.utc_plus_7))
                 (mkctx Sample.ephemeris)
               = Ok (PyFloat.of_dyadic 3 (-4), true)) by (vm_compute; reflexivity).
  repeat (split; [assumption|]).
  exact (waxing_compares_with_next_cell (mkctx Sample.ephemeris) (mkdate 2026 11 3) 7
           (utcoffset Sample.utc_plus_7) Sample.utc_plus_7 _ _ _ _ H1 H2 H3 H4 H5 H6).
Defined.

(** X11 on a run: the day after 2026-12-31 at UTC+7. *)
Lemma second_instant_is_next_cell_witness :
  let d := mkdate 2026 12 31 in
  let n := tomorrow d in
  valid_date d = true
  /\ 1 < year d < 9999
  /\ timedelta_hours 7 = Ok (utcoffset Sample.utc_plus_7)
  /\ new_timezone (utcoffset Sample.utc_plus_7) = Ok Sample.utc_plus_7
  /\ datetime_add (mkdatetime d 0 0 0 0 (Some Sample.utc_plus_7)) US_PER_DAY
     = new_datetime (year n) (month n) (day n) (Some Sample.utc_plus_7)
  /\ new_datetime (year n) (month n) (day n) (Some Sample.utc_plus_7)
     = Ok (mkdatetime n 0 0 0 0 (Some Sample.utc_plus_7))
  /\ toordinal n = toordinal d + 1.
Proof.
  cbv zeta.
  assert (H1 : valid_date (mkdate 2026 12 31) = true) by (vm_compute; reflexivity).
  assert (H2 : 1 < year (mkdate 2026 12 31) < 9999) by (split; reflexivity).
  assert (H3 : timedelta_hours 7 = Ok (utcoffset Sample.utc_plus_7))
    by (vm_compute; reflexivity).
  assert (H4 : new_timezone (utcoffset Sample.utc_plus_7) = Ok Sample.utc_plus_7)
    by (vm_compute; reflexivity).
  repeat (split; [assumption|]).
  exact (second_instant_is_next_cell (mkdate 2026 12 31) 7
           (utcoffset Sample.utc_plus_7) Sample.utc_plus_7 H1 H2 H3 H4).
Defined.

(** X12 on a run: an ephemeris that answers NaN. *)
Lemma non_finite_fraction_draws_nothing_witness :
  let ctx := mkctx (Sample.constant S754_nan) in
  get_illum_waxing Sample.midnight ctx = Ok (S754_nan, false)
  /\ PyFloat.is_finite S754_nan = false
  /\ draw_moon_ring Sample.fromSolarDate 56 33 30 Sample.midnight ctx Sample.blank
     = (Raise ValueError, Sample.blank).
Proof.
  cbv zeta.
  assert (H1 : get_illum_waxing Sample.midnight (mkctx (Sample.constant S754_nan))
               = Ok (S754_nan, false)) by (vm_compute; reflexivity).
  assert (H2 : PyFloat.is_finite S754_nan = false) by reflexivity.
  repeat (split; [assumption|]).
  exact (non_finite_fraction_draws_nothing Sample.fromSolarDate 56 33 30 Sample.midnight
           (mkctx (Sample.constant S754_nan)) S754_nan false Sample.blank H1 H2).
Defined.

(** X13 on a run: the page of 2026. *)
Lemma page_reads_witness :
  generate_calendar Sample.ephemeris Sample.fromSolarDate Sample.truetype 2026 7 None
    Sample.blank = (Ok tt, SampleRun.page_2026)
  /\ view texts_of SampleRun.page_2026 = page_texts 2026.
Proof.
  assert (H : generate_calendar Sample.ephemeris Sample.fromSolarDate Sample.truetype
                2026 7 None Sample.blank = (Ok tt, SampleRun.page_2026))
    by (vm_compute; reflexivity).
  split; [exact H|].
  exact (page_reads Sample.ephemeris Sample.fromSolarDate Sample.truetype
           2026 7 None Sample.blank SampleRun.page_2026 H).
Defined.

(** X14 on two runs: the year 2053, which the stand-in ephemeris does not
    cover to its end; and the year 2026 on a disk that gives up while an
    earlier [calendar.png] is being replaced. *)
Lemma failed_run_saves_no_picture_witness :
  generate_calendar Sample.ephemeris Sample.fromSolarDate Sample.truetype 2026 0
    (Some 2053) Sample.blank = (Raise EphemerisRangeError, SampleRun.page_2053)
  /\ PIL.files SampleRun.page_2053 = PIL.files Sample.blank
  /\ generate_calendar Sample.ephemeris Sample.fromSolarDate Sample.truetype 2026 7
       None Sample.full_disk
     = (Raise OSError,
        PIL.mkworld (PIL.canvas SampleRun.page_2026)
          (PIL.store "calendar.png" PIL.Truncated (PIL.files Sample.full_disk)))
  /\ PIL.read "calendar.png" (PIL.files Sample.full_disk) = Some (PIL.Picture [])
  /\ (forall name, name <> "calendar.png"%string ->
                   PIL.read name
                     (PIL.store "calendar.png" PIL.Truncated (PIL.files Sample.full_disk))
                   = PIL.read name (PIL.files Sample.full_disk)).
Proof.
  assert (H : generate_calendar Sample.ephemeris Sample.fromSolarDate Sample.truetype
                2026 0 (Some 2053) Sample.blank
              = (Raise EphemerisRangeError, SampleRun.page_2053))
    by (vm_compute; reflexivity).
  assert (H' : generate_calendar Sample.ephemeris Sample.fromSolarDate Sample.truetype
                 2026 7 None Sample.full_disk
               = (Raise OSError,
                  PIL.mkworld (PIL.canvas SampleRun.page_2026)
                    (PIL.store "calendar.png" PIL.Truncated (PIL.files Sample.full_disk))))
    by (vm_compute; reflexivity).
  pose proof (failed_run_saves_no_picture Sample.ephemeris Sample.fromSolarDate
                Sample.truetype 2026 0 (Some 2053) Sample.blank EphemerisRangeError
                SampleRun.page_2053 H) as (K1 & _ & _).
  pose proof (failed_run_saves_no_picture Sample.ephemeris Sample.fromSolarDate
                Sample.truetype 2026 7 None Sample.full_disk OSError _ H')
    as (_ & K2 & _).
  split; [exact H|]. split.
  - destruct K1 as [K1 | (K1 & _)]; [exact K1 | discriminate K1].
  - split; [exact H'|]. split; [reflexivity | exact K2].
Defined.
